(** * ClusteredKNN: a shallow embedding of [Methods/Vectorized_Clustered_KNN.py]

  The recommender keeps, per user, a profile built from the interaction log
  (good items, their cluster labels, the set of previously seen items) and a
  row of cosine scores against the whole catalog.  From these it emits at
  most [total_recommendations] ranked rows per user.

  Numbers.  Identifiers and ratings are integers ([Z]).  Scores, distances
  and embedding coordinates are floating point in the program; here they are
  rationals ([Q]) compared with [Qeq]/[Qlt], which is the order of finite
  floats.  Rounding of float arithmetic is not modelled.

  Library calls.  The values that [sklearn]'s cosine similarity,
  [NearestNeighbors], [HDBSCAN] and [numpy.argsort] return are parameters of
  the development (the class [Sklearn]): the theorems hold for whatever
  these functions return, and [Reference.lib] is an instance to run the
  engine on concrete tables.  The checks these calls make on the shape of
  their arguments are part of the embedding.  [heapq.heapify] follows
  CPython's [Lib/heapq.py]; [heapq.nlargest] and [sorted] are given by their
  documented meaning (a stable sort).

  Failures.  A call returns [Ok], raises ([ValueError] from [np.vstack],
  [np.array], [cosine_similarity], a boolean mask and the neighbour query,
  [IndexError] from a position outside a table, [KeyError] from a registry),
  or runs out of fuel ([Diverge]).

  The file has two parts: the embedding (definitions, examples and the
  vocabulary of the statements), then the properties. *)

From Stdlib Require Import List ZArith QArith Qround Lia Lqa Bool Arith.
From Stdlib Require Import Permutation Sorted.
From Stdlib Require String.
Import String.StringSyntax.
Delimit Scope string_scope with string.
From Equations Require Import Equations.
Import ListNotations.

Local Open Scope Z_scope.

(** ** Outcomes of a call *)

Inductive exn : Type := ValueError | IndexError | KeyError.

(** [Diverge] is a loop that used up its fuel: the [while] of
  [generate_user_profiles] does not terminate for a batch size below one. *)
Inductive result (A : Type) : Type :=
  | Ok (a : A)
  | Raise (e : exn)
  | Diverge.
Arguments Ok {A} a.
Arguments Raise {A} e.
Arguments Diverge {A}.

Definition bind {A B : Type} (m : result A) (k : A -> result B) : result B :=
  match m with
  | Ok a => k a
  | Raise e => Raise e
  | Diverge => Diverge
  end.

Notation "x <- m ;; k" := (bind m (fun x => k))
  (at level 61, m at next level, right associativity).

Definition of_option {A : Type} (e : exn) (o : option A) : result A :=
  match o with
  | Some a => Ok a
  | None => Raise e
  end.

(** [for x in xs: acc = f(acc, x)] where the body may raise. *)
Fixpoint for_each {A S : Type} (f : S -> A -> result S) (xs : list A) (s : S)
  : result S :=
  match xs with
  | [] => Ok s
  | x :: xs' => s' <- f s x ;; for_each f xs' s'
  end.

(** A comprehension whose element expression may raise. *)
Fixpoint map_result {A B : Type} (f : A -> result B) (xs : list A)
  : result (list B) :=
  match xs with
  | [] => Ok []
  | x :: xs' => y <- f x ;; ys <- map_result f xs' ;; Ok (y :: ys)
  end.

(** ** Python, numpy and pandas primitives *)

Module Py.

(** [x in values] / [Series.isin(values)] on integers. *)
Definition isin (x : Z) (values : list Z) : bool :=
  existsb (Z.eqb x) values.

(** [Series.unique()]: distinct values in order of first appearance. *)
Fixpoint unique (l : list Z) : list Z :=
  match l with
  | [] => []
  | x :: t => x :: filter (fun y => negb (y =? x)) (unique t)
  end.

(** [sorted(l, key=...)] is a stable sort.  [lt a b] is the comparison of
    the keys; an element moves past the ones that are strictly smaller. *)
Fixpoint insert_by {A : Type} (lt : A -> A -> bool) (x : A) (l : list A)
  : list A :=
  match l with
  | [] => [x]
  | y :: t => if lt y x then y :: insert_by lt x t else x :: y :: t
  end.

Definition sorted {A : Type} (lt : A -> A -> bool) (l : list A) : list A :=
  fold_right (insert_by lt) [] l.

(** [sorted(l, key=..., reverse=True)]: descending, and still stable. *)
Definition sorted_reverse {A : Type} (lt : A -> A -> bool) (l : list A)
  : list A :=
  sorted (fun a b => lt b a) l.

(** [enumerate(l, start)]. *)
Fixpoint enumerate {A : Type} (start : Z) (l : list A) : list (Z * A) :=
  match l with
  | [] => []
  | x :: t => (start, x) :: enumerate (start + 1) t
  end.

(** [l[:n]] and [l[n:]] with Python's reading of a negative bound. *)
Definition slice_to {A : Type} (l : list A) (n : Z) : list A :=
  if n <? 0 then firstn (Z.to_nat (Z.of_nat (length l) + n)) l
  else firstn (Z.to_nat n) l.

Definition slice_from {A : Type} (l : list A) (n : Z) : list A :=
  if n <? 0 then skipn (Z.to_nat (Z.of_nat (length l) + n)) l
  else skipn (Z.to_nat n) l.

(** [l[i] = x] for an index inside the list (the only use below). *)
Fixpoint setitem {A : Type} (l : list A) (i : nat) (x : A) : list A :=
  match l, i with
  | [], _ => []
  | _ :: t, O => x :: t
  | y :: t, S i' => y :: setitem t i' x
  end.

(** [round(x)] of a float: to the nearest integer, halves to the even one. *)
Definition round (x : Q) : Z :=
  let f := Qfloor x in
  match Qcompare (x - inject_Z f) (1 # 2) with
  | Lt => f
  | Gt => f + 1
  | Eq => if Z.even f then f else f + 1
  end.

(** *** dict: insertion ordered, one entry per key *)

Definition dict (V : Type) : Type := list (Z * V).

Fixpoint dict_get {V : Type} (k : Z) (d : dict V) : option V :=
  match d with
  | [] => None
  | (k', v) :: d' => if k =? k' then Some v else dict_get k d'
  end.

(** [d[k] = v]: an existing key keeps its place, a new key goes last. *)
Fixpoint dict_set {V : Type} (k : Z) (v : V) (d : dict V) : dict V :=
  match d with
  | [] => [(k, v)]
  | (k', v') :: d' =>
      if k =? k' then (k, v) :: d' else (k', v') :: dict_set k v d'
  end.

Definition keys {V : Type} (d : dict V) : list Z := map fst d.

(** [d[k]], raising [KeyError]. *)
Definition getitem {V : Type} (d : dict V) (k : Z) : result V :=
  of_option KeyError (dict_get k d).

End Py.

(** ** heapq (CPython's [Lib/heapq.py]) *)

Module Heapq.
Section WithOrder.

Context {A : Type} (lt : A -> A -> bool).

(** [_siftdown(heap, startpos, pos)], with [newitem = heap[pos]] read by
    the caller: parents larger than [newitem] move down one level. *)
Equations siftdown (heap : list A) (startpos pos : nat) (newitem : A)
  : list A by wf pos Nat.lt :=
  siftdown heap startpos 0 newitem := Py.setitem heap 0 newitem;
  siftdown heap startpos (S p) newitem with Nat.ltb startpos (S p) => {
    | false := Py.setitem heap (S p) newitem
    | true with lt newitem (nth (p / 2) heap newitem) => {
        | true := siftdown
                    (Py.setitem heap (S p) (nth (p / 2) heap newitem))
                    startpos (p / 2) newitem
        | false := Py.setitem heap (S p) newitem } }.
Next Obligation.
  apply Nat.lt_succ_r. change (p / 2 <= p)%nat.
  apply Nat.Div0.div_le_upper_bound; lia.
Qed.

(** The [while childpos < endpos] loop of [_siftup]: the smaller child
    moves up until the hole at [pos] is a leaf.  Returns the heap and the
    position of the hole. *)
Definition smaller_child (heap : list A) (endpos childpos : nat) (d : A)
  : nat :=
  let rightpos := (childpos + 1)%nat in
  if Nat.ltb rightpos endpos
     && negb (lt (nth childpos heap d) (nth rightpos heap d))
  then rightpos else childpos.

Equations siftup_loop (heap : list A) (endpos pos : nat) (newitem : A)
  : list A * nat by wf (endpos - pos)%nat Nat.lt :=
  siftup_loop heap endpos pos newitem with lt_dec (2 * pos + 1) endpos => {
    | left _ :=
        siftup_loop
          (Py.setitem heap pos
             (nth (smaller_child heap endpos (2 * pos + 1) newitem) heap
                  newitem))
          endpos (smaller_child heap endpos (2 * pos + 1) newitem) newitem
    | right _ := (heap, pos) }.
Next Obligation.
  unfold smaller_child, Nat.lt.
  destruct (Nat.ltb (pos + (pos + 0) + 1 + 1) endpos) eqn:E; simpl;
    [apply Nat.ltb_lt in E; destruct (lt _ _); simpl |]; lia.
Qed.

(** [_siftup(heap, pos)]. *)
Definition siftup (heap : list A) (pos : nat) : list A :=
  match nth_error heap pos with
  | None => heap
  | Some newitem =>
      let '(heap', pos') := siftup_loop heap (length heap) pos newitem in
      siftdown (Py.setitem heap' pos' newitem) pos pos' newitem
  end.

(** [heapify(x)]: [for i in reversed(range(n//2)): _siftup(x, i)]. *)
Definition heapify (x : list A) : list A :=
  fold_left siftup (rev (seq 0 (length x / 2))) x.

End WithOrder.

(** [nlargest(n, iterable, key)], by its documented meaning
    [sorted(iterable, key=key, reverse=True)[:n]]. *)
Definition nlargest {A : Type} (key_lt : A -> A -> bool) (n : nat)
  (iterable : list A) : list A :=
  firstn n (Py.sorted_reverse key_lt iterable).

End Heapq.

(** ** numpy on vectors *)

Definition vec : Type := list Q.

Module Np.

(** [np.vstack(rows)]: raises on no rows and on rows of different sizes. *)
Definition vstack (rows : list vec) : result (list vec) :=
  match rows with
  | [] => Raise ValueError
  | r :: t =>
      if forallb (fun r' => Nat.eqb (length r') (length r)) t
      then Ok rows else Raise ValueError
  end.

(** Rows of one size. *)
Definition same_sizes (rows : list vec) : bool :=
  match rows with
  | [] => true
  | r :: t => forallb (fun r' => Nat.eqb (length r') (length r)) t
  end.

(** [np.array(rows)] of a list of vectors: rows of different sizes are
    refused. *)
Definition array (rows : list vec) : result (list vec) :=
  if same_sizes rows then Ok rows else Raise ValueError.

(** [m.shape[1]] of a stacked matrix. *)
Definition shape1 (m : list vec) : nat := length (hd [] m).

Definition zeros (n : nat) : vec := repeat 0%Q n.

Fixpoint add (a b : vec) : vec :=
  match a, b with
  | x :: a', y :: b' => (x + y)%Q :: add a' b'
  | _, _ => []
  end.

(** [np.mean(m, axis=0)] of a non-empty matrix with rows of one size. *)
Definition mean_axis0 (m : list vec) : vec :=
  match m with
  | [] => []
  | r :: t =>
      map (fun s => (s / inject_Z (Z.of_nat (length m)))%Q)
          (fold_left add t r)
  end.

End Np.

(** ** Data model *)

(** A row of [content_df]: the id column and the attribute (embedding) column. *)
Record content_row : Type := mk_content {
content_id : Z;
embedding : vec }.

(** A row of [interactions_df]. *)
Record interaction : Type := mk_interaction {
user_id : Z;
item_id : Z;
rating : Z }.

(** An entry of [self.user_profiles]. *)
Record profile : Type := mk_profile {
content : list content_row;
clusters : list Z;
previous_interactions : list Z }.

(** [(user_id, content_id, recommendation_score)]. *)
Definition candidate : Type := Z * Z * Q.

(** A row of [recommendations_df]. *)
Record recommendation : Type := mk_recommendation {
rec_user_id : Z;
rec_content_id : Z;
recommendation_rank : Z;
module_source : String.string }.

(** The object: the three input tables and the attributes the methods set. *)
Record Recommender : Type := mk_self {
content_df : list content_row;
interactions_df : list interaction;
users_df : list Z;
all_vectors : list vec;
cosine_scores : Py.dict (list Q);
user_profiles : Py.dict profile;
recommendations_df : list recommendation }.

(** Modelled from the spec: the base class [Recommender] (its [__init__] and
  the column names) is not among the sources.  Profiles are built fresh each
  run, so the two registries start empty. *)
Definition ClusteredKNN (content_df : list content_row)
(interactions_df : list interaction) (users_df : list Z) : Recommender :=
mk_self content_df interactions_df users_df [] [] [] [].

Definition set_all_vectors (self : Recommender) (m : list vec) : Recommender :=
mk_self (content_df self) (interactions_df self) (users_df self) m
        (cosine_scores self) (user_profiles self) (recommendations_df self).

Definition set_user (self : Recommender) (uid : Z) (scores : list Q)
(p : profile) : Recommender :=
mk_self (content_df self) (interactions_df self) (users_df self)
        (all_vectors self)
        (Py.dict_set uid scores (cosine_scores self))
        (Py.dict_set uid p (user_profiles self))
        (recommendations_df self).

Definition set_recommendations_df (self : Recommender)
(rows : list recommendation) : Recommender :=
mk_self (content_df self) (interactions_df self) (users_df self)
        (all_vectors self) (cosine_scores self) (user_profiles self) rows.

(** Tuple comparison [a < b] on [(user_id, content_id, score)]: the first
  position where the two differ decides. *)
Definition Qltb (a b : Q) : bool := negb (Qle_bool b a).

Definition candidate_lt (a b : candidate) : bool :=
let '(ua, ca, sa) := a in
let '(ub, cb, sb) := b in
if ua =? ub then
  if ca =? cb then Qltb sa sb else ca <? cb
else ua <? ub.

(** Comparison of the keys [x[2]]. *)
Definition score_lt (a b : candidate) : bool := Qltb (snd a) (snd b).

Definition total_recommendations : nat := 50.

(** ** The library functions the engine calls

    [cosine u v] is the entry of [cosine_similarity([u], all_vectors)] for the
    row [v]; [cosine_distances] is sklearn's pairwise distance matrix;
    [argsort] is [np.argsort]; [kneighbors n X q] is what
    [NearestNeighbors(n_neighbors=n, metric='cosine', algorithm='brute')
    .fit(X).kneighbors([q])] returns, zipped into (distance, index) pairs;
    [fit_predict] is [HDBSCAN(min_cluster_size=5, min_samples=3,
    metric='precomputed', cluster_selection_method='eom').fit_predict]. *)
Class Sklearn : Type := {
  cosine : vec -> vec -> Q;
  cosine_distances : list vec -> list (list Q);
  argsort : list Q -> list nat;
  kneighbors : nat -> list vec -> vec -> list (Q * nat);
  fit_predict : list (list Q) -> list Z }.

Section Engine.

Context {lib : Sklearn}.

(** The check sklearn makes on the two arrays of a pairwise computation
    ([check_pairwise_arrays]): each has at least one row and one column, and
    both have the same number of columns.  [X] is the one row of the first
    array. *)
Definition pairwise_ok (X : vec) (Y : list vec) : bool :=
  negb (Nat.eqb (length X) 0) && negb (Nat.eqb (length Y) 0)
  && forallb (fun r => Nat.eqb (length r) (length X)) Y.

(** [cosine_similarity([X], Y)[0]]: [ValueError] when the check fails. *)
Definition cosine_similarity (X : vec) (Y : list vec) : result (list Q) :=
  if pairwise_ok X Y then Ok (map (cosine X) Y) else Raise ValueError.

(** [NearestNeighbors(n_neighbors=n, ...).fit(X).kneighbors([q])]: sklearn
    refuses a count below one or above the number of fitted rows. *)
Definition knn_query (n : Z) (X : list vec) (q : vec)
  : result (list (Q * nat)) :=
  if (n <? 1) || (Z.of_nat (length X) <? n) then Raise ValueError
  else Ok (kneighbors (Z.to_nat n) X q).

(** *** generate_user_profiles *)

(** The set [set(a).union(set(b))], kept as a duplicate-free list. *)
Definition set_union (a b : list Z) : list Z :=
  a ++ filter (fun x => negb (Py.isin x a)) b.

(** Lines 158-201: what the body of the loop over the users of a batch
    computes from the rows of one user: the row of cosine scores and the
    profile.  It raises where [np.array] (line 172) or [cosine_similarity]
    (line 181) refuses its argument.  [cosine_distances] (line 189) is
    called on the good vectors after both have accepted them: the vectors
    have one size, which is not zero, and there are five or more. *)
Definition user_entry (all_vectors : list vec) (batch_content : list content_row)
  (interactions : list interaction) : result (list Q * profile) :=
  let good_interactions :=
    filter (fun i => Py.isin (rating i) [4; 5]) interactions in
  let negative_interactions :=
    filter (fun i => Py.isin (rating i) [1; 2]) interactions in
  let good_content :=
    filter (fun c => Py.isin (content_id c) (map item_id good_interactions))
           batch_content in
  let good_vectors := map embedding good_content in
  positive_vector <-
    match good_vectors with
    | [] => Ok (Np.zeros (Np.shape1 all_vectors))
    | _ :: _ => m <- Np.array good_vectors ;; Ok (Np.mean_axis0 m)
    end ;;
  let user_vector := positive_vector in
  scores <- cosine_similarity user_vector all_vectors ;;
  let user_clusters :=
    if (length good_content <? 5)%nat
    then map Z.of_nat (seq 0 (length good_content))
    else fit_predict (cosine_distances good_vectors) in
  let previous_interactions :=
    set_union (Py.unique (map item_id good_interactions))
              (Py.unique (map item_id negative_interactions)) in
  Ok (scores, mk_profile good_content user_clusters previous_interactions).

(** Lines 181 and 204-208: the two registries get the entry of the user. *)
Definition profile_user (self : Recommender) (batch_content : list content_row)
  (uid : Z) (interactions : list interaction) : result Recommender :=
  e <- user_entry (all_vectors self) batch_content interactions ;;
  Ok (set_user self uid (fst e) (snd e)).

(** [df.groupby(user_id_column)]: one group per user, users ascending, the
    rows of a group in table order. *)
Definition groupby_user (df : list interaction)
  : list (Z * list interaction) :=
  map (fun u => (u, filter (fun i => user_id i =? u) df))
      (Py.sorted Z.ltb (Py.unique (map user_id df))).

(** Lines 149-208: one batch. *)
Definition profile_batch (self : Recommender) (user_id_chunk : list Z)
  : result Recommender :=
  let batch_interactions :=
    filter (fun i => Py.isin (user_id i) user_id_chunk)
           (interactions_df self) in
  let batch_content :=
    filter (fun c => Py.isin (content_id c) (map item_id batch_interactions))
           (content_df self) in
  for_each (fun s g => profile_user s batch_content (fst g) (snd g))
           (groupby_user batch_interactions) self.

(** Lines 142-208: [while remaining_users > 0]. *)
Fixpoint profile_batches (fuel : nat) (batch_size : Z) (user_ids : list Z)
  (remaining_users : Z) (self : Recommender) : result Recommender :=
  if 0 <? remaining_users then
    match fuel with
    | O => Diverge
    | S fuel' =>
        let current_batch_size := Z.min batch_size remaining_users in
        let user_id_chunk := Py.slice_to user_ids current_batch_size in
        let user_ids' := Py.slice_from user_ids current_batch_size in
        let remaining_users' := remaining_users - current_batch_size in
        self' <- profile_batch self user_id_chunk ;;
        profile_batches fuel' batch_size user_ids' remaining_users' self'
    end
  else Ok self.

Definition generate_user_profiles (fuel : nat) (batch_size : Z)
  (self : Recommender) : result Recommender :=
  let user_ids := Py.unique (map user_id (interactions_df self)) in
  profile_batches fuel batch_size user_ids (Z.of_nat (length user_ids)) self.

(** *** generate_recommendations *)

(** [self.content_df.iloc[idx][self.content_id_column]]. *)
Definition iloc_content_id (self : Recommender) (idx : nat) : result Z :=
  of_option IndexError (option_map content_id (nth_error (content_df self) idx)).

(** [self.cosine_scores[user_id][idx]]. *)
Definition cosine_score (self : Recommender) (uid : Z) (idx : nat) : result Q :=
  scores <- Py.getitem (cosine_scores self) uid ;;
  of_option IndexError (nth_error scores idx).

(** Lines 58-64, and again lines 94-100: the walk over [top_indices].  The
    two loops of the source have the same text. *)
Fixpoint walk_top_indices (self : Recommender) (uid : Z)
  (user_previous_interactions : list Z) (top_indices : list nat)
  (user_recommendations : list candidate) : result (list candidate) :=
  match top_indices with
  | [] => Ok user_recommendations
  | idx :: rest =>
      if (total_recommendations <=? length user_recommendations)%nat
      then Ok user_recommendations
      else
        cid <- iloc_content_id self idx ;;
        if negb (Py.isin cid user_previous_interactions) then
          recommendation_score <- cosine_score self uid idx ;;
          walk_top_indices self uid user_previous_interactions rest
            (user_recommendations ++ [(uid, cid, recommendation_score)])
        else
          walk_top_indices self uid user_previous_interactions rest
            user_recommendations
  end.

(** Lines 85-91: the loop over the neighbours of one cluster.  [break]
    leaves this loop only. *)
Fixpoint emit_neighbors (self : Recommender) (uid : Z)
  (user_previous_interactions : list Z) (neighbors : list (Q * nat))
  (user_recommendations : list candidate) : result (list candidate) :=
  match neighbors with
  | [] => Ok user_recommendations
  | (dist, idx) :: rest =>
      cid <- iloc_content_id self idx ;;
      if negb (Py.isin cid user_previous_interactions) then
        let recommendation_score := (1 - dist)%Q in
        let user_recommendations' :=
          user_recommendations ++ [(uid, cid, recommendation_score)] in
        if (total_recommendations <=? length user_recommendations')%nat
        then Ok user_recommendations'
        else emit_neighbors self uid user_previous_interactions rest
               user_recommendations'
      else
        emit_neighbors self uid user_previous_interactions rest
          user_recommendations
  end.

(** [pd.Series(labels).value_counts(normalize=True)]: the distinct labels
    with their share of the rows, most frequent first; labels of equal
    frequency stay in order of first appearance. *)
Definition value_counts_normalize (labels : list Z) : list (Z * Q) :=
  let counts :=
    map (fun k => (k, count_occ Z.eq_dec labels k)) (Py.unique labels) in
  map (fun kc => (fst kc,
                  (inject_Z (Z.of_nat (snd kc))
                   / inject_Z (Z.of_nat (length labels)))%Q))
      (Py.sorted_reverse (fun a b => Nat.ltb (snd a) (snd b)) counts).

(** [user_content[user_clusters == cluster]]: a boolean mask must have one
    entry per row. *)
Definition mask_rows (user_content : list content_row) (user_clusters : list Z)
  (cluster : Z) : result (list content_row) :=
  if Nat.eqb (length user_content) (length user_clusters) then
    Ok (map fst (filter (fun rl => snd rl =? cluster)
                        (combine user_content user_clusters)))
  else Raise ValueError.

(** Line 71. *)
Definition cluster_recommendation_count (total : Z) (proportion : Q) : Z :=
  Z.max 1 (Py.round (inject_Z total * proportion)).

(** Line 77. *)
Definition n_neighbors (count : Z) (catalog_size : nat) : Z :=
  Z.min count (Z.of_nat catalog_size).

(** Lines 68-91: the body of the loop over [cluster_counts.items()]. *)
Definition cluster_step (self : Recommender) (uid : Z) (p : profile)
  (user_recommendations : list candidate) (item : Z * Q)
  : result (list candidate) :=
  let '(cluster, proportion) := item in
  if cluster =? -1 then Ok user_recommendations
  else
    let count :=
      cluster_recommendation_count (Z.of_nat total_recommendations) proportion in
    rows <- mask_rows (content p) (clusters p) cluster ;;
    m <- Np.vstack (map embedding rows) ;;
    let cluster_vector := Np.mean_axis0 m in
    neighbors <- knn_query (n_neighbors count (length (all_vectors self)))
                           (all_vectors self) cluster_vector ;;
    emit_neighbors self uid (previous_interactions p) neighbors
                   user_recommendations.

(** Lines 51-100: the candidate list of one user. *)
Definition user_candidates (self : Recommender) (uid : Z)
  (top_indices : list nat) : result (list candidate) :=
  p <- Py.getitem (user_profiles self) uid ;;
  user_recommendations <-
    (if (length (Py.unique (map content_id (content p))) <? 5)%nat
     then walk_top_indices self uid (previous_interactions p) top_indices []
     else for_each (cluster_step self uid p)
                   (value_counts_normalize (clusters p)) []) ;;
  walk_top_indices self uid (previous_interactions p) top_indices
                   user_recommendations.

(** Line 107: [(uid, cid, rank) for rank, (uid, cid, _) in ...]. *)
Definition number (rk : Z * candidate) : Z * Z * Z :=
  let '(rank, (uid, cid, _)) := rk in (uid, cid, rank).

(** Lines 103-108: heapify, keep the top, number them. *)
Definition rank_candidates (user_recommendations : list candidate)
  : list (Z * Z * Z) :=
  let heap := Heapq.heapify candidate_lt user_recommendations in
  let top_recommendations :=
    Heapq.nlargest score_lt total_recommendations heap in
  map number
      (Py.enumerate 1 (Py.sorted_reverse score_lt top_recommendations)).

Definition recommend_user (self : Recommender) (uid : Z)
  (top_indices : list nat) : result (list (Z * Z * Z)) :=
  user_recommendations <- user_candidates self uid top_indices ;;
  Ok (rank_candidates user_recommendations).

(** Lines 47-48. *)
Definition cosine_top_indices (self : Recommender)
  : result (list (Z * list nat)) :=
  map_result (fun uid =>
                scores <- Py.getitem (cosine_scores self) uid ;;
                Ok (uid, firstn 2000 (rev (argsort scores))))
             (Py.keys (user_profiles self)).

Definition module_source_value : String.string := "content_based"%string.

Definition add_source (r : Z * Z * Z) : recommendation :=
  let '(uid, cid, rank) := r in
  mk_recommendation uid cid rank module_source_value.

Definition generate_recommendations (self : Recommender) : result Recommender :=
  tops <- cosine_top_indices self ;;
  all_recommendations <-
    for_each (fun acc ut =>
                rows <- recommend_user self (fst ut) (snd ut) ;;
                Ok (acc ++ rows))
             tops [] ;;
  Ok (set_recommendations_df self (map add_source all_recommendations)).

(** *** get_recommendations *)

Definition default_batch_size : Z := 20.

Definition get_recommendations (self : Recommender)
  : result (list recommendation) :=
  m <- Np.vstack (map embedding (content_df self)) ;;
  let self1 := set_all_vectors self m in
  self2 <- generate_user_profiles
             (S (length (interactions_df self1))) default_batch_size self1 ;;
  self3 <- generate_recommendations self2 ;;
  Ok (recommendations_df self3).

End Engine.

(** ** A reference instance of the library functions

    Used to run the engine on concrete tables.  The cosine is exact whenever
    the product of the two squared norms is a square of a rational with a
    small denominator, and is otherwise accurate to sixty binary digits;
    sorting and neighbour search are stable (ties keep catalog order); the
    clusterer groups rows at distance zero and calls groups of fewer than five
    rows noise. *)

Module Reference.

Definition dot (u v : vec) : Q :=
  fold_left (fun acc xy => (acc + fst xy * snd xy)%Q) (combine u v) 0%Q.

Definition qsqrt (q : Q) : Q :=
  let k := (2 ^ 60)%Z in
  Qred (Qmake (Z.sqrt (Qnum q * Zpos (Qden q) * k * k)) (Qden q * Z.to_pos k)).

Definition cosine (u v : vec) : Q :=
  let n := (dot u u * dot v v)%Q in
  if Qle_bool n 0 then 0%Q else Qred (dot u v / qsqrt n).

Definition cosine_distances (X : list vec) : list (list Q) :=
  map (fun a => map (fun b => Qred (1 - cosine a b)) X) X.

Definition argsort (l : list Q) : list nat :=
  Py.sorted (fun i j => Qltb (nth i l 0%Q) (nth j l 0%Q)) (seq 0 (length l)).

Definition kneighbors (n : nat) (X : list vec) (q : vec) : list (Q * nat) :=
  firstn n
    (Py.sorted (fun a b => Qltb (fst a) (fst b))
       (combine (map (fun v => Qred (1 - cosine q v)) X) (seq 0 (length X)))).

(** The first row at distance zero of row [i]. *)
Fixpoint leader (row : list Q) (j : nat) : nat :=
  match row with
  | [] => j
  | d :: t => if Qle_bool d 0 then j else leader t (S j)
  end.

Definition fit_predict (D : list (list Q)) : list Z :=
  let leaders := map (fun row => leader row 0) D in
  let big := filter (fun g => (5 <=? count_occ Nat.eq_dec leaders g)%nat)
                    (nodup Nat.eq_dec leaders) in
  map (fun g =>
         match find (fun ig => Nat.eqb (snd ig) g)
                    (combine (seq 0 (length big)) big) with
         | Some (i, _) => Z.of_nat i
         | None => (-1)%Z
         end) leaders.

#[export] Instance lib : Sklearn := {
  cosine := cosine;
  cosine_distances := cosine_distances;
  argsort := argsort;
  kneighbors := kneighbors;
  fit_predict := fit_predict }.

End Reference.

(** ** Concrete tables *)

Module ExampleA.

(** Example A of the specification. *)
Definition catalog : list content_row :=
  [ mk_content 101 [1; 0]%Q; mk_content 102 [0; 1]%Q;
    mk_content 103 [1; 1]%Q; mk_content 104 [-1; 0]%Q ].

Definition interactions : list interaction :=
  [ mk_interaction 1 101 5; mk_interaction 1 102 5; mk_interaction 1 103 1 ].

Definition self : Recommender := ClusteredKNN catalog interactions [1].

End ExampleA.

Module ExampleZero.

(** The catalog of Example A and a user without a good rating. *)
Definition interactions : list interaction :=
  [ mk_interaction 2 101 3; mk_interaction 2 102 1 ].

Definition self : Recommender :=
  set_all_vectors (ClusteredKNN ExampleA.catalog interactions [2])
                  (map embedding ExampleA.catalog).

End ExampleZero.

Module ExampleBatch.

(** The catalog of Example A and two users; the user met first in the log
    has the larger id. *)
Definition interactions : list interaction :=
  [ mk_interaction 2 101 5; mk_interaction 1 102 5 ].

Definition self : Recommender :=
  set_all_vectors (ClusteredKNN ExampleA.catalog interactions [1; 2])
                  (map embedding ExampleA.catalog).

End ExampleBatch.

Module ExampleSeen.

(** One item, which the only user has already rated. *)
Definition catalog : list content_row := [ mk_content 101 [1; 0]%Q ].

Definition interactions : list interaction := [ mk_interaction 1 101 5 ].

Definition self : Recommender := ClusteredKNN catalog interactions [1].

End ExampleSeen.

Module ExampleTies.

(** Two items with one embedding, hence one score, and a third item that the
    user has rated. *)
Definition catalog : list content_row :=
  [ mk_content 101 [1; 0]%Q; mk_content 102 [0; 1]%Q;
    mk_content 103 [0; 1]%Q ].

Definition interactions : list interaction := [ mk_interaction 1 101 5 ].

Definition self : Recommender := ClusteredKNN catalog interactions [1].

End ExampleTies.

Module ExampleCap.

(** Eleven directions.  The catalog has, for each direction, five items the
    user has not seen (ids 1000-1054), followed by five items the user rated
    5 (ids 2000-2054): eleven clusters of five good items. *)
Definition unit_vector (c : nat) : vec :=
  map (fun k => if Nat.eqb k c then 1%Q else 0%Q) (seq 0 11).

Definition block (base : Z) : list content_row :=
  map (fun i => mk_content (base + Z.of_nat i) (unit_vector (i / 5)))
      (seq 0 55).

Definition catalog : list content_row := block 1000 ++ block 2000.

Definition interactions : list interaction :=
  map (fun i => mk_interaction 1 (2000 + Z.of_nat i) 5) (seq 0 55).

Definition self : Recommender :=
  set_all_vectors (ClusteredKNN catalog interactions [1])
                  (map embedding catalog).

End ExampleCap.

Module ExampleOthers.

(** Example A with a second user in the log. *)
Definition interactions : list interaction :=
  mk_interaction 2 104 5 :: ExampleA.interactions ++ [ mk_interaction 2 101 1 ].

Definition self : Recommender :=
  ClusteredKNN ExampleA.catalog interactions [1; 2].

(** The table of a run with the reference library. *)
Definition table : list recommendation :=
  [ mk_recommendation 1 104 1 module_source_value;
    mk_recommendation 1 104 2 module_source_value;
    mk_recommendation 2 102 1 module_source_value;
    mk_recommendation 2 102 2 module_source_value;
    mk_recommendation 2 103 3 module_source_value;
    mk_recommendation 2 103 4 module_source_value ].

End ExampleOthers.

Module ExampleEmptyLog.

(** The catalog of Example A and no interaction. *)
Definition self : Recommender := ClusteredKNN ExampleA.catalog [] [1].

End ExampleEmptyLog.

Module ExampleNoise.

(** The catalog of [ExampleCap] and a user with five good items, one in
    each of five directions: the reference clusterer calls them all noise. *)
Definition interactions : list interaction :=
  map (fun i => mk_interaction 1 (2000 + 5 * Z.of_nat i) 5) (seq 0 5).

Definition self : Recommender :=
  ClusteredKNN ExampleCap.catalog interactions [1].

End ExampleNoise.

(** ** Vocabulary of the statements *)

(** A list in which no element is strictly below an earlier one: what
    [sorted] returns for the order [lt]. *)
Definition ascending {A : Type} (lt : A -> A -> bool) (l : list A) : Prop :=
  StronglySorted (fun a b => lt b a = false) l.

(** Descending scores: what [sorted(..., key=score, reverse=True)] returns. *)
Definition descending (l : list candidate) : Prop :=
  ascending (fun a b => score_lt b a) l.

(** The candidates that get a rank, in rank order: the first
    [total_recommendations] of the heapified list sorted by descending
    score. *)
Definition selected (user_recommendations : list candidate) : list candidate :=
  firstn total_recommendations
    (Py.sorted_reverse score_lt
       (Heapq.heapify candidate_lt user_recommendations)).

(** A candidate that carries the user's id and a content id outside the
    user's previous interactions. *)
Definition fresh_for (uid : Z) (prev : list Z) (c : candidate) : Prop :=
  fst (fst c) = uid /\ ~ In (snd (fst c)) prev.

(** The rows of one user: the body of the loop of lines 50-109 at the
    user's entry of [cosine_top_indices]. *)
Definition user_rows {lib : Sklearn} (self : Recommender) (uid : Z)
  : result (list (Z * Z * Z)) :=
  scores <- Py.getitem (cosine_scores self) uid ;;
  recommend_user self uid (firstn 2000 (rev (argsort scores))).

(** The users of the interaction log, in order of first appearance. *)
Definition log_users (self : Recommender) : list Z :=
  Py.unique (map user_id (interactions_df self)).

(** The rows of one user in the interaction log. *)
Definition rows_of_user (self : Recommender) (uid : Z) : list interaction :=
  filter (fun i => user_id i =? uid) (interactions_df self).

(** The parts of the loop body that raise nothing.  [good_content] is the
    table of lines 163-165, [user_vector] the vector of lines 171-178 and
    [user_profile] the profile of lines 183-208. *)
Definition good_content (batch_content : list content_row)
  (interactions : list interaction) : list content_row :=
  filter (fun c => Py.isin (content_id c)
            (map item_id (filter (fun i => Py.isin (rating i) [4; 5])
                                 interactions)))
         batch_content.

Definition user_vector (all_vectors : list vec)
  (batch_content : list content_row) (interactions : list interaction) : vec :=
  match map embedding (good_content batch_content interactions) with
  | [] => Np.zeros (Np.shape1 all_vectors)
  | _ :: _ => Np.mean_axis0 (map embedding (good_content batch_content interactions))
  end.

Definition user_profile {lib : Sklearn} (batch_content : list content_row)
  (interactions : list interaction) : profile :=
  let gc := good_content batch_content interactions in
  mk_profile gc
    (if (length gc <? 5)%nat then map Z.of_nat (seq 0 (length gc))
     else fit_predict (cosine_distances (map embedding gc)))
    (set_union
       (Py.unique (map item_id (filter (fun i => Py.isin (rating i) [4; 5])
                                       interactions)))
       (Py.unique (map item_id (filter (fun i => Py.isin (rating i) [1; 2])
                                       interactions)))).

(** Whether the loop body goes through for a user: the good vectors make
    an array (line 172) and the user's vector passes the check of
    [cosine_similarity] against [all_vectors] (line 181). *)
Definition accepts (all_vectors : list vec) (batch_content : list content_row)
  (interactions : list interaction) : bool :=
  Np.same_sizes (map embedding (good_content batch_content interactions))
  && pairwise_ok (user_vector all_vectors batch_content interactions)
                 all_vectors.

(** The entry that the loop body stores for a user when it goes through,
    computed from the whole tables rather than from the tables of a batch:
    the row of cosine scores and the profile. *)
Definition entry_of {lib : Sklearn} (self : Recommender) (uid : Z)
  : list Q * profile :=
  (map (cosine (user_vector (all_vectors self) (content_df self)
                            (rows_of_user self uid)))
       (all_vectors self),
   user_profile (content_df self) (rows_of_user self uid)).

Definition accepted (self : Recommender) (uid : Z) : bool :=
  accepts (all_vectors self) (content_df self) (rows_of_user self uid).

(** The object as line 26 leaves it: [all_vectors] is the stacked catalog,
    and the embeddings have at least one coordinate. *)
Definition catalog_stacked (self : Recommender) : Prop :=
  Np.vstack (map embedding (content_df self)) = Ok (all_vectors self) /\
  (1 <= Np.shape1 (all_vectors self))%nat.

(** The loop body applied to a list of users in turn. *)
Definition store_users {lib : Sklearn} (us : list Z) (self : Recommender)
  : Recommender :=
  fold_left (fun s u => set_user s u (fst (entry_of s u)) (snd (entry_of s u)))
            us self.

(** The object with both registries replaced. *)
Definition set_registries (self : Recommender) (scores : Py.dict (list Q))
  (profiles : Py.dict profile) : Recommender :=
  mk_self (content_df self) (interactions_df self) (users_df self)
          (all_vectors self) scores profiles (recommendations_df self).

(** The object once the profiles of the users [order] are stored in a
    fresh pair of registries. *)
Definition profiled {lib : Sklearn} (self : Recommender) (order : list Z)
  : Recommender :=
  set_registries self
    (map (fun u => (u, fst (entry_of self u))) order)
    (map (fun u => (u, snd (entry_of self u))) order).

(** The rows of the output table that belong to one user. *)
Definition rows_for (u : Z) (table : list recommendation)
  : list recommendation :=
  filter (fun r => rec_user_id r =? u) table.

(** The previous interactions of a user, read off the interaction log: the
    items the user rated 4-5, then those rated 1-2. *)
Definition previous_of (self : Recommender) (u : Z) : list Z :=
  set_union
    (Py.unique (map item_id (filter (fun i => Py.isin (rating i) [4; 5])
                                    (rows_of_user self u))))
    (Py.unique (map item_id (filter (fun i => Py.isin (rating i) [1; 2])
                                    (rows_of_user self u)))).

(** The rows of a user, or none where the user's computation raises. *)
Definition rows_or_nil {lib : Sklearn} (s : Recommender) (u : Z)
  : list (Z * Z * Z) :=
  match user_rows s u with
  | Ok rows => rows
  | _ => []
  end.

(** The object with another users table. *)
Definition with_users (self : Recommender) (users : list Z) : Recommender :=
  mk_self (content_df self) (interactions_df self) users (all_vectors self)
          (cosine_scores self) (user_profiles self) (recommendations_df self).

(** The fallback pool of a user with the given row of scores (line 47). *)
Definition fallback_pool {lib : Sklearn} (scores : list Q) : list nat :=
  firstn 2000 (rev (argsort scores)).

(** The slot count of every cluster but the noise one (lines 67-71). *)
Definition slot_counts (total : Z) (cluster_counts : list (Z * Q))
  : list (Z * Z) :=
  map (fun cp => (fst cp, cluster_recommendation_count total (snd cp)))
      (filter (fun cp => negb (fst cp =? -1)) cluster_counts).

(** The ranking in the words of the specification: the top
    [total_recommendations] by descending score, ties in the order in which
    the candidates were appended. *)
Definition rank_by_insertion_order (user_recommendations : list candidate)
  : list (Z * Z * Z) :=
  map number
      (Py.enumerate 1
         (firstn total_recommendations
            (Py.sorted_reverse score_lt user_recommendations))).

(** The candidates of one score. *)
Definition with_score (s : Q) (l : list candidate) : list candidate :=
  filter (fun c => Qeq_bool (snd c) s) l.

(** The candidate the walk over [top_indices] appends for a catalog
    position, and the test it makes first. *)
Definition pool_candidate (self : Recommender) (uid : Z) (scores : list Q)
  (idx : nat) : candidate :=
  (uid, nth idx (map content_id (content_df self)) 0, nth idx scores 0%Q).

Definition eligible (self : Recommender) (prev : list Z) (idx : nat) : bool :=
  negb (Py.isin (nth idx (map content_id (content_df self)) 0) prev).

(** [user_ids] cut into consecutive batches of [batch_size] users, and the
    order in which the batch loop stores the users: batch after batch, by
    ascending id inside a batch (the order of [groupby]). *)
Fixpoint batches (fuel : nat) (batch_size : nat) (user_ids : list Z)
  : list (list Z) :=
  match fuel, user_ids with
  | S fuel', _ :: _ =>
      firstn batch_size user_ids
      :: batches fuel' batch_size (skipn batch_size user_ids)
  | _, _ => []
  end.

Definition processing_order (batch_size : Z) (user_ids : list Z) : list Z :=
  flat_map (Py.sorted Z.ltb)
           (batches (length user_ids) (Z.to_nat batch_size) user_ids).

(** The object once line 26 has stacked the catalog. *)
Definition stacked (self : Recommender) : Recommender :=
  set_all_vectors self (map embedding (content_df self)).

(** The order in which a run stores and then serves the users. *)
Definition run_order (self : Recommender) : list Z :=
  processing_order default_batch_size (log_users self).

(** Lines 26-32: the object as a call of [get_recommendations] leaves it;
    line 34 returns its [recommendations_df]. *)
Definition get_recommendations_state {lib : Sklearn} (self : Recommender)
  : result Recommender :=
  m <- Np.vstack (map embedding (content_df self)) ;;
  let self1 := set_all_vectors self m in
  self2 <- generate_user_profiles
             (S (length (interactions_df self1))) default_batch_size self1 ;;
  generate_recommendations self2.

(** What the library functions are taken to return: [argsort] and
    [kneighbors] positions of their argument, the clusterer one label per
    row of the distance matrix, which has one row per vector. *)
Definition library_contract (lib : Sklearn) : Prop :=
  (forall l, Forall (fun idx => (idx < length l)%nat) (argsort l)) /\
  (forall n X q, Forall (fun di => (snd di < length X)%nat) (kneighbors n X q)) /\
  (forall D, length (fit_predict D) = length D) /\
  (forall X, length (cosine_distances X) = length X).

(** A call that returns, or raises one of the exceptions listed; it does
    not loop for ever. *)
Definition returns_or_raises {A : Type} (allowed : list exn) (r : result A)
  : Prop :=
  match r with
  | Ok _ => True
  | Raise e => In e allowed
  | Diverge => False
  end.

(** The candidate the loop over the neighbours of a cluster appends for a
    (distance, position) pair (lines 86-89). *)
Definition neighbor_candidate (self : Recommender) (uid : Z) (di : Q * nat)
  : candidate :=
  (uid, nth (snd di) (map content_id (content_df self)) 0, (1 - fst di)%Q).


(** * Properties *)

(** ** The outcome monad *)

Lemma bind_Ok_inv {A B : Type} (m : result A) (k : A -> result B) (b : B) :
  bind m k = Ok b -> exists a, m = Ok a /\ k a = Ok b.
Proof.
  destruct m as [a | e |]; simpl; intros H; try discriminate.
  exists a; split; [reflexivity | exact H].
Qed.

Ltac inv_bind H :=
  let a := fresh "a" in
  let Ha := fresh "Ha" in
  apply bind_Ok_inv in H; destruct H as (a & Ha & H).

Lemma map_result_Ok_inv {A B : Type} (f : A -> result B) xs ys :
  map_result f xs = Ok ys -> Forall2 (fun x y => f x = Ok y) xs ys.
Proof.
  revert ys. induction xs as [| x xs IH]; simpl; intros ys H.
  - inversion H. constructor.
  - inv_bind H. inv_bind H. inversion H; subst. constructor; auto.
Qed.

Lemma map_result_Ok_intro {A B : Type} (f : A -> result B) xs ys :
  Forall2 (fun x y => f x = Ok y) xs ys -> map_result f xs = Ok ys.
Proof.
  induction 1 as [| x y xs ys Hxy _ IH]; simpl; [reflexivity |].
  rewrite Hxy. simpl. rewrite IH. reflexivity.
Qed.

(** ** Membership, [unique], slices *)

Lemma isin_In x l : Py.isin x l = true <-> In x l.
Proof.
  unfold Py.isin. rewrite existsb_exists. split.
  - intros (y & Hy & E). apply Z.eqb_eq in E. subst. exact Hy.
  - intros H. exists x. split; [exact H | apply Z.eqb_refl].
Qed.

Lemma isin_false x l : Py.isin x l = false <-> ~ In x l.
Proof.
  rewrite <- isin_In. destruct (Py.isin x l); split; congruence.
Qed.

Lemma unique_In x l : In x (Py.unique l) <-> In x l.
Proof.
  induction l as [| y t IH]; simpl; [tauto |].
  rewrite filter_In, IH. split.
  - intros [H | [H _]]; auto.
  - intros [H | H]; [left; exact H |].
    destruct (Z.eq_dec y x) as [E | N]; [left; exact E | right].
    split; [exact H |]. apply negb_true_iff, Z.eqb_neq. congruence.
Qed.

Lemma unique_NoDup l : NoDup (Py.unique l).
Proof.
  induction l as [| y t IH]; simpl; constructor.
  - rewrite filter_In. intros [_ H].
    rewrite Z.eqb_refl in H. discriminate.
  - apply NoDup_filter. exact IH.
Qed.

Lemma slice_to_from {A : Type} (l : list A) n :
  Py.slice_to l n ++ Py.slice_from l n = l.
Proof.
  unfold Py.slice_to, Py.slice_from.
  destruct (n <? 0); apply firstn_skipn.
Qed.

(** ** [sorted] *)

Section Sorting.

Context {A : Type} (lt : A -> A -> bool).

Lemma insert_by_perm x l : Permutation (Py.insert_by lt x l) (x :: l).
Proof.
  induction l as [| y t IH]; simpl; [reflexivity |].
  destruct (lt y x); [| reflexivity].
  rewrite IH. apply perm_swap.
Qed.

Lemma sorted_perm l : Permutation (Py.sorted lt l) l.
Proof.
  induction l as [| x t IH]; simpl; [reflexivity |].
  rewrite insert_by_perm, IH. reflexivity.
Qed.

Lemma sorted_length l : length (Py.sorted lt l) = length l.
Proof. apply Permutation_length, sorted_perm. Qed.

Lemma sorted_In x l : In x (Py.sorted lt l) <-> In x l.
Proof.
  split; apply Permutation_in; [| symmetry]; apply sorted_perm.
Qed.

(** Stability: the elements that satisfy a predicate compatible with the
    order (here: a class of equal keys) keep their relative order. *)
Lemma insert_by_filter (p : A -> bool) x l :
  (forall y, In y l -> p x = true -> p y = true -> lt y x = false) ->
  filter p (Py.insert_by lt x l) = filter p (x :: l).
Proof.
  induction l as [| y t IH]; intros Hc; [reflexivity |].
  simpl. destruct (lt y x) eqn:E.
  - simpl. rewrite IH by (intros; apply Hc; simpl; auto).
    simpl. destruct (p x) eqn:Px, (p y) eqn:Py0; try reflexivity.
    rewrite Hc in E; simpl; auto; discriminate.
  - reflexivity.
Qed.

Lemma sorted_filter (p : A -> bool) l :
  (forall x y, p x = true -> p y = true -> lt y x = false) ->
  filter p (Py.sorted lt l) = filter p l.
Proof.
  intros Hc. induction l as [| x t IH]; [reflexivity |].
  simpl Py.sorted. fold (Py.sorted lt t).
  rewrite insert_by_filter by (intros; apply Hc; assumption).
  simpl. rewrite IH. reflexivity.
Qed.

End Sorting.

Lemma In_firstn_inv {A : Type} (x : A) n l : In x (firstn n l) -> In x l.
Proof.
  intros H. rewrite <- (firstn_skipn n l). apply in_or_app. left. exact H.
Qed.

Section SortedOrder.

Context {A : Type} (lt : A -> A -> bool).

(** [lt] is a strict weak order: asymmetric, and "not below" is transitive. *)
Hypothesis lt_asym : forall a b, lt a b = true -> lt b a = false.
Hypothesis le_trans :
  forall a b c, lt b a = false -> lt c b = false -> lt c a = false.

Lemma insert_by_ascending x l :
  ascending lt l -> ascending lt (Py.insert_by lt x l).
Proof.
  unfold ascending. induction 1 as [| y t Ht IH Hy]; simpl.
  - constructor; constructor.
  - destruct (lt y x) eqn:E.
    + constructor; [exact IH |].
      apply Forall_forall. intros z Hz.
      apply (Permutation_in _ (insert_by_perm lt x t)) in Hz.
      destruct Hz as [<- | Hz]; [apply lt_asym; exact E |].
      rewrite Forall_forall in Hy. apply Hy. exact Hz.
    + constructor; [constructor; assumption |].
      constructor; [exact E |].
      apply Forall_forall. intros z Hz.
      rewrite Forall_forall in Hy. apply (le_trans x y z E). apply Hy, Hz.
Qed.

Lemma sorted_ascending l : ascending lt (Py.sorted lt l).
Proof.
  induction l as [| x t IH]; simpl.
  - constructor.
  - apply insert_by_ascending. exact IH.
Qed.

End SortedOrder.

Lemma sorted_fixpoint {A : Type} (lt : A -> A -> bool) l :
  ascending lt l -> Py.sorted lt l = l.
Proof.
  unfold ascending. induction 1 as [| x t Ht IH Hx]; [reflexivity |].
  simpl Py.sorted. fold (Py.sorted lt t). rewrite IH.
  destruct t as [| y t']; [reflexivity |].
  simpl. inversion Hx; subst.
  match goal with E : lt y x = false |- _ => rewrite E end. reflexivity.
Qed.

Lemma ascending_firstn {A : Type} (lt : A -> A -> bool) n l :
  ascending lt l -> ascending lt (firstn n l).
Proof.
  unfold ascending. intros H. revert n.
  induction H as [| x t Ht IH Hx]; intros [| n]; simpl; try constructor.
  - apply IH.
  - apply Forall_forall. intros z Hz. rewrite Forall_forall in Hx.
    apply Hx. eapply In_firstn_inv; eauto.
Qed.

(** ** [enumerate] *)

Lemma enumerate_length {A : Type} (l : list A) start :
  length (Py.enumerate start l) = length l.
Proof.
  revert start. induction l as [| x t IH]; intros start; simpl; auto.
Qed.

Lemma enumerate_fst {A : Type} (l : list A) start :
  map fst (Py.enumerate start l)
  = map (fun i => start + Z.of_nat i) (seq 0 (length l)).
Proof.
  revert start. induction l as [| x t IH]; intros start; [reflexivity |].
  simpl. rewrite Z.add_0_r. f_equal.
  rewrite IH, <- seq_shift, map_map. apply map_ext. intros i. lia.
Qed.

Lemma enumerate_snd {A : Type} (l : list A) start :
  map snd (Py.enumerate start l) = l.
Proof.
  revert start. induction l as [| x t IH]; intros start; simpl; [| rewrite IH];
    reflexivity.
Qed.

(** ** dict *)

Lemma dict_get_set {V : Type} k k' (v : V) d :
  Py.dict_get k (Py.dict_set k' v d)
  = if k =? k' then Some v else Py.dict_get k d.
Proof.
  induction d as [| [k0 v0] d IH]; simpl.
  - reflexivity.
  - destruct (k' =? k0) eqn:E0; simpl.
    + apply Z.eqb_eq in E0. subst k0.
      destruct (k =? k'); reflexivity.
    + destruct (k =? k0) eqn:E1; [| exact IH].
      apply Z.eqb_eq in E1. subst k0.
      rewrite Z.eqb_sym, E0. reflexivity.
Qed.

Lemma dict_get_In_keys {V : Type} k (d : Py.dict V) :
  In k (Py.keys d) <-> exists v, Py.dict_get k d = Some v.
Proof.
  unfold Py.keys. induction d as [| [k0 v0] d IH]; simpl.
  - split; [tauto | intros (v & H); discriminate].
  - destruct (k =? k0) eqn:E.
    + apply Z.eqb_eq in E. subst. split; eauto.
    + apply Z.eqb_neq in E. rewrite IH. split.
      * intros [H | H]; [congruence | exact H].
      * auto.
Qed.

Lemma dict_set_keys {V : Type} k (v : V) d :
  Py.keys (Py.dict_set k v d)
  = if Py.isin k (Py.keys d) then Py.keys d else Py.keys d ++ [k].
Proof.
  unfold Py.keys, Py.isin. induction d as [| [k0 v0] d IH]; simpl.
  - reflexivity.
  - destruct (k =? k0) eqn:E; simpl.
    + apply Z.eqb_eq in E. subst. reflexivity.
    + rewrite IH. destruct (existsb (Z.eqb k) (map fst d)); reflexivity.
Qed.

Lemma dict_set_NoDup {V : Type} k (v : V) d :
  NoDup (Py.keys d) -> NoDup (Py.keys (Py.dict_set k v d)).
Proof.
  intros H. rewrite dict_set_keys.
  destruct (Py.isin k (Py.keys d)) eqn:E; [exact H |].
  apply isin_false in E.
  apply NoDup_app; auto; [constructor; [simpl; tauto | constructor] |].
  intros x Hx [<- | []]. auto.
Qed.

(** ** heapify keeps the elements *)

Lemma setitem_length {A : Type} (l : list A) i x :
  length (Py.setitem l i x) = length l.
Proof.
  revert i. induction l as [| y t IH]; intros [| i]; simpl; auto.
Qed.

Lemma setitem_app {A : Type} (l1 l2 : list A) a x :
  Py.setitem (l1 ++ a :: l2) (length l1) x = l1 ++ x :: l2.
Proof.
  induction l1 as [| y t IH]; simpl; [| rewrite IH]; reflexivity.
Qed.

Lemma setitem_app_r {A : Type} (l1 l2 : list A) i x :
  Py.setitem (l1 ++ l2) (length l1 + i) x = l1 ++ Py.setitem l2 i x.
Proof.
  induction l1 as [| y t IH]; simpl; [| rewrite IH]; reflexivity.
Qed.

Lemma nth_app_r {A : Type} (l1 l2 : list A) i d :
  nth (length l1 + i) (l1 ++ l2) d = nth i l2 d.
Proof.
  induction l1 as [| y t IH]; simpl; auto.
Qed.

(** Writing [l[j]] at [i] and the old [l[i]] at [j] permutes the list. *)
Lemma setitem_swap_lt {A : Type} (l : list A) i j d :
  (i < j < length l)%nat ->
  Permutation (Py.setitem (Py.setitem l i (nth j l d)) j (nth i l d)) l.
Proof.
  intros [Hij Hj].
  destruct (nth_error l i) as [a |] eqn:Ea;
    [| apply nth_error_None in Ea; lia].
  apply nth_error_split in Ea. destruct Ea as (l1 & r & -> & <-).
  rewrite length_app in Hj. simpl in Hj.
  replace j with (length l1 + S (j - length l1 - 1))%nat by lia.
  set (k := (j - length l1 - 1)%nat).
  assert (Hk : (k < length r)%nat) by (unfold k; lia).
  destruct (nth_error r k) as [b |] eqn:Eb;
    [| apply nth_error_None in Eb; lia].
  apply nth_error_split in Eb. destruct Eb as (l2 & l3 & -> & Hl2).
  rewrite nth_app_r. simpl nth at 1.
  rewrite <- Hl2. rewrite (nth_middle l2 l3 b d).
  rewrite (nth_middle l1 _ a d).
  rewrite setitem_app, setitem_app_r. simpl Py.setitem.
  rewrite setitem_app.
  apply Permutation_app_head.
  change (Permutation ([b] ++ l2 ++ [a] ++ l3) ([a] ++ l2 ++ [b] ++ l3)).
  rewrite !app_assoc. apply Permutation_app_tail.
  rewrite (Permutation_app_comm [b] l2). rewrite <- app_assoc.
  rewrite (Permutation_app_comm [a] l2). rewrite <- (app_assoc l2).
  apply Permutation_app_head. apply perm_swap.
Qed.

Lemma setitem_comm {A : Type} (l : list A) i j x y :
  i <> j ->
  Py.setitem (Py.setitem l i x) j y = Py.setitem (Py.setitem l j y) i x.
Proof.
  revert i j. induction l as [| z t IH]; intros [| i] [| j] H; simpl;
    try reflexivity; try congruence.
  rewrite IH by congruence. reflexivity.
Qed.

Lemma setitem_setitem {A : Type} (l : list A) i x y :
  Py.setitem (Py.setitem l i x) i y = Py.setitem l i y.
Proof.
  revert i. induction l as [| z t IH]; intros [| i]; simpl; try reflexivity.
  rewrite IH. reflexivity.
Qed.

Lemma nth_setitem_eq {A : Type} (l : list A) i x d :
  (i < length l)%nat -> nth i (Py.setitem l i x) d = x.
Proof.
  revert i. induction l as [| z t IH]; intros [| i] H; simpl in *;
    try lia; auto. apply IH. lia.
Qed.

Lemma nth_setitem_neq {A : Type} (l : list A) i j x d :
  i <> j -> nth j (Py.setitem l i x) d = nth j l d.
Proof.
  revert i j. induction l as [| z t IH]; intros [| i] [| j] H; simpl;
    try reflexivity; try congruence.
  apply IH. congruence.
Qed.

Lemma setitem_nth_error {A : Type} (l : list A) i x :
  nth_error l i = Some x -> Py.setitem l i x = l.
Proof.
  revert i. induction l as [| z t IH]; intros [| i] H; simpl in *;
    try discriminate.
  - congruence.
  - rewrite IH by exact H. reflexivity.
Qed.

Lemma setitem_swap {A : Type} (l : list A) i j d :
  i <> j -> (i < length l)%nat -> (j < length l)%nat ->
  Permutation (Py.setitem (Py.setitem l i (nth j l d)) j (nth i l d)) l.
Proof.
  intros Hij Hi Hj. destruct (Nat.lt_ge_cases i j) as [L | L].
  - apply setitem_swap_lt. lia.
  - rewrite setitem_comm by exact Hij. apply setitem_swap_lt. lia.
Qed.

(** One step of either sift loop: the item at [c] fills the hole at [pos],
    and the hole moves to [c]. *)
Lemma hole_move {A : Type} (heap : list A) pos c newitem d :
  pos <> c -> (pos < length heap)%nat -> (c < length heap)%nat ->
  Permutation (Py.setitem (Py.setitem heap pos (nth c heap d)) c newitem)
              (Py.setitem heap pos newitem).
Proof.
  intros Hne Hp Hc.
  pose proof (setitem_swap (Py.setitem heap pos newitem) pos c d Hne) as H.
  rewrite setitem_length in H. specialize (H Hp Hc).
  rewrite nth_setitem_neq, nth_setitem_eq, setitem_setitem in H by assumption.
  exact H.
Qed.

Section HeapPermutation.

Context {A : Type} (lt : A -> A -> bool).

Lemma siftdown_perm heap startpos pos newitem :
  (pos < length heap)%nat ->
  Permutation (Heapq.siftdown lt heap startpos pos newitem)
              (Py.setitem heap pos newitem).
Proof.
  funelim (Heapq.siftdown lt heap startpos pos newitem); intros Hp;
    try reflexivity.
  assert (p / 2 <= p)%nat by (apply Nat.Div0.div_le_upper_bound; lia).
  rewrite H by (rewrite setitem_length; lia).
  apply hole_move; lia.
Qed.

Lemma smaller_child_bounds heap endpos childpos d :
  (childpos < endpos)%nat ->
  (childpos <= Heapq.smaller_child lt heap endpos childpos d < endpos)%nat.
Proof.
  intros H. unfold Heapq.smaller_child.
  destruct (Nat.ltb (childpos + 1) endpos) eqn:E; simpl.
  - apply Nat.ltb_lt in E. destruct (lt _ _); simpl; lia.
  - lia.
Qed.

Lemma siftup_loop_perm heap endpos pos newitem :
  (pos < endpos <= length heap)%nat ->
  (snd (Heapq.siftup_loop lt heap endpos pos newitem)
   < length (fst (Heapq.siftup_loop lt heap endpos pos newitem)))%nat /\
  Permutation
    (Py.setitem (fst (Heapq.siftup_loop lt heap endpos pos newitem))
                (snd (Heapq.siftup_loop lt heap endpos pos newitem)) newitem)
    (Py.setitem heap pos newitem).
Proof.
  funelim (Heapq.siftup_loop lt heap endpos pos newitem); intros Hp.
  - pose proof (smaller_child_bounds heap endpos (2 * pos + 1) newitem l)
      as Hc.
    destruct H as [Hlen Hperm]; [rewrite setitem_length; lia |].
    split; [exact Hlen |].
    etransitivity; [exact Hperm |]. apply hole_move; lia.
  - simpl. split; [lia | reflexivity].
Qed.

Lemma siftup_perm heap pos : Permutation (Heapq.siftup lt heap pos) heap.
Proof.
  unfold Heapq.siftup. destruct (nth_error heap pos) as [newitem |] eqn:E;
    [| reflexivity].
  assert (Hp : (pos < length heap)%nat)
    by (apply nth_error_Some; congruence).
  destruct (siftup_loop_perm heap (length heap) pos newitem) as [Hlen Hperm];
    [lia |].
  destruct (Heapq.siftup_loop lt heap (length heap) pos newitem)
    as [heap' pos']. simpl in *.
  rewrite siftdown_perm by (rewrite setitem_length; exact Hlen).
  rewrite setitem_setitem, Hperm.
  rewrite (setitem_nth_error _ _ _ E). reflexivity.
Qed.

Lemma heapify_perm x : Permutation (Heapq.heapify lt x) x.
Proof.
  unfold Heapq.heapify. generalize (rev (seq 0 (length x / 2))) as idxs.
  intros idxs. revert x. induction idxs as [| i idxs IH]; intros x; simpl.
  - reflexivity.
  - rewrite IH. apply siftup_perm.
Qed.

End HeapPermutation.

(** ** The final ranking *)

Lemma Qltb_lt a b : Qltb a b = true <-> (a < b)%Q.
Proof.
  unfold Qltb. rewrite negb_true_iff. split.
  - intros H. apply Qnot_le_lt. intros L.
    apply Qle_bool_iff in L. congruence.
  - intros H. destruct (Qle_bool b a) eqn:E; [| reflexivity].
    apply Qle_bool_iff in E. exfalso. exact (Qlt_not_le _ _ H E).
Qed.

Lemma Qltb_ge a b : Qltb a b = false <-> (b <= a)%Q.
Proof.
  unfold Qltb. rewrite negb_false_iff. apply Qle_bool_iff.
Qed.

Lemma score_lt_asym a b : score_lt a b = true -> score_lt b a = false.
Proof.
  unfold score_lt. rewrite Qltb_lt, Qltb_ge. apply Qlt_le_weak.
Qed.

Lemma score_le_trans a b c :
  score_lt b a = false -> score_lt c b = false -> score_lt c a = false.
Proof.
  unfold score_lt. rewrite !Qltb_ge. intros H1 H2.
  exact (Qle_trans _ _ _ H1 H2).
Qed.

Lemma score_gt_asym a b :
  (fun x y => score_lt y x) a b = true -> (fun x y => score_lt y x) b a = false.
Proof. apply score_lt_asym. Qed.

Lemma score_ge_trans a b c :
  (fun x y => score_lt y x) b a = false ->
  (fun x y => score_lt y x) c b = false ->
  (fun x y => score_lt y x) c a = false.
Proof. intros H1 H2. exact (score_le_trans c b a H2 H1). Qed.

Lemma sorted_reverse_descending (l : list candidate) :
  descending (Py.sorted_reverse score_lt l).
Proof.
  apply (sorted_ascending _ score_gt_asym score_ge_trans).
Qed.

(** Sorting the selection again changes nothing: the ranks follow the
    order in which [nlargest] returns the candidates. *)
Lemma rank_candidates_selected recs :
  rank_candidates recs = map number (Py.enumerate 1 (selected recs)).
Proof.
  unfold rank_candidates, selected, Heapq.nlargest, Py.sorted_reverse.
  rewrite sorted_fixpoint; [reflexivity |].
  apply ascending_firstn. apply sorted_reverse_descending.
Qed.

Lemma selected_length recs :
  length (selected recs) = Nat.min total_recommendations (length recs).
Proof.
  unfold selected, Py.sorted_reverse.
  rewrite length_firstn, sorted_length.
  rewrite (Permutation_length (heapify_perm candidate_lt recs)). reflexivity.
Qed.

Lemma selected_In c recs : In c (selected recs) -> In c recs.
Proof.
  unfold selected, Py.sorted_reverse. intros H.
  apply In_firstn_inv in H. apply sorted_In in H.
  exact (Permutation_in _ (heapify_perm candidate_lt recs) H).
Qed.

Lemma rank_candidates_length recs :
  length (rank_candidates recs)
  = Nat.min total_recommendations (length recs).
Proof.
  rewrite rank_candidates_selected, length_map, enumerate_length.
  apply selected_length.
Qed.

Lemma number_rank rk : snd (number rk) = fst rk.
Proof. destruct rk as [rank [[uid cid] s]]. reflexivity. Qed.

Lemma number_ids rk : fst (number rk) = fst (snd rk).
Proof. destruct rk as [rank [[uid cid] s]]. reflexivity. Qed.

Lemma rank_candidates_ranks recs :
  map snd (rank_candidates recs)
  = map (fun i => 1 + Z.of_nat i) (seq 0 (length (rank_candidates recs))).
Proof.
  rewrite rank_candidates_selected at 1.
  rewrite map_map. rewrite (map_ext _ fst number_rank), enumerate_fst.
  rewrite rank_candidates_selected, length_map, enumerate_length.
  reflexivity.
Qed.

Lemma rank_candidates_ids recs :
  map fst (rank_candidates recs) = map fst (selected recs).
Proof.
  rewrite rank_candidates_selected, map_map.
  rewrite (map_ext _ (fun rk => fst (snd rk)) number_ids).
  rewrite <- (map_map snd fst), enumerate_snd. reflexivity.
Qed.

(** ** Candidate generation *)

Section Candidates.

Context {lib : Sklearn}.

Lemma walk_top_indices_fresh self uid prev top recs out :
  walk_top_indices self uid prev top recs = Ok out ->
  Forall (fresh_for uid prev) recs -> Forall (fresh_for uid prev) out.
Proof.
  revert recs. induction top as [| idx rest IH]; cbn [walk_top_indices];
    intros recs H Hr.
  - inversion H; subst. exact Hr.
  - destruct (total_recommendations <=? length recs)%nat.
    + inversion H; subst. exact Hr.
    + inv_bind H. destruct (Py.isin a prev) eqn:E; cbn [negb] in H.
      * eapply IH; eauto.
      * inv_bind H. eapply IH; eauto.
        apply Forall_app. split; [exact Hr |].
        constructor; [| constructor].
        split; [reflexivity |]. simpl. apply isin_false. exact E.
Qed.

Lemma emit_neighbors_fresh self uid prev nbrs recs out :
  emit_neighbors self uid prev nbrs recs = Ok out ->
  Forall (fresh_for uid prev) recs -> Forall (fresh_for uid prev) out.
Proof.
  revert recs. induction nbrs as [| [dist idx] rest IH]; cbn [emit_neighbors];
    intros recs H Hr.
  - inversion H; subst. exact Hr.
  - inv_bind H. destruct (Py.isin a prev) eqn:E; cbn [negb] in H.
    + eapply IH; eauto.
    + assert (Hr' : Forall (fresh_for uid prev)
                           (recs ++ [(uid, a, (1 - dist)%Q)])).
      { apply Forall_app. split; [exact Hr |].
        constructor; [| constructor].
        split; [reflexivity |]. simpl. apply isin_false. exact E. }
      destruct (total_recommendations <=? _)%nat.
      * inversion H; subst. exact Hr'.
      * eapply IH; eauto.
Qed.

Lemma cluster_step_fresh self uid p recs item out :
  cluster_step self uid p recs item = Ok out ->
  Forall (fresh_for uid (previous_interactions p)) recs ->
  Forall (fresh_for uid (previous_interactions p)) out.
Proof.
  unfold cluster_step. destruct item as [cluster proportion].
  destruct (cluster =? -1).
  - intros H; inversion H; subst; auto.
  - intros H Hr. inv_bind H. inv_bind H. inv_bind H.
    eapply emit_neighbors_fresh; eauto.
Qed.

Lemma for_each_invariant {A S : Type} (P : S -> Prop)
  (f : S -> A -> result S) xs s out :
  (forall s x s', f s x = Ok s' -> P s -> P s') ->
  for_each f xs s = Ok out -> P s -> P out.
Proof.
  intros Hf. revert s. induction xs as [| x xs IH]; simpl; intros s H Hs.
  - inversion H; subst. exact Hs.
  - inv_bind H. eapply IH; eauto.
Qed.

Lemma user_candidates_fresh self uid top recs :
  user_candidates self uid top = Ok recs ->
  exists p, Py.dict_get uid (user_profiles self) = Some p /\
            Forall (fresh_for uid (previous_interactions p)) recs.
Proof.
  unfold user_candidates. intros H. inv_bind H.
  unfold Py.getitem in Ha.
  destruct (Py.dict_get uid (user_profiles self)) as [p |] eqn:Ep;
    simpl in Ha; inversion Ha; subst a.
  exists p. split; [reflexivity |].
  inv_bind H. eapply walk_top_indices_fresh; eauto.
  destruct (length (Py.unique (map content_id (content p))) <? 5)%nat.
  - eapply walk_top_indices_fresh; eauto.
  - eapply (for_each_invariant (Forall (fresh_for uid (previous_interactions p))));
      eauto.
    intros s x s'. apply cluster_step_fresh.
Qed.

End Candidates.

(** ** The shape of the output table *)

Lemma for_each_app_Ok {A B : Type} (g : A -> result (list B)) xs acc out :
  for_each (fun acc x => rows <- g x ;; Ok (acc ++ rows)) xs acc = Ok out <->
  exists rowss, Forall2 (fun x rows => g x = Ok rows) xs rowss /\
                out = acc ++ concat rowss.
Proof.
  revert acc. induction xs as [| x xs IH]; simpl; intros acc.
  - split.
    + intros H. inversion H; subst. exists []. split; [constructor |].
      simpl. rewrite app_nil_r. reflexivity.
    + intros (rowss & HF & ->). inversion HF; subst. simpl.
      rewrite app_nil_r. reflexivity.
  - split.
    + intros H. inv_bind H. inv_bind Ha. inversion Ha; subst.
      apply IH in H. destruct H as (rowss & HF & ->).
      exists (a0 :: rowss). split; [constructor; assumption |].
      simpl. rewrite app_assoc. reflexivity.
    + intros (rowss & HF & ->). inversion HF as [| ? rows ? rowss' Hx HF']; subst.
      rewrite Hx. simpl. apply IH. exists rowss'. split; [exact HF' |].
      simpl. rewrite app_assoc. reflexivity.
Qed.

Section Table.

Context {lib : Sklearn}.

Lemma generate_recommendations_Ok self self' :
  generate_recommendations self = Ok self' <->
  exists rowss,
    Forall2 (fun uid rows => user_rows self uid = Ok rows)
            (Py.keys (user_profiles self)) rowss /\
    self' = set_recommendations_df self (map add_source (concat rowss)).
Proof.
  unfold generate_recommendations, cosine_top_indices, user_rows.
  generalize (Py.keys (user_profiles self)) as us. intros us. split.
  - intros H. inv_bind H. inv_bind H. inversion H; subst self'. clear H.
    apply map_result_Ok_inv in Ha.
    apply (for_each_app_Ok (fun ut => recommend_user self (fst ut) (snd ut)))
      in Ha0.
    destruct Ha0 as (rowss & HF & ->). exists rowss. split; [| reflexivity].
    clear - Ha HF. revert rowss HF.
    induction Ha as [| u ut us tops Hu _ IH]; intros rowss HF;
      inversion HF; subst; constructor; auto.
    inv_bind Hu. inversion Hu; subst ut. rewrite Ha. simpl. assumption.
  - intros (rowss & HF & ->).
    assert (Htops : exists tops,
      map_result
        (fun uid => scores <- Py.getitem (cosine_scores self) uid ;;
                    Ok (uid, firstn 2000 (rev (argsort scores)))) us = Ok tops
      /\ Forall2 (fun ut rows => recommend_user self (fst ut) (snd ut) = Ok rows)
                 tops rowss).
    { induction HF as [| u rows us rowss Hu _ IH].
      - exists []. split; [reflexivity | constructor].
      - destruct IH as (tops & Ht & HF').
        destruct (Py.getitem (cosine_scores self) u) as [scores | |] eqn:Es;
          simpl in Hu; try discriminate.
        exists ((u, firstn 2000 (rev (argsort scores))) :: tops). split.
        + cbn [map_result]. rewrite Es. cbn [bind]. rewrite Ht. reflexivity.
        + constructor; assumption. }
    destruct Htops as (tops & Ht & HF'). rewrite Ht. cbn [bind].
    assert (Hfe : for_each
              (fun acc ut => rows <- recommend_user self (fst ut) (snd ut) ;;
                             Ok (acc ++ rows)) tops [] = Ok (concat rowss)).
    { apply (for_each_app_Ok
               (fun ut => recommend_user self (fst ut) (snd ut))).
      exists rowss. split; [exact HF' | reflexivity]. }
    rewrite Hfe. reflexivity.
Qed.

(** The rows of a user carry the user's id, are at most
    [total_recommendations], are ranked 1, 2, ..., and name no content of the
    user's previous interactions. *)
Lemma user_rows_spec self uid rows :
  user_rows self uid = Ok rows ->
  exists p recs,
    Py.dict_get uid (user_profiles self) = Some p /\
    Forall (fresh_for uid (previous_interactions p)) recs /\
    rows = rank_candidates recs.
Proof.
  unfold user_rows, recommend_user. intros H. inv_bind H. inv_bind H.
  inversion H; subst rows.
  apply user_candidates_fresh in Ha0. destruct Ha0 as (p & Hp & HF).
  exists p, a0. auto.
Qed.

End Table.

(** ** Profiles do not depend on the batches *)

Lemma filter_filter_absorb {A : Type} (p q : A -> bool) l :
  (forall x, In x l -> p x = true -> q x = true) ->
  filter p (filter q l) = filter p l.
Proof.
  induction l as [| x t IH]; intros H; [reflexivity |].
  simpl. destruct (q x) eqn:Q; simpl.
  - rewrite IH by (intros; apply H; simpl; auto). reflexivity.
  - destruct (p x) eqn:P.
    + rewrite H in Q; simpl; auto. discriminate.
    + apply IH. intros; apply H; simpl; auto.
Qed.

Lemma unique_length l : (length (Py.unique l) <= length l)%nat.
Proof.
  induction l as [| x t IH]; simpl; [lia |].
  pose proof (filter_length_le (fun y => negb (y =? x)) (Py.unique t)). lia.
Qed.

Lemma for_each_map {A B S : Type} (f : S -> B -> result S) (g : A -> B) l s :
  for_each f (map g l) s = for_each (fun s x => f s (g x)) l s.
Proof.
  revert s. induction l as [| x l IH]; intros s; cbn [map for_each];
    [reflexivity |].
  destruct (f s (g x)); cbn [bind]; auto.
Qed.

Lemma forallb_perm {A : Type} (p : A -> bool) l l' :
  Permutation l l' -> forallb p l = forallb p l'.
Proof.
  induction 1 as [| x l l' _ IH | x y l | l l' l'' _ IH1 _ IH2]; cbn [forallb].
  - reflexivity.
  - rewrite IH. reflexivity.
  - destruct (p x), (p y); reflexivity.
  - congruence.
Qed.

Lemma forallb_ext_in {A : Type} (p q : A -> bool) l :
  (forall x, In x l -> p x = q x) -> forallb p l = forallb q l.
Proof.
  induction l as [| x l IH]; intros H; cbn [forallb]; [reflexivity |].
  rewrite (H x), IH; [reflexivity | | simpl; auto].
  intros y Hy. apply H. simpl. auto.
Qed.

Lemma vstack_Ok rows m : Np.vstack rows = Ok m -> m = rows /\ rows <> [].
Proof.
  destruct rows as [| r t]; cbn [Np.vstack]; [discriminate |].
  match goal with |- context [forallb ?f t] => destruct (forallb f t) end;
    [| discriminate].
  intros H. inversion H. split; [reflexivity | discriminate].
Qed.

Lemma vstack_uniform rows m r :
  Np.vstack rows = Ok m -> In r rows -> length r = length (hd [] rows).
Proof.
  destruct rows as [| r0 t]; cbn [Np.vstack hd]; [discriminate |].
  match goal with |- context [forallb ?f t] => destruct (forallb f t) eqn:E end;
    [| discriminate].
  intros _ [<- | Hin]; [reflexivity |].
  rewrite forallb_forall in E. apply Nat.eqb_eq. apply E, Hin.
Qed.

Lemma vstack_of_uniform rows n :
  rows <> [] -> (forall r, In r rows -> length r = n) ->
  Np.vstack rows = Ok rows.
Proof.
  destruct rows as [| r0 t]; [contradiction |]. intros _ H.
  cbn [Np.vstack].
  match goal with |- context [forallb ?f t] => assert (E : forallb f t = true) end.
  { apply forallb_forall. intros r Hr. apply Nat.eqb_eq.
    rewrite (H r0), (H r); simpl; auto. }
  rewrite E. reflexivity.
Qed.

Lemma same_sizes_uniform rows n :
  (forall r, In r rows -> length r = n) -> Np.same_sizes rows = true.
Proof.
  destruct rows as [| r0 t]; intros H; cbn [Np.same_sizes]; [reflexivity |].
  apply forallb_forall. intros r Hr. apply Nat.eqb_eq.
  rewrite (H r0), (H r); simpl; auto.
Qed.

Lemma add_length a b : length (Np.add a b) = Nat.min (length a) (length b).
Proof.
  revert b. induction a as [| x a IH]; intros [| y b]; cbn [Np.add length];
    try reflexivity.
  rewrite IH. reflexivity.
Qed.

Lemma mean_axis0_length rows n :
  rows <> [] -> (forall r, In r rows -> length r = n) ->
  length (Np.mean_axis0 rows) = n.
Proof.
  destruct rows as [| r0 t]; [contradiction |]. intros _ H.
  unfold Np.mean_axis0. rewrite length_map.
  assert (H0 : length r0 = n) by (apply H; simpl; auto).
  assert (Ht : forall r, In r t -> length r = n)
    by (intros r Hr; apply H; simpl; auto).
  clear H. revert r0 H0. induction t as [| r t IH]; intros r0 H0;
    cbn [fold_left]; [exact H0 |].
  apply IH.
  - intros r' Hr'. apply Ht. simpl. auto.
  - rewrite add_length, H0, (Ht r); [apply Nat.min_id | simpl; auto].
Qed.

Section Profiles.

Context {lib : Sklearn}.

(** The loop body by its parts: it goes through exactly when the two
    checks pass, and then returns the scores of the user's vector and the
    user's profile; otherwise it raises [ValueError]. *)
Lemma user_entry_spec av bc inter :
  user_entry av bc inter
  = if accepts av bc inter
    then Ok (map (cosine (user_vector av bc inter)) av, user_profile bc inter)
    else Raise ValueError.
Proof.
  unfold user_entry, accepts, user_vector, user_profile, cosine_similarity,
    Np.array.
  fold (good_content bc inter).
  destruct (map embedding (good_content bc inter)) as [| r t] eqn:E.
  - cbn [Np.same_sizes andb bind].
    destruct (pairwise_ok _ av); reflexivity.
  - destruct (Np.same_sizes (r :: t)); cbn [andb bind]; [| reflexivity].
    destruct (pairwise_ok _ av); reflexivity.
Qed.

(** The tables a batch sees give the entry of the whole tables. *)
Lemma user_entry_batch av (content : list content_row)
  (inter : list interaction) chunk u :
  In u chunk ->
  let batch_interactions :=
    filter (fun i => Py.isin (user_id i) chunk) inter in
  let batch_content :=
    filter (fun c => Py.isin (content_id c) (map item_id batch_interactions))
           content in
  user_entry av batch_content
             (filter (fun i => user_id i =? u) batch_interactions)
  = user_entry av content (filter (fun i => user_id i =? u) inter).
Proof.
  intros Hu bi bc.
  assert (Hrows : filter (fun i => user_id i =? u) bi
                  = filter (fun i => user_id i =? u) inter).
  { apply filter_filter_absorb. intros i _ E. apply Z.eqb_eq in E.
    apply isin_In. rewrite E. exact Hu. }
  rewrite Hrows. unfold user_entry.
  assert (Hgc :
    filter (fun c => Py.isin (content_id c)
              (map item_id (filter (fun i => Py.isin (rating i) [4; 5])
                              (filter (fun i => user_id i =? u) inter)))) bc
    = filter (fun c => Py.isin (content_id c)
              (map item_id (filter (fun i => Py.isin (rating i) [4; 5])
                              (filter (fun i => user_id i =? u) inter))))
             content).
  { apply filter_filter_absorb. intros c _ E.
    apply isin_In in E. apply isin_In.
    apply in_map_iff in E. destruct E as (i & Hi & Hin).
    apply filter_In in Hin. destruct Hin as [Hin _].
    apply filter_In in Hin. destruct Hin as [Hin Eu].
    apply in_map_iff. exists i. split; [exact Hi |].
    apply filter_In. split; [exact Hin |].
    apply Z.eqb_eq in Eu. apply isin_In. rewrite Eu. exact Hu. }
  cbv zeta. rewrite Hgc. reflexivity.
Qed.

Lemma entry_of_user_entry self u :
  user_entry (all_vectors self) (content_df self) (rows_of_user self u)
  = if accepted self u then Ok (entry_of self u) else Raise ValueError.
Proof. apply user_entry_spec. Qed.

Lemma entry_of_tables s self u :
  content_df s = content_df self ->
  interactions_df s = interactions_df self ->
  all_vectors s = all_vectors self ->
  entry_of s u = entry_of self u.
Proof.
  unfold entry_of, rows_of_user. intros -> -> ->. reflexivity.
Qed.

Lemma accepted_tables s self u :
  content_df s = content_df self ->
  interactions_df s = interactions_df self ->
  all_vectors s = all_vectors self ->
  accepted s u = accepted self u.
Proof.
  unfold accepted, rows_of_user. intros -> -> ->. reflexivity.
Qed.

(** Every user is accepted once the catalog is stacked. *)
Lemma stacked_accepted self u : catalog_stacked self -> accepted self u = true.
Proof.
  intros [Hv Hw]. destruct (vstack_Ok _ _ Hv) as [Hav Hne].
  assert (Hn : forall r, In r (map embedding (content_df self)) ->
                         length r = Np.shape1 (all_vectors self)).
  { intros r Hr. rewrite Hav. apply (vstack_uniform _ _ _ Hv Hr). }
  set (d := Np.shape1 (all_vectors self)) in *.
  unfold accepted, accepts.
  set (gc := good_content (content_df self) (rows_of_user self u)).
  assert (Hgc : forall r, In r (map embedding gc) -> length r = d).
  { intros r Hr. apply Hn. apply in_map_iff in Hr.
    destruct Hr as (c & <- & Hc). apply in_map.
    unfold gc, good_content in Hc. apply filter_In in Hc. apply Hc. }
  rewrite (same_sizes_uniform _ d Hgc). cbn [andb].
  assert (Huv : length (user_vector (all_vectors self) (content_df self)
                          (rows_of_user self u)) = d).
  { unfold user_vector. fold gc.
    destruct (map embedding gc) as [| r t] eqn:E.
    - apply repeat_length.
    - apply mean_axis0_length; [discriminate | exact Hgc]. }
  unfold pairwise_ok. rewrite Huv.
  assert (E1 : Nat.eqb d 0 = false) by (apply Nat.eqb_neq; lia).
  assert (E2 : Nat.eqb (length (all_vectors self)) 0 = false).
  { apply Nat.eqb_neq. rewrite Hav.
    destruct (map embedding (content_df self)); [contradiction | discriminate]. }
  rewrite E1, E2. cbn [negb andb].
  apply forallb_forall. intros r Hr. apply Nat.eqb_eq. apply Hn.
  rewrite <- Hav. exact Hr.
Qed.

Lemma stacked_all_accepted self us :
  catalog_stacked self -> forallb (accepted self) us = true.
Proof.
  intros H. apply forallb_forall. intros u _. apply stacked_accepted, H.
Qed.

Lemma store_users_tables us self :
  content_df (store_users us self) = content_df self /\
  interactions_df (store_users us self) = interactions_df self /\
  users_df (store_users us self) = users_df self /\
  all_vectors (store_users us self) = all_vectors self /\
  recommendations_df (store_users us self) = recommendations_df self.
Proof.
  unfold store_users. revert self.
  induction us as [| u us IH]; intros self; cbn [fold_left]; [tauto |].
  destruct (IH (set_user self u (fst (entry_of self u)) (snd (entry_of self u))))
    as (H1 & H2 & H3 & H4 & H5).
  rewrite H1, H2, H3, H4, H5. simpl. tauto.
Qed.

Lemma store_users_app us vs self :
  store_users (us ++ vs) self = store_users vs (store_users us self).
Proof. unfold store_users. apply fold_left_app. Qed.

Lemma accepted_store_users us self u :
  accepted (store_users us self) u = accepted self u.
Proof.
  destruct (store_users_tables us self) as (H1 & H2 & _ & H4 & _).
  apply accepted_tables; assumption.
Qed.

(** A batch: the users of the chunk that the log holds are stored by
    ascending id, unless the body raises for one of them. *)
Lemma profile_batch_spec self chunk :
  profile_batch self chunk
  = if forallb (accepted self)
         (Py.sorted Z.ltb
            (Py.unique
               (map user_id (filter (fun i => Py.isin (user_id i) chunk)
                                    (interactions_df self)))))
    then Ok (store_users
               (Py.sorted Z.ltb
                  (Py.unique
                     (map user_id
                        (filter (fun i => Py.isin (user_id i) chunk)
                                (interactions_df self)))))
               self)
    else Raise ValueError.
Proof.
  unfold profile_batch, groupby_user.
  set (bi := filter (fun i => Py.isin (user_id i) chunk) (interactions_df self)).
  set (bc := filter _ (content_df self)).
  set (ks := Py.sorted Z.ltb (Py.unique (map user_id bi))).
  assert (Hin : forall u, In u ks -> In u chunk).
  { intros u. unfold ks, bi. rewrite sorted_In, unique_In, in_map_iff.
    intros (i & Hi & Hi'). apply filter_In in Hi'. destruct Hi' as [_ E].
    apply isin_In in E. subst u. exact E. }
  clearbody ks. rewrite for_each_map. unfold store_users.
  assert (Hgen : forall s,
    content_df s = content_df self ->
    interactions_df s = interactions_df self ->
    all_vectors s = all_vectors self ->
    for_each (fun a x => profile_user a bc
                           (fst (x, filter (fun i => user_id i =? x) bi))
                           (snd (x, filter (fun i => user_id i =? x) bi)))
             ks s
    = if forallb (accepted self) ks
      then Ok (fold_left (fun s u => set_user s u (fst (entry_of s u))
                                              (snd (entry_of s u))) ks s)
      else Raise ValueError).
  { induction ks as [| u ks IH]; intros s Hc Hi Hv;
      cbn [for_each forallb fold_left]; [reflexivity |].
    cbn [fst snd]. unfold profile_user at 1.
    assert (He : user_entry (all_vectors s) bc
                   (filter (fun i => user_id i =? u) bi)
                 = if accepted self u then Ok (entry_of s u)
                   else Raise ValueError).
    { rewrite <- (accepted_tables s self u Hc Hi Hv).
      rewrite <- entry_of_user_entry. unfold rows_of_user. rewrite Hc, Hi.
      apply user_entry_batch. apply Hin. simpl. auto. }
    rewrite He. destruct (accepted self u); cbn [bind andb]; [| reflexivity].
    apply IH.
    - intros v Hv'. apply Hin. simpl. auto.
    - exact Hc.
    - exact Hi.
    - exact Hv. }
  apply Hgen; reflexivity.
Qed.

Lemma profile_batch_store self chunk :
  exists ks,
    profile_batch self chunk
    = (if forallb (accepted self) ks then Ok (store_users ks self)
       else Raise ValueError) /\
    NoDup ks /\
    (forall u, In u ks <-> In u chunk /\ In u (log_users self)).
Proof.
  eexists. split; [apply profile_batch_spec |]. split.
  - eapply Permutation_NoDup; [symmetry; apply sorted_perm |].
    apply unique_NoDup.
  - intros u. unfold log_users. rewrite sorted_In, !unique_In.
    rewrite !in_map_iff. split.
    + intros (i & Hi & Hin). apply filter_In in Hin. destruct Hin as [Hin E].
      apply isin_In in E. subst u. split; [exact E | eauto].
    + intros [Hc (i & Hi & Hin)]. exists i. split; [exact Hi |].
      apply filter_In. split; [exact Hin |]. apply isin_In. rewrite Hi.
      exact Hc.
Qed.

End Profiles.

Section ProfilesLoop.

Context {lib : Sklearn}.

Lemma store_users_log_users us self :
  log_users (store_users us self) = log_users self.
Proof.
  unfold log_users.
  destruct (store_users_tables us self) as (_ & H & _). rewrite H. reflexivity.
Qed.

(** With a batch size of at least one, the loop ends within one round per
    user; it has then stored the entry of every user, in some order, unless
    the body raised for one of them. *)
Lemma profile_batches_store fuel batch_size user_ids self :
  1 <= batch_size ->
  (length user_ids <= fuel)%nat ->
  NoDup user_ids ->
  (forall u, In u user_ids -> In u (log_users self)) ->
  exists order,
    Permutation order user_ids /\
    profile_batches fuel batch_size user_ids
                    (Z.of_nat (length user_ids)) self
    = if forallb (accepted self) user_ids then Ok (store_users order self)
      else Raise ValueError.
Proof.
  intros Hb. revert user_ids self.
  induction fuel as [| fuel IH]; intros ids self Hlen Hnd Hlog.
  - destruct ids; simpl in Hlen; [| lia].
    exists []. split; [constructor | reflexivity].
  - cbn [profile_batches].
    destruct (0 <? Z.of_nat (length ids)) eqn:Epos.
    2:{ apply Z.ltb_ge in Epos. destruct ids; simpl in Epos; [| lia].
        exists []. split; [constructor | reflexivity]. }
    apply Z.ltb_lt in Epos.
    set (c := Z.min batch_size (Z.of_nat (length ids))).
    assert (Hc : 1 <= c <= Z.of_nat (length ids)) by (unfold c; lia).
    assert (Hto : Py.slice_to ids c = firstn (Z.to_nat c) ids).
    { unfold Py.slice_to. destruct (c <? 0) eqn:E; [| reflexivity].
      apply Z.ltb_lt in E. lia. }
    assert (Hfrom : Py.slice_from ids c = skipn (Z.to_nat c) ids).
    { unfold Py.slice_from. destruct (c <? 0) eqn:E; [| reflexivity].
      apply Z.ltb_lt in E. lia. }
    rewrite Hto, Hfrom.
    set (chunk := firstn (Z.to_nat c) ids).
    set (rest := skipn (Z.to_nat c) ids).
    assert (Hsplit : ids = chunk ++ rest)
      by (symmetry; apply firstn_skipn).
    assert (Hrest : Z.of_nat (length ids) - c = Z.of_nat (length rest)).
    { unfold rest. rewrite length_skipn. lia. }
    rewrite Hrest.
    destruct (profile_batch_store self chunk) as (ks & Hks & Hksnd & Hksin).
    rewrite Hks.
    assert (Hnd' : NoDup chunk /\ NoDup rest).
    { rewrite Hsplit in Hnd. split;
        [eapply NoDup_app_remove_r | eapply NoDup_app_remove_l]; eauto. }
    assert (Hkperm : Permutation ks chunk).
    { apply NoDup_Permutation; [exact Hksnd | apply Hnd' |].
      intros u. rewrite Hksin. split; [tauto |].
      intros Hu. split; [exact Hu |]. apply Hlog.
      rewrite Hsplit. apply in_or_app. auto. }
    destruct (IH rest (store_users ks self)) as (order & Hperm & Hrun).
    + unfold rest. rewrite length_skipn. lia.
    + apply Hnd'.
    + intros u Hu. rewrite store_users_log_users. apply Hlog.
      rewrite Hsplit. apply in_or_app. auto.
    + exists (ks ++ order). split.
      * rewrite Hsplit. apply Permutation_app; assumption.
      * replace (forallb (accepted self) ids)
          with (forallb (accepted self) (chunk ++ rest))
          by (rewrite <- Hsplit; reflexivity).
        rewrite forallb_app, (forallb_perm _ _ _ Hkperm).
        destruct (forallb (accepted self) chunk); cbn [bind andb];
          [| reflexivity].
        rewrite Hrun.
        rewrite (forallb_ext_in (accepted (store_users ks self))
                                (accepted self))
          by (intros; apply accepted_store_users).
        rewrite store_users_app. reflexivity.
Qed.

(** Storing fresh keys appends them. *)
Lemma dict_set_fresh {V : Type} k (v : V) d :
  ~ In k (Py.keys d) -> Py.dict_set k v d = d ++ [(k, v)].
Proof.
  unfold Py.keys. induction d as [| [k0 v0] d IH]; simpl; intros H.
  - reflexivity.
  - destruct (k =? k0) eqn:E.
    + apply Z.eqb_eq in E. subst. tauto.
    + rewrite IH by tauto. reflexivity.
Qed.

Lemma store_users_registries us self :
  NoDup us ->
  (forall u, In u us -> ~ In u (Py.keys (cosine_scores self))) ->
  (forall u, In u us -> ~ In u (Py.keys (user_profiles self))) ->
  store_users us self
  = set_registries self
      (cosine_scores self ++ map (fun u => (u, fst (entry_of self u))) us)
      (user_profiles self ++ map (fun u => (u, snd (entry_of self u))) us).
Proof.
  unfold store_users. revert self.
  induction us as [| u us IH]; intros self Hnd Hc Hp; cbn [fold_left map].
  - rewrite !app_nil_r. destruct self; reflexivity.
  - inversion Hnd as [| ? ? Hu Hnd']; subst.
    set (s1 := set_user self u (fst (entry_of self u)) (snd (entry_of self u))).
    assert (Hs1c : cosine_scores s1
                   = cosine_scores self ++ [(u, fst (entry_of self u))]).
    { unfold s1. cbn [set_user cosine_scores]. apply dict_set_fresh, Hc.
      simpl; auto. }
    assert (Hs1p : user_profiles s1
                   = user_profiles self ++ [(u, snd (entry_of self u))]).
    { unfold s1. cbn [set_user user_profiles]. apply dict_set_fresh, Hp.
      simpl; auto. }
    rewrite IH.
    + rewrite Hs1c, Hs1p, <- !app_assoc. cbn [app].
      rewrite (map_ext_in (fun v => (v, fst (entry_of s1 v)))
                          (fun v => (v, fst (entry_of self v))))
        by (intros; f_equal; f_equal; apply entry_of_tables; reflexivity).
      rewrite (map_ext_in (fun v => (v, snd (entry_of s1 v)))
                          (fun v => (v, snd (entry_of self v))))
        by (intros; f_equal; f_equal; apply entry_of_tables; reflexivity).
      reflexivity.
    + exact Hnd'.
    + intros v Hv. rewrite Hs1c. unfold Py.keys. rewrite map_app, in_app_iff.
      simpl. intros [H | [H | []]].
      * apply (Hc v); [simpl; auto | exact H].
      * subst. contradiction.
    + intros v Hv. rewrite Hs1p. unfold Py.keys. rewrite map_app, in_app_iff.
      simpl. intros [H | [H | []]].
      * apply (Hp v); [simpl; auto | exact H].
      * subst. contradiction.
Qed.

(** The profiles of a fresh object: one entry per user of the log, each
    computed from the whole tables, in some order of the users; or
    [ValueError] when the body raises for a user. *)
Lemma generate_user_profiles_fresh fuel batch_size self :
  1 <= batch_size ->
  (length (log_users self) <= fuel)%nat ->
  cosine_scores self = [] -> user_profiles self = [] ->
  exists order,
    Permutation order (log_users self) /\
    generate_user_profiles fuel batch_size self
    = if forallb (accepted self) (log_users self)
      then Ok (set_registries self
                 (map (fun u => (u, fst (entry_of self u))) order)
                 (map (fun u => (u, snd (entry_of self u))) order))
      else Raise ValueError.
Proof.
  intros Hb Hf Hc Hp. unfold generate_user_profiles. fold (log_users self).
  destruct (profile_batches_store fuel batch_size (log_users self) self)
    as (order & Hperm & Hrun); auto.
  { apply unique_NoDup. }
  exists order. split; [exact Hperm |].
  rewrite Hrun, store_users_registries.
  - rewrite Hc, Hp. reflexivity.
  - eapply Permutation_NoDup; [symmetry; exact Hperm | apply unique_NoDup].
  - intros u _. rewrite Hc. simpl. tauto.
  - intros u _. rewrite Hp. simpl. tauto.
Qed.

End ProfilesLoop.

(** ** A run on a fresh object *)

Section Run.

Context {lib : Sklearn}.

Lemma profiled_keys self order :
  Py.keys (user_profiles (profiled self order)) = order.
Proof.
  unfold profiled, Py.keys. cbn [set_registries user_profiles].
  rewrite map_map. cbn [fst]. apply map_id.
Qed.

Lemma dict_get_map {V : Type} (f : Z -> V) order u :
  Py.dict_get u (map (fun k => (k, f k)) order)
  = if Py.isin u order then Some (f u) else None.
Proof.
  unfold Py.isin. induction order as [| k order IH]; simpl; [reflexivity |].
  destruct (u =? k) eqn:E; simpl.
  - apply Z.eqb_eq in E. subst. reflexivity.
  - exact IH.
Qed.

Lemma profiled_profile self order u :
  In u order ->
  Py.dict_get u (user_profiles (profiled self order))
  = Some (snd (entry_of self u)).
Proof.
  intros H. unfold profiled. cbn [set_registries user_profiles].
  rewrite dict_get_map. apply isin_In in H. rewrite H. reflexivity.
Qed.

Lemma profiled_scores self order u :
  In u order ->
  Py.dict_get u (cosine_scores (profiled self order))
  = Some (fst (entry_of self u)).
Proof.
  intros H. unfold profiled. cbn [set_registries cosine_scores].
  rewrite dict_get_map. apply isin_In in H. rewrite H. reflexivity.
Qed.

Lemma entry_of_previous self u :
  previous_interactions (snd (entry_of self u)) = previous_of self u.
Proof. reflexivity. Qed.

(** A run is: stack the catalog, store the profile of every user of the
    log, and concatenate the rows of the users in the order of the registry. *)
Lemma get_recommendations_fresh self table :
  cosine_scores self = [] -> user_profiles self = [] ->
  (get_recommendations self = Ok table <->
   exists m order rowss,
     Np.vstack (map embedding (content_df self)) = Ok m /\
     Permutation order (log_users self) /\
     generate_user_profiles (S (length (interactions_df self)))
       default_batch_size (set_all_vectors self m)
     = Ok (profiled (set_all_vectors self m) order) /\
     Forall2 (fun u rows =>
                user_rows (profiled (set_all_vectors self m) order) u = Ok rows)
             order rowss /\
     table = map add_source (concat rowss)).
Proof.
  intros Hc Hp. unfold get_recommendations.
  destruct (Np.vstack (map embedding (content_df self))) as [m | e |] eqn:Ev;
    cbn [bind].
  2,3: split; [discriminate | intros (? & ? & ? & H & _); discriminate].
  destruct (generate_user_profiles_fresh
              (S (length (interactions_df (set_all_vectors self m))))
              default_batch_size (set_all_vectors self m))
    as (order & Hperm & Hrun); auto.
  { unfold default_batch_size. lia. }
  { unfold log_users. cbn [set_all_vectors interactions_df].
    pose proof (unique_length (map user_id (interactions_df self))) as H.
    rewrite length_map in H. lia. }
  fold (profiled (set_all_vectors self m) order) in Hrun.
  rewrite Hrun.
  destruct (forallb (accepted (set_all_vectors self m))
                    (log_users (set_all_vectors self m))) eqn:Eacc;
    cbn [bind].
  2:{ split; [discriminate |].
      intros (m' & order' & rowss & Hm & _ & Hrun' & _).
      inversion Hm; subst m'. cbn [set_all_vectors interactions_df] in Hrun.
      rewrite Hrun in Hrun'. discriminate. }
  split.
  - intros H. inv_bind H. inversion H; subst table. clear H.
    apply generate_recommendations_Ok in Ha. destruct Ha as (rowss & HF & ->).
    rewrite profiled_keys in HF.
    exists m, order, rowss. repeat split; auto.
  - intros (m' & order' & rowss & Hm & _ & Hrun' & HF & ->).
    inversion Hm; subst m'. clear Hm.
    cbn [set_all_vectors interactions_df] in Hrun.
    rewrite Hrun in Hrun'.
    assert (Hord : order = order').
    { pose proof (f_equal (fun r => match r with
                                    | Ok s => Py.keys (user_profiles s)
                                    | _ => []
                                    end) Hrun') as K.
      cbv beta iota in K. rewrite !profiled_keys in K. exact K. }
    subst order'.
    assert (Hg : generate_recommendations (profiled (set_all_vectors self m) order)
                 = Ok (set_recommendations_df
                         (profiled (set_all_vectors self m) order)
                         (map add_source (concat rowss)))).
    { apply generate_recommendations_Ok. exists rowss. split; [| reflexivity].
      rewrite profiled_keys. exact HF. }
    rewrite Hg. reflexivity.
Qed.

End Run.

(** ** The rows of one user in the table *)

Lemma filter_concat_blocks {R : Type} (key : R -> Z)
  (P : Z -> list R -> Prop) order rowss :
  Forall2 P order rowss ->
  (forall u rows, P u rows -> Forall (fun r => key r = u) rows) ->
  NoDup order ->
  forall u,
    (In u order ->
     exists rows, P u rows /\
                  filter (fun r => key r =? u) (concat rowss) = rows) /\
    (~ In u order -> filter (fun r => key r =? u) (concat rowss) = []).
Proof.
  intros HF Hkey. induction HF as [| k rows order rowss Hk HF IH];
    intros Hnd u.
  - simpl. split; [tauto | reflexivity].
  - inversion Hnd as [| ? ? Hnk Hnd']; subst.
    specialize (IH Hnd' u). destruct IH as [IHin IHout].
    simpl concat. rewrite filter_app.
    pose proof (Hkey k rows Hk) as Hrows.
    destruct (Z.eq_dec k u) as [-> | Hne].
    + assert (Hall : filter (fun r => key r =? u) rows = rows).
      { clear - Hrows. induction Hrows as [| r rows Hr _ IH]; simpl;
          [reflexivity |].
        rewrite Hr, Z.eqb_refl, IH. reflexivity. }
      rewrite Hall, (IHout Hnk), app_nil_r. split; [| simpl; tauto].
      intros _. exists rows. auto.
    + assert (Hnone : filter (fun r => key r =? u) rows = []).
      { clear - Hrows Hne. induction Hrows as [| r rows Hr _ IH]; simpl;
          [reflexivity |].
        rewrite Hr. apply Z.eqb_neq in Hne. rewrite Hne. exact IH. }
      rewrite Hnone. simpl. split.
      * intros [H | H]; [contradiction | auto].
      * intros H. apply IHout. tauto.
Qed.

Lemma Forall2_with_In {A B : Type} (R : A -> B -> Prop) l l' :
  Forall2 R l l' -> Forall2 (fun x y => In x l /\ R x y) l l'.
Proof.
  intros H.
  assert (G : forall l0, incl l l0 ->
                         Forall2 (fun x y => In x l0 /\ R x y) l l').
  { induction H as [| x y l l' Hxy _ IH]; intros l0 Hincl; constructor.
    - split; [apply Hincl; simpl; auto | exact Hxy].
    - apply IH. intros z Hz. apply Hincl. simpl. auto. }
  apply G, incl_refl.
Qed.

Lemma rank_candidates_row recs r :
  In r (rank_candidates recs) -> exists c, In c recs /\ fst c = fst r.
Proof.
  intros H. apply (in_map fst) in H. rewrite rank_candidates_ids in H.
  apply in_map_iff in H. destruct H as (c & Hc & Hin).
  exists c. split; [apply selected_In; exact Hin | exact Hc].
Qed.

Lemma rank_candidates_nil : rank_candidates [] = [].
Proof. reflexivity. Qed.

Lemma rows_for_add_source u rows :
  rows_for u (map add_source rows)
  = map add_source (filter (fun r => fst (fst r) =? u) rows).
Proof.
  unfold rows_for. induction rows as [| [[uid cid] rank] rows IH]; simpl;
    [reflexivity |].
  destruct (uid =? u); simpl; rewrite IH; reflexivity.
Qed.

Section UserBlock.

Context {lib : Sklearn}.

(** In the table of a run, the rows of a user are the ranking of the user's
    candidate list; every candidate carries the user's id and a content id
    outside the user's previous interactions; a user outside the log has
    none. *)
Lemma table_of_user self table u :
  cosine_scores self = [] -> user_profiles self = [] ->
  get_recommendations self = Ok table ->
  exists recs,
    rows_for u table = map add_source (rank_candidates recs) /\
    Forall (fresh_for u (previous_of self u)) recs /\
    (~ In u (log_users self) -> recs = []).
Proof.
  intros Hc Hp Hrun.
  apply (get_recommendations_fresh self table Hc Hp) in Hrun.
  destruct Hrun as (m & order & rowss & Hm & Hperm & _ & HF & ->).
  set (s := profiled (set_all_vectors self m) order) in *.
  assert (Hnd : NoDup order).
  { eapply Permutation_NoDup; [symmetry; exact Hperm | apply unique_NoDup]. }
  set (P := fun (v : Z) (rows : list (Z * Z * Z)) =>
              In v order /\ user_rows s v = Ok rows).
  assert (HF' : Forall2 P order rowss).
  { apply Forall2_with_In. exact HF. }
  assert (Hspec : forall v rows, P v rows ->
            exists recs, rows = rank_candidates recs /\
                         Forall (fresh_for v (previous_of self v)) recs).
  { intros v rows [Hin Hv]. apply user_rows_spec in Hv.
    destruct Hv as (p & recs & Hget & Hfresh & ->).
    unfold s in Hget. rewrite profiled_profile in Hget by exact Hin.
    inversion Hget; subst p. exists recs. split; [reflexivity |].
    exact Hfresh. }
  destruct (filter_concat_blocks (fun r : Z * Z * Z => fst (fst r)) P
              order rowss HF') with (u := u) as [Hin Hout]; auto.
  { intros v rows HP. destruct (Hspec v rows HP) as (recs & -> & Hfresh).
    apply Forall_forall. intros r Hr.
    apply rank_candidates_row in Hr. destruct Hr as (c & Hcin & <-).
    rewrite Forall_forall in Hfresh. apply (Hfresh c Hcin). }
  rewrite rows_for_add_source.
  destruct (in_dec Z.eq_dec u order) as [Hu | Hu].
  - destruct (Hin Hu) as (rows & HP & ->).
    destruct (Hspec u rows HP) as (recs & -> & Hfresh).
    exists recs. repeat split; auto.
    intros Hn. exfalso. apply Hn.
    eapply Permutation_in; [exact Hperm | exact Hu].
  - rewrite (Hout Hu). exists []. repeat split; auto.
Qed.

End UserBlock.

(** ** Previous interactions *)

Lemma set_union_In x a b : In x (set_union a b) <-> In x a \/ In x b.
Proof.
  unfold set_union. rewrite in_app_iff, filter_In. split.
  - intros [H | [H _]]; auto.
  - intros [H | H]; [auto |].
    destruct (Py.isin x a) eqn:E.
    + left. apply isin_In. exact E.
    + right. split; [exact H | reflexivity].
Qed.

Lemma previous_of_In self u c :
  In c (previous_of self u) <->
  exists i, In i (interactions_df self) /\ user_id i = u /\ item_id i = c /\
            (In (rating i) [4; 5] \/ In (rating i) [1; 2]).
Proof.
  unfold previous_of, rows_of_user.
  rewrite set_union_In, !unique_In, !in_map_iff. split.
  - intros [(i & Hi & Hin) | (i & Hi & Hin)];
      apply filter_In in Hin; destruct Hin as [Hin Hr];
      apply filter_In in Hin; destruct Hin as [Hin Hu];
      apply Z.eqb_eq in Hu; apply isin_In in Hr;
      exists i; auto.
  - intros (i & Hin & Hu & Hi & [Hr | Hr]); [left | right];
      exists i; (split; [exact Hi |]);
      apply filter_In; (split; [| apply isin_In; exact Hr]);
      apply filter_In; (split; [exact Hin | apply Z.eqb_eq; exact Hu]).
Qed.

(** ** Claims on the output table *)

Lemma ranks_from_one n :
  map (fun i => 1 + Z.of_nat i) (seq 0 n) = map Z.of_nat (seq 1 n).
Proof.
  rewrite <- seq_shift, map_map. apply map_ext. intros i. lia.
Qed.

Lemma add_source_rank rows :
  map recommendation_rank (map add_source rows) = map snd rows.
Proof.
  rewrite map_map. apply map_ext. intros [[uid cid] rank]. reflexivity.
Qed.

(** C4.  In the table of a run, every user has at most
    [total_recommendations] (50) rows, and the ranks of the user's rows are
    1, 2, ..., count, each once. *)
Theorem C4_count_and_ranks {lib : Sklearn} content inter users table :
  get_recommendations (ClusteredKNN content inter users) = Ok table ->
  forall u,
    (length (rows_for u table) <= 50)%nat /\
    map recommendation_rank (rows_for u table)
    = map Z.of_nat (seq 1 (length (rows_for u table))) /\
    NoDup (map recommendation_rank (rows_for u table)).
Proof.
  intros Hrun u.
  destruct (table_of_user (ClusteredKNN content inter users) table u
              eq_refl eq_refl Hrun)
    as (recs & Hrows & _ & _).
  assert (Hranks : map recommendation_rank (rows_for u table)
                   = map Z.of_nat (seq 1 (length (rows_for u table)))).
  { rewrite Hrows, add_source_rank, length_map, rank_candidates_ranks.
    apply ranks_from_one. }
  split; [| split; [exact Hranks |]].
  - rewrite Hrows, length_map, rank_candidates_length.
    change total_recommendations with 50%nat. lia.
  - rewrite Hranks. apply Finite.Injective_map_NoDup; [| apply seq_NoDup].
    intros a b. apply Nat2Z.inj.
Qed.

Lemma C4_count_and_ranks_witness :
  get_recommendations (lib := Reference.lib) ExampleA.self
  = Ok [ mk_recommendation 1 104 1 module_source_value;
         mk_recommendation 1 104 2 module_source_value ] /\
  (length (rows_for 1 [ mk_recommendation 1 104 1 module_source_value;
                        mk_recommendation 1 104 2 module_source_value ])
   <= 50)%nat.
Proof.
  split; [vm_compute; reflexivity |].
  apply (C4_count_and_ranks (lib := Reference.lib)
           ExampleA.catalog ExampleA.interactions [1]).
  vm_compute. reflexivity.
Defined.

(** C5.  No row of the table names a content id of its user's previous
    interactions, that is, an item the user rated 4-5 or 1-2 in the log.
    The table holds the rows of all three emission paths. *)
Theorem C5_never_previous_interaction {lib : Sklearn} content inter users
  table :
  get_recommendations (ClusteredKNN content inter users) = Ok table ->
  forall r, In r table ->
    ~ In (rec_content_id r)
         (previous_of (ClusteredKNN content inter users) (rec_user_id r)) /\
    (forall i, In i inter -> user_id i = rec_user_id r ->
               item_id i = rec_content_id r ->
               ~ In (rating i) [4; 5] /\ ~ In (rating i) [1; 2]).
Proof.
  intros Hrun r Hr.
  destruct (table_of_user (ClusteredKNN content inter users) table
              (rec_user_id r) eq_refl eq_refl Hrun)
    as (recs & Hrows & Hfresh & _).
  assert (Hin : In r (rows_for (rec_user_id r) table)).
  { unfold rows_for. apply filter_In. split; [exact Hr | apply Z.eqb_refl]. }
  rewrite Hrows in Hin. apply in_map_iff in Hin.
  destruct Hin as ([[uid cid] rank] & <- & Hin).
  apply rank_candidates_row in Hin. destruct Hin as (c & Hc & Hfst).
  rewrite Forall_forall in Hfresh. destruct (Hfresh c Hc) as [_ Hprev].
  rewrite Hfst in Hprev. cbn [add_source rec_content_id rec_user_id fst snd] in *.
  split; [exact Hprev |].
  intros i Hi Hu Hc'.
  split; intros Hrate; apply Hprev; apply previous_of_In; exists i;
    cbn [ClusteredKNN interactions_df]; auto.
Qed.

Lemma C5_never_previous_interaction_witness :
  ~ In 104 (previous_of ExampleA.self 1).
Proof.
  apply (C5_never_previous_interaction (lib := Reference.lib)
           ExampleA.catalog ExampleA.interactions [1]
           [ mk_recommendation 1 104 1 module_source_value;
             mk_recommendation 1 104 2 module_source_value ]
           ltac:(vm_compute; reflexivity)
           (mk_recommendation 1 104 1 module_source_value)
           ltac:(simpl; auto)).
Defined.

(** ** Claims on the profiles *)

(** The positive-interest vector of lines 170-174. *)
Lemma entry_of_scores {lib : Sklearn} self u :
  fst (entry_of self u)
  = map (cosine
           match map embedding (content (snd (entry_of self u))) with
           | [] => Np.zeros (Np.shape1 (all_vectors self))
           | _ :: _ =>
               Np.mean_axis0 (map embedding (content (snd (entry_of self u))))
           end)
        (all_vectors self).
Proof. reflexivity. Qed.

(** The call of line 181 for an accepted user. *)
Lemma accepted_scores {lib : Sklearn} self u :
  accepted self u = true ->
  cosine_similarity
    match map embedding (content (snd (entry_of self u))) with
    | [] => Np.zeros (Np.shape1 (all_vectors self))
    | _ :: _ => Np.mean_axis0 (map embedding (content (snd (entry_of self u))))
    end
    (all_vectors self)
  = Ok (fst (entry_of self u)).
Proof.
  intros H. unfold accepted, accepts in H. apply andb_prop in H.
  destruct H as [_ H]. unfold cosine_similarity.
  change (pairwise_ok
            (user_vector (all_vectors self) (content_df self)
                         (rows_of_user self u))
            (all_vectors self) = true) in H.
  unfold user_vector in H. cbn [entry_of snd user_profile content].
  rewrite H. reflexivity.
Qed.

(** The rows rated 3 are read by no part of the loop body. *)
Lemma user_entry_without_3 {lib : Sklearn} av bc inter :
  user_entry av bc (filter (fun i => negb (rating i =? 3)) inter)
  = user_entry av bc inter.
Proof.
  unfold user_entry.
  rewrite !(filter_filter_absorb _ (fun i => negb (rating i =? 3))).
  - reflexivity.
  - intros i _ H. apply isin_In in H. simpl in H.
    destruct H as [<- | [<- | []]]; reflexivity.
  - intros i _ H. apply isin_In in H. simpl in H.
    destruct H as [<- | [<- | []]]; reflexivity.
Qed.

(** C7.  On an object whose [all_vectors] is the stacked catalog, profile
    building stores, for every user of the log, a profile whose good content
    is the catalog rows the user rated 4 or 5, whose previous interactions
    are exactly the items the user rated 4-5 or 1-2, and whose scores are
    what [cosine_similarity] returns for the mean of the good embeddings; the
    rows rated 3 change neither: the loop body returns the same entry
    without them. *)
Theorem C7_profile_partition {lib : Sklearn} fuel batch_size self u :
  1 <= batch_size ->
  (length (log_users self) <= fuel)%nat ->
  cosine_scores self = [] -> user_profiles self = [] ->
  catalog_stacked self ->
  In u (log_users self) ->
  exists self' p scores,
    generate_user_profiles fuel batch_size self = Ok self' /\
    Py.dict_get u (user_profiles self') = Some p /\
    Py.dict_get u (cosine_scores self') = Some scores /\
    content p
    = filter (fun c => Py.isin (content_id c)
                (map item_id (filter (fun i => Py.isin (rating i) [4; 5])
                                     (rows_of_user self u))))
             (content_df self) /\
    (forall c, In c (previous_interactions p) <->
       exists i, In i (interactions_df self) /\ user_id i = u /\
                 item_id i = c /\
                 (In (rating i) [4; 5] \/ In (rating i) [1; 2])) /\
    cosine_similarity
      match map embedding (content p) with
      | [] => Np.zeros (Np.shape1 (all_vectors self))
      | _ :: _ => Np.mean_axis0 (map embedding (content p))
      end
      (all_vectors self)
    = Ok scores /\
    user_entry (all_vectors self) (content_df self)
      (filter (fun i => negb (rating i =? 3)) (rows_of_user self u))
    = Ok (scores, p).
Proof.
  intros Hb Hf Hc Hp Hst Hu.
  destruct (generate_user_profiles_fresh fuel batch_size self Hb Hf Hc Hp)
    as (order & Hperm & Hrun).
  rewrite (stacked_all_accepted self _ Hst) in Hrun.
  assert (Hin : In u order)
    by (eapply Permutation_in; [symmetry; exact Hperm | exact Hu]).
  exists (profiled self order), (snd (entry_of self u)), (fst (entry_of self u)).
  split; [exact Hrun |].
  split; [apply profiled_profile; exact Hin |].
  split; [apply profiled_scores; exact Hin |].
  split; [reflexivity |].
  split; [intros c; rewrite entry_of_previous; apply previous_of_In |].
  split; [apply accepted_scores, stacked_accepted, Hst |].
  rewrite user_entry_without_3, entry_of_user_entry.
  rewrite (stacked_accepted self u Hst), <- surjective_pairing. reflexivity.
Qed.

Lemma C7_profile_partition_witness :
  exists self' p,
    generate_user_profiles (lib := Reference.lib) 1 20 (stacked ExampleA.self)
    = Ok self'
    /\ Py.dict_get 1 (user_profiles self') = Some p
    /\ (In 103 (previous_interactions p) <->
        exists i, In i ExampleA.interactions /\ user_id i = 1 /\
                  item_id i = 103 /\
                  (In (rating i) [4; 5] \/ In (rating i) [1; 2])).
Proof.
  destruct (C7_profile_partition (lib := Reference.lib) 1 20
              (stacked ExampleA.self) 1)
    as (self' & p & scores & H1 & H2 & _ & _ & H5 & _).
  - lia.
  - vm_compute. apply le_n.
  - reflexivity.
  - reflexivity.
  - split; [reflexivity | vm_compute; lia].
  - vm_compute. left. reflexivity.
  - exists self', p. split; [exact H1 |]. split; [exact H2 |]. apply H5.
Defined.

(** The walk over [top_indices] raises only on an index outside the catalog
    or outside the user's row of scores. *)
Lemma walk_top_indices_total {lib : Sklearn} self uid scores prev top recs :
  Py.dict_get uid (cosine_scores self) = Some scores ->
  Forall (fun idx => (idx < length (content_df self))%nat /\
                     (idx < length scores)%nat) top ->
  exists out, walk_top_indices self uid prev top recs = Ok out.
Proof.
  intros Hs Htop. revert recs.
  induction Htop as [| idx rest [Hc Hsc] _ IH]; intros recs;
    cbn [walk_top_indices]; [eauto |].
  destruct (total_recommendations <=? length recs)%nat; [eauto |].
  unfold iloc_content_id.
  destruct (nth_error (content_df self) idx) as [row |] eqn:Er;
    [| apply nth_error_None in Er; lia].
  cbn [option_map of_option bind].
  destruct (negb (Py.isin (content_id row) prev)); [| apply IH].
  unfold cosine_score, Py.getitem. rewrite Hs. cbn [of_option bind].
  destruct (nth_error scores idx) as [s |] eqn:Es;
    [| apply nth_error_None in Es; lia].
  cbn [of_option bind]. apply IH.
Qed.

(** ** The rows of a user depend on the user's entries only *)

Lemma bind_ext {A B : Type} (m : result A) (k k' : A -> result B) :
  (forall a, k a = k' a) -> bind m k = bind m k'.
Proof. intros H. destruct m; simpl; auto. Qed.

Section Extensionality.

Context {lib : Sklearn}.

Variables s1 s2 : Recommender.
Variable u : Z.
Hypothesis Hcontent : content_df s1 = content_df s2.
Hypothesis Hvectors : all_vectors s1 = all_vectors s2.
Hypothesis Hscores :
  Py.dict_get u (cosine_scores s1) = Py.dict_get u (cosine_scores s2).
Hypothesis Hprofile :
  Py.dict_get u (user_profiles s1) = Py.dict_get u (user_profiles s2).

Lemma iloc_content_id_ext idx :
  iloc_content_id s1 idx = iloc_content_id s2 idx.
Proof. unfold iloc_content_id. rewrite Hcontent. reflexivity. Qed.

Lemma cosine_score_ext idx : cosine_score s1 u idx = cosine_score s2 u idx.
Proof. unfold cosine_score, Py.getitem. rewrite Hscores. reflexivity. Qed.

Lemma walk_top_indices_ext prev top recs :
  walk_top_indices s1 u prev top recs = walk_top_indices s2 u prev top recs.
Proof.
  revert recs. induction top as [| idx rest IH]; intros recs;
    cbn [walk_top_indices]; [reflexivity |].
  rewrite iloc_content_id_ext, cosine_score_ext.
  destruct (total_recommendations <=? length recs)%nat; [reflexivity |].
  destruct (iloc_content_id s2 idx) as [cid | |]; cbn [bind]; try reflexivity.
  destruct (negb (Py.isin cid prev)); [| apply IH].
  destruct (cosine_score s2 u idx); cbn [bind]; try reflexivity. apply IH.
Qed.

Lemma emit_neighbors_ext prev nbrs recs :
  emit_neighbors s1 u prev nbrs recs = emit_neighbors s2 u prev nbrs recs.
Proof.
  revert recs. induction nbrs as [| [dist idx] rest IH]; intros recs;
    cbn [emit_neighbors]; [reflexivity |].
  rewrite iloc_content_id_ext.
  destruct (iloc_content_id s2 idx) as [cid | |]; cbn [bind]; try reflexivity.
  destruct (negb (Py.isin cid prev)); [| apply IH].
  destruct (total_recommendations <=? _)%nat; [reflexivity | apply IH].
Qed.

Lemma cluster_step_ext p recs item :
  cluster_step s1 u p recs item = cluster_step s2 u p recs item.
Proof.
  unfold cluster_step. destruct item as [cluster proportion].
  destruct (cluster =? -1); [reflexivity |].
  destruct (mask_rows (content p) (clusters p) cluster) as [rows | |];
    cbn [bind]; try reflexivity.
  destruct (Np.vstack (map embedding rows)) as [m | |]; cbn [bind];
    try reflexivity.
  rewrite Hvectors.
  destruct (knn_query _ _ _) as [nbrs | |]; cbn [bind]; try reflexivity.
  apply emit_neighbors_ext.
Qed.

Lemma for_each_ext {A S : Type} (f g : S -> A -> result S) xs s :
  (forall s x, f s x = g s x) -> for_each f xs s = for_each g xs s.
Proof.
  intros H. revert s. induction xs as [| x xs IH]; intros s; simpl;
    [reflexivity |].
  rewrite H. destruct (g s x); simpl; auto.
Qed.

Lemma user_candidates_ext top :
  user_candidates s1 u top = user_candidates s2 u top.
Proof.
  unfold user_candidates, Py.getitem. rewrite Hprofile.
  destruct (Py.dict_get u (user_profiles s2)) as [p |]; cbn [of_option bind];
    [| reflexivity].
  rewrite (for_each_ext (cluster_step s1 u p) (cluster_step s2 u p))
    by (intros; apply cluster_step_ext).
  rewrite walk_top_indices_ext.
  destruct (if (length (Py.unique (map content_id (content p))) <? 5)%nat
            then _ else _) as [recs | |]; cbn [bind]; try reflexivity.
  apply walk_top_indices_ext.
Qed.

Lemma user_rows_ext : user_rows s1 u = user_rows s2 u.
Proof.
  unfold user_rows, Py.getitem. rewrite Hscores.
  apply bind_ext. intros scores. unfold recommend_user.
  rewrite user_candidates_ext. reflexivity.
Qed.

End Extensionality.

(** ** The batch size *)

Section BatchSize.

Context {lib : Sklearn}.

Lemma profiled_get_profile self o1 o2 u :
  Permutation o1 o2 ->
  Py.dict_get u (user_profiles (profiled self o1))
  = Py.dict_get u (user_profiles (profiled self o2)).
Proof.
  intros H. unfold profiled. cbn [set_registries user_profiles].
  rewrite !dict_get_map.
  destruct (Py.isin u o1) eqn:E1, (Py.isin u o2) eqn:E2; try reflexivity.
  - apply isin_In in E1. apply isin_false in E2. exfalso. apply E2.
    eapply Permutation_in; eauto.
  - apply isin_In in E2. apply isin_false in E1. exfalso. apply E1.
    eapply Permutation_in; [symmetry |]; eauto.
Qed.

Lemma profiled_get_scores self o1 o2 u :
  Permutation o1 o2 ->
  Py.dict_get u (cosine_scores (profiled self o1))
  = Py.dict_get u (cosine_scores (profiled self o2)).
Proof.
  intros H. unfold profiled. cbn [set_registries cosine_scores].
  rewrite !dict_get_map.
  destruct (Py.isin u o1) eqn:E1, (Py.isin u o2) eqn:E2; try reflexivity.
  - apply isin_In in E1. apply isin_false in E2. exfalso. apply E2.
    eapply Permutation_in; eauto.
  - apply isin_In in E2. apply isin_false in E1. exfalso. apply E1.
    eapply Permutation_in; [symmetry |]; eauto.
Qed.

Lemma profiled_user_rows self o1 o2 u :
  Permutation o1 o2 ->
  user_rows (profiled self o1) u = user_rows (profiled self o2) u.
Proof.
  intros H. apply user_rows_ext; try reflexivity.
  - apply profiled_get_scores, H.
  - apply profiled_get_profile, H.
Qed.

Lemma Forall2_map_r {A B : Type} (R : A -> B -> Prop) (f : A -> B) l l' :
  Forall2 R l l' -> (forall x y, R x y -> y = f x) -> l' = map f l.
Proof.
  intros H Hf. induction H as [| x y l l' Hxy _ IH]; simpl; [reflexivity |].
  rewrite (Hf x y Hxy), IH. reflexivity.
Qed.

Lemma Forall2_In_l {A B : Type} (R : A -> B -> Prop) l l' :
  Forall2 R l l' -> forall x, In x l -> exists y, R x y.
Proof.
  induction 1 as [| a b l l' Hab _ IH]; simpl; intros x Hx; [contradiction |].
  destruct Hx as [<- | Hx]; eauto.
Qed.

Lemma Forall2_map_intro {A B : Type} (R : A -> B -> Prop) (f : A -> B) l :
  (forall x, In x l -> R x (f x)) -> Forall2 R l (map f l).
Proof.
  induction l as [| x l IH]; intros H; simpl; constructor.
  - apply H. simpl. auto.
  - apply IH. intros y Hy. apply H. simpl. auto.
Qed.

(** Generation on two registries that hold the same users in two orders. *)
Lemma generate_recommendations_perm self o1 o2 t1 :
  Permutation o1 o2 -> NoDup o1 ->
  generate_recommendations (profiled self o1) = Ok t1 ->
  exists t2,
    generate_recommendations (profiled self o2) = Ok t2 /\
    Permutation (recommendations_df t1) (recommendations_df t2) /\
    (forall u, rows_for u (recommendations_df t1)
               = rows_for u (recommendations_df t2)).
Proof.
  intros Hperm Hnd H1.
  apply generate_recommendations_Ok in H1. destruct H1 as (rowss1 & HF1 & ->).
  rewrite profiled_keys in HF1.
  assert (Hr1 : rowss1 = map (rows_or_nil (profiled self o1)) o1).
  { apply (Forall2_map_r _ _ _ _ HF1). intros x y Hxy.
    unfold rows_or_nil. rewrite Hxy. reflexivity. }
  assert (Hok : forall u, In u o1 ->
            user_rows (profiled self o1) u
            = Ok (rows_or_nil (profiled self o1) u)).
  { intros u Hu. destruct (Forall2_In_l _ _ _ HF1 u Hu) as (y & Hy).
    unfold rows_or_nil. rewrite Hy. reflexivity. }
  set (rowss2 := map (rows_or_nil (profiled self o1)) o2).
  assert (Hin21 : forall u, In u o2 -> In u o1)
    by (intros u Hu; eapply Permutation_in; [symmetry |]; eauto).
  assert (HF2 : Forall2 (fun u rows => user_rows (profiled self o2) u = Ok rows)
                        o2 rowss2).
  { unfold rowss2. apply Forall2_map_intro. intros u Hu.
    rewrite <- (profiled_user_rows self o1 o2 u Hperm).
    apply Hok, Hin21, Hu. }
  exists (set_recommendations_df (profiled self o2)
            (map add_source (concat rowss2))).
  split; [| split].
  - apply generate_recommendations_Ok. exists rowss2.
    rewrite profiled_keys. auto.
  - cbn [set_recommendations_df recommendations_df].
    apply Permutation_map. rewrite Hr1. unfold rowss2.
    rewrite <- !flat_map_concat_map. apply Permutation_flat_map, Hperm.
  - intros u. cbn [set_recommendations_df recommendations_df].
    rewrite !rows_for_add_source. f_equal.
    assert (Hnd2 : NoDup o2) by (eapply Permutation_NoDup; eauto).
    assert (Hkey : forall s v rows,
              user_rows s v = Ok rows ->
              Forall (fun r : Z * Z * Z => fst (fst r) = v) rows).
    { intros s v rows Hv. apply user_rows_spec in Hv.
      destruct Hv as (p & recs & _ & Hfresh & ->).
      apply Forall_forall. intros r Hr.
      apply rank_candidates_row in Hr. destruct Hr as (c & Hc & <-).
      rewrite Forall_forall in Hfresh. apply (Hfresh c Hc). }
    destruct (filter_concat_blocks (fun r : Z * Z * Z => fst (fst r))
                (fun v rows => user_rows (profiled self o1) v = Ok rows)
                o1 rowss1 HF1 (Hkey _) Hnd u) as [Hin1 Hout1].
    destruct (filter_concat_blocks (fun r : Z * Z * Z => fst (fst r))
                (fun v rows => user_rows (profiled self o2) v = Ok rows)
                o2 rowss2 HF2 (Hkey _) Hnd2 u) as [Hin2 Hout2].
    destruct (in_dec Z.eq_dec u o1) as [Hu | Hu].
    + destruct (Hin1 Hu) as (r1 & Hr1' & ->).
      destruct (Hin2 (Permutation_in _ Hperm Hu)) as (r2 & Hr2' & ->).
      rewrite (profiled_user_rows self o1 o2 u Hperm) in Hr1'.
      congruence.
    + rewrite (Hout1 Hu), Hout2; [reflexivity |].
      intros H. apply Hu, Hin21, H.
Qed.

(** C8.  The batch size does not affect the result.  For two batch sizes
    of at least one (and fuel for one round per user), profile building
    either raises [ValueError] with both, which it does not on the stacked
    catalog, or ends with both, and then the registries hold the same
    profile and the same scores for every user, and recommendation
    generation from the one succeeds exactly when it succeeds from the
    other, with the same rows for every user: the two tables are
    permutations of each other and agree on the block of rows of every
    user.  The order of the users' blocks, which carries no meaning, is the
    one thing that follows the batch size. *)
Theorem C8_batch_size_does_not_affect_result fuel1 fuel2 b1 b2 self :
  1 <= b1 -> 1 <= b2 ->
  (length (log_users self) <= fuel1)%nat ->
  (length (log_users self) <= fuel2)%nat ->
  cosine_scores self = [] -> user_profiles self = [] ->
  (generate_user_profiles fuel1 b1 self = Raise ValueError /\
   generate_user_profiles fuel2 b2 self = Raise ValueError /\
   ~ catalog_stacked self) \/
  exists s1 s2,
    generate_user_profiles fuel1 b1 self = Ok s1 /\
    generate_user_profiles fuel2 b2 self = Ok s2 /\
    (forall u, Py.dict_get u (user_profiles s1)
               = Py.dict_get u (user_profiles s2)) /\
    (forall u, Py.dict_get u (cosine_scores s1)
               = Py.dict_get u (cosine_scores s2)) /\
    Permutation (user_profiles s1) (user_profiles s2) /\
    Permutation (cosine_scores s1) (cosine_scores s2) /\
    (forall t1, generate_recommendations s1 = Ok t1 ->
       exists t2,
         generate_recommendations s2 = Ok t2 /\
         Permutation (recommendations_df t1) (recommendations_df t2) /\
         (forall u, rows_for u (recommendations_df t1)
                    = rows_for u (recommendations_df t2))) /\
    (forall t2, generate_recommendations s2 = Ok t2 ->
       exists t1,
         generate_recommendations s1 = Ok t1 /\
         Permutation (recommendations_df t1) (recommendations_df t2) /\
         (forall u, rows_for u (recommendations_df t1)
                    = rows_for u (recommendations_df t2))).
Proof.
  intros Hb1 Hb2 Hf1 Hf2 Hc Hp.
  destruct (generate_user_profiles_fresh fuel1 b1 self Hb1 Hf1 Hc Hp)
    as (o1 & Hperm1 & Hrun1).
  destruct (generate_user_profiles_fresh fuel2 b2 self Hb2 Hf2 Hc Hp)
    as (o2 & Hperm2 & Hrun2).
  destruct (forallb (accepted self) (log_users self)) eqn:Eacc.
  2:{ left. split; [exact Hrun1 |]. split; [exact Hrun2 |].
      intros Hst. rewrite (stacked_all_accepted self _ Hst) in Eacc.
      discriminate. }
  right.
  assert (Hperm : Permutation o1 o2)
    by (rewrite Hperm1, Hperm2; reflexivity).
  assert (Hnd1 : NoDup o1)
    by (eapply Permutation_NoDup; [symmetry; exact Hperm1 | apply unique_NoDup]).
  assert (Hnd2 : NoDup o2) by (eapply Permutation_NoDup; eauto).
  exists (profiled self o1), (profiled self o2).
  split; [exact Hrun1 |]. split; [exact Hrun2 |].
  split; [intros u; apply profiled_get_profile, Hperm |].
  split; [intros u; apply profiled_get_scores, Hperm |].
  split; [apply Permutation_map, Hperm |].
  split; [apply Permutation_map, Hperm |].
  split.
  - intros t1 Ht1.
    exact (generate_recommendations_perm self o1 o2 t1 Hperm Hnd1 Ht1).
  - intros t2 Ht2.
    destruct (generate_recommendations_perm self o2 o1 t2
                (Permutation_sym Hperm) Hnd2 Ht2) as (t1 & H1 & H2 & H3).
    exists t1. split; [exact H1 |]. split; [symmetry; exact H2 |].
    intros u. symmetry. apply H3.
Qed.

End BatchSize.

Lemma C8_batch_size_does_not_affect_result_witness :
  exists s1 s2,
    generate_user_profiles (lib := Reference.lib) 2 1 ExampleBatch.self = Ok s1
    /\ generate_user_profiles (lib := Reference.lib) 2 2 ExampleBatch.self
       = Ok s2
    /\ (forall u, Py.dict_get u (user_profiles s1)
                  = Py.dict_get u (user_profiles s2))
    /\ (forall u, Py.dict_get u (cosine_scores s1)
                  = Py.dict_get u (cosine_scores s2)).
Proof.
  destruct (C8_batch_size_does_not_affect_result (lib := Reference.lib) 2 2 1 2
              ExampleBatch.self)
    as [(H & _) | (s1 & s2 & H1 & H2 & H3 & H4 & _)].
  - lia.
  - lia.
  - vm_compute. apply le_n.
  - vm_compute. apply le_n.
  - reflexivity.
  - reflexivity.
  - vm_compute in H. discriminate.
  - exists s1, s2. auto.
Defined.

(** The registries are filled batch by batch, and inside a batch by
    ascending user id, so the order of the users' blocks in the table follows
    the batch size: with the users 2 and 1 met in this order, a batch size
    of 1 puts the rows of user 2 first and a batch size of 2 those of
    user 1. *)
Lemma block_order_follows_batch_size :
  exists t1 t2,
    (s <- generate_user_profiles (lib := Reference.lib) 2 1 ExampleBatch.self ;;
     generate_recommendations (lib := Reference.lib) s) = Ok t1 /\
    (s <- generate_user_profiles (lib := Reference.lib) 2 2 ExampleBatch.self ;;
     generate_recommendations (lib := Reference.lib) s) = Ok t2 /\
    map rec_user_id (recommendations_df t1) = [2; 2; 2; 2; 2; 2; 1; 1; 1; 1; 1; 1] /\
    map rec_user_id (recommendations_df t2) = [1; 1; 1; 1; 1; 1; 2; 2; 2; 2; 2; 2] /\
    (forall u, rows_for u (recommendations_df t1)
               = rows_for u (recommendations_df t2)).
Proof.
  eexists. eexists.
  split; [vm_compute; reflexivity |].
  split; [vm_compute; reflexivity |].
  split; [vm_compute; reflexivity |].
  split; [vm_compute; reflexivity |].
  intros u. unfold rows_for. cbn [recommendations_df filter rec_user_id].
  destruct (2 =? u) eqn:E2; destruct (1 =? u) eqn:E1; try reflexivity.
  apply Z.eqb_eq in E1, E2. lia.
Qed.

(** ** Who appears in the table *)

Section Appearance.

Context {lib : Sklearn}.

Lemma walk_top_indices_prefix self uid prev top recs out :
  walk_top_indices self uid prev top recs = Ok out ->
  exists extra, out = recs ++ extra.
Proof.
  revert recs. induction top as [| idx rest IH]; cbn [walk_top_indices];
    intros recs H.
  - inversion H. exists []. rewrite app_nil_r. reflexivity.
  - destruct (total_recommendations <=? length recs)%nat.
    + inversion H. exists []. rewrite app_nil_r. reflexivity.
    + inv_bind H. destruct (negb (Py.isin a prev)).
      * inv_bind H. apply IH in H. destruct H as (extra & ->).
        rewrite <- app_assoc. eauto.
      * apply IH in H. exact H.
Qed.

(** A walk that meets a catalog row outside the previous interactions does
    not end with an empty list. *)
Lemma walk_top_indices_nonempty self uid prev top recs out :
  walk_top_indices self uid prev top recs = Ok out ->
  (exists idx row, In idx top /\
                   nth_error (content_df self) idx = Some row /\
                   ~ In (content_id row) prev) ->
  out <> [].
Proof.
  revert recs. induction top as [| idx rest IH]; cbn [walk_top_indices];
    intros recs H (i & row & Hi & Hrow & Hfresh).
  - contradiction.
  - destruct (total_recommendations <=? length recs)%nat eqn:E.
    + inversion H; subst out. apply Nat.leb_le in E.
      unfold total_recommendations in E. destruct recs; simpl in E; [lia |].
      discriminate.
    + inv_bind H. destruct (Py.isin a prev) eqn:Ein; cbn [negb] in H.
      * apply (IH recs H). destruct Hi as [<- | Hi].
        -- unfold iloc_content_id in Ha. rewrite Hrow in Ha.
           cbn in Ha. inversion Ha; subst a.
           apply isin_In in Ein. contradiction.
        -- eauto.
      * inv_bind H. apply walk_top_indices_prefix in H.
        destruct H as (extra & ->). rewrite <- app_assoc.
        destruct recs; discriminate.
Qed.

Lemma rank_candidates_nonempty recs :
  rank_candidates recs <> [] <-> recs <> [].
Proof.
  pose proof (rank_candidates_length recs) as H.
  unfold total_recommendations in H.
  destruct recs as [| c recs]; destruct (rank_candidates _) as [| r rows];
    simpl in H; split; intros G; try congruence; try lia; try discriminate.
Qed.

End Appearance.

(** ** The users table is not read *)

Section UsersTable.

Context {lib : Sklearn}.

Lemma profile_batch_with_users self users chunk :
  profile_batch (with_users self users) chunk
  = s <- profile_batch self chunk ;; Ok (with_users s users).
Proof.
  unfold profile_batch. cbn [with_users interactions_df content_df].
  generalize (groupby_user
                (filter (fun i => Py.isin (user_id i) chunk)
                        (interactions_df self))) as groups.
  generalize (filter
                (fun c => Py.isin (content_id c)
                   (map item_id
                      (filter (fun i => Py.isin (user_id i) chunk)
                              (interactions_df self))))
                (content_df self)) as bc.
  intros bc groups. revert self.
  induction groups as [| g groups IH]; intros self; cbn [for_each];
    [reflexivity |].
  unfold profile_user at 1 3. cbn [with_users all_vectors].
  destruct (user_entry (all_vectors self) bc (snd g)) as [e | |];
    cbn [bind]; try reflexivity.
  apply (IH (set_user self (fst g) (fst e) (snd e))).
Qed.

Lemma profile_batches_with_users fuel batch_size ids remaining self users :
  profile_batches fuel batch_size ids remaining (with_users self users)
  = s <- profile_batches fuel batch_size ids remaining self ;;
    Ok (with_users s users).
Proof.
  revert ids remaining self.
  induction fuel as [| fuel IH]; intros ids remaining self;
    cbn [profile_batches]; destruct (0 <? remaining); try reflexivity.
  rewrite profile_batch_with_users.
  destruct (profile_batch self _) as [s | |]; cbn [bind]; try reflexivity.
  apply IH.
Qed.

Lemma generate_user_profiles_with_users fuel batch_size self users :
  generate_user_profiles fuel batch_size (with_users self users)
  = s <- generate_user_profiles fuel batch_size self ;;
    Ok (with_users s users).
Proof.
  unfold generate_user_profiles. cbn [with_users interactions_df].
  apply profile_batches_with_users.
Qed.

Lemma user_rows_with_users self users u :
  user_rows (with_users self users) u = user_rows self u.
Proof. apply user_rows_ext; reflexivity. Qed.

Lemma generate_recommendations_with_users self users s :
  generate_recommendations self = Ok s ->
  generate_recommendations (with_users self users) = Ok (with_users s users).
Proof.
  intros E.
  apply generate_recommendations_Ok in E. destruct E as (rowss & HF & ->).
  apply generate_recommendations_Ok. exists rowss. split; [| reflexivity].
  cbn [with_users user_profiles].
  eapply Forall2_impl; [| exact HF]. simpl. intros u rows H.
  rewrite user_rows_with_users. exact H.
Qed.

Lemma get_recommendations_with_users self users table :
  get_recommendations self = Ok table ->
  get_recommendations (with_users self users) = Ok table.
Proof.
  unfold get_recommendations. cbn [with_users content_df interactions_df].
  intros H. inv_bind H. rewrite Ha. cbn [bind].
  inv_bind H. inv_bind H. inversion H; subst table. clear H.
  change (set_all_vectors (with_users self users) a)
    with (with_users (set_all_vectors self a) users).
  rewrite generate_user_profiles_with_users.
  cbn [set_all_vectors interactions_df] in Ha0.
  cbn [set_all_vectors with_users interactions_df].
  fold (set_all_vectors self a). rewrite Ha0. cbn [bind].
  rewrite (generate_recommendations_with_users _ users _ Ha1). reflexivity.
Qed.

End UsersTable.

Lemma rows_for_nonempty u table :
  In u (map rec_user_id table) <-> rows_for u table <> [].
Proof.
  unfold rows_for. rewrite in_map_iff. split.
  - intros (r & Hr & Hin) H.
    assert (G : In r (filter (fun r => rec_user_id r =? u) table)).
    { apply filter_In. split; [exact Hin | apply Z.eqb_eq; exact Hr]. }
    rewrite H in G. contradiction.
  - intros H.
    destruct (filter (fun r => rec_user_id r =? u) table) as [| r rows] eqn:E;
      [congruence |].
    assert (G : In r (r :: rows)) by (simpl; auto).
    rewrite <- E in G. apply filter_In in G. destruct G as [G1 G2].
    exists r. split; [apply Z.eqb_eq; exact G2 | exact G1].
Qed.

(** C10, amended.  In the table of a run, every user id is a user id of the
    interaction log, and the users table is not read: any other users table
    gives the same table.  Profile building stores a profile for exactly the
    users of the log; a user outside the log has no profile and no row.  A
    user of the log has rows exactly when the user's candidate list is not
    empty, which is the case whenever some row of the fallback pool is
    outside the user's previous interactions. *)
Theorem C10_output_users {lib : Sklearn} content inter users table :
  get_recommendations (ClusteredKNN content inter users) = Ok table ->
  (forall u, In u (map rec_user_id table) -> In u (map user_id inter)) /\
  (forall users',
     get_recommendations (ClusteredKNN content inter users') = Ok table) /\
  exists m s,
    Np.vstack (map embedding content) = Ok m /\
    generate_user_profiles (S (length inter)) default_batch_size
      (set_all_vectors (ClusteredKNN content inter users) m) = Ok s /\
    (forall u, In u (Py.keys (user_profiles s)) <-> In u (map user_id inter)) /\
    (forall u, ~ In u (map user_id inter) ->
       Py.dict_get u (user_profiles s) = None /\ rows_for u table = []) /\
    (forall u, In u (map user_id inter) ->
       exists scores p recs,
         Py.dict_get u (cosine_scores s) = Some scores /\
         Py.dict_get u (user_profiles s) = Some p /\
         user_candidates s u (fallback_pool scores) = Ok recs /\
         rows_for u table = map add_source (rank_candidates recs) /\
         (In u (map rec_user_id table) <-> recs <> []) /\
         ((exists idx row,
             In idx (fallback_pool scores) /\
             nth_error content idx = Some row /\
             ~ In (content_id row) (previous_interactions p)) ->
          recs <> [])).
Proof.
  intros Hrun.
  set (self := ClusteredKNN content inter users) in *.
  pose proof Hrun as Hrun0.
  apply (get_recommendations_fresh self table eq_refl eq_refl) in Hrun.
  destruct Hrun as (m & order & rowss & Hm & Hperm & Hprof & HF & Htable).
  set (s := profiled (set_all_vectors self m) order) in *.
  assert (Hnd : NoDup order).
  { eapply Permutation_NoDup; [symmetry; exact Hperm | apply unique_NoDup]. }
  assert (Horder : forall u, In u order <-> In u (map user_id inter)).
  { intros u. rewrite <- (unique_In u (map user_id inter)).
    split; apply Permutation_in; [| symmetry]; exact Hperm. }
  assert (Hkey : forall v rows,
            user_rows s v = Ok rows ->
            Forall (fun r : Z * Z * Z => fst (fst r) = v) rows).
  { intros v rows Hv. apply user_rows_spec in Hv.
    destruct Hv as (p & recs & _ & Hfresh & ->).
    apply Forall_forall. intros r Hr.
    apply rank_candidates_row in Hr. destruct Hr as (c & Hc & <-).
    rewrite Forall_forall in Hfresh. apply (Hfresh c Hc). }
  pose proof (filter_concat_blocks (fun r : Z * Z * Z => fst (fst r))
                (fun v rows => user_rows s v = Ok rows)
                order rowss HF Hkey Hnd) as Hblocks.
  assert (Hout : forall u, ~ In u (map user_id inter) -> rows_for u table = []).
  { intros u Hu. rewrite Htable, rows_for_add_source.
    destruct (Hblocks u) as [_ H]. rewrite H; [reflexivity |].
    rewrite Horder. exact Hu. }
  split; [| split].
  - intros u Hu. destruct (in_dec Z.eq_dec u (map user_id inter)) as [H | H];
      [exact H |].
    apply rows_for_nonempty in Hu. rewrite (Hout u H) in Hu. congruence.
  - intros users'.
    exact (get_recommendations_with_users self users' table Hrun0).
  - exists m, s. split; [exact Hm |]. split; [exact Hprof |].
    split; [| split].
    + intros u. unfold s. rewrite profiled_keys. apply Horder.
    + intros u Hu. split; [| apply Hout, Hu].
      destruct (Py.dict_get u (user_profiles s)) as [p |] eqn:E;
        [| reflexivity].
      exfalso. apply Hu, Horder.
      rewrite <- (profiled_keys (set_all_vectors self m) order).
      apply dict_get_In_keys. eauto.
    + intros u Hu. apply Horder in Hu.
      destruct (Hblocks u) as [Hin _]. destruct (Hin Hu) as (rows & Hrows & Hf).
      unfold user_rows, Py.getitem in Hrows.
      pose proof (profiled_scores (set_all_vectors self m) order u Hu) as Hs.
      fold s in Hs. rewrite Hs in Hrows. cbn [of_option bind] in Hrows.
      unfold recommend_user in Hrows. inv_bind Hrows.
      injection Hrows as Hr. rewrite <- Hr in Hf. clear Hr.
      pose proof (profiled_profile (set_all_vectors self m) order u Hu) as Hp.
      fold s in Hp.
      exists (fst (entry_of (set_all_vectors self m) u)),
             (snd (entry_of (set_all_vectors self m) u)), a.
      split; [exact Hs |]. split; [exact Hp |]. split; [exact Ha |].
      assert (Hrows : rows_for u table = map add_source (rank_candidates a)).
      { rewrite Htable, rows_for_add_source, Hf. reflexivity. }
      split; [exact Hrows |]. split.
      * rewrite rows_for_nonempty, Hrows. rewrite <- rank_candidates_nonempty.
        split; intros H G; apply H.
        -- rewrite G. reflexivity.
        -- apply map_eq_nil in G. exact G.
      * intros Hex. unfold user_candidates, Py.getitem in Ha.
        rewrite Hp in Ha. cbn [of_option bind] in Ha. inv_bind Ha.
        eapply walk_top_indices_nonempty; [exact Ha | exact Hex].
Qed.

Lemma C10_output_users_witness :
  get_recommendations (lib := Reference.lib) ExampleA.self
  = Ok [ mk_recommendation 1 104 1 module_source_value;
         mk_recommendation 1 104 2 module_source_value ] /\
  (forall u, In u [1; 1] -> In u (map user_id ExampleA.interactions)).
Proof.
  split; [vm_compute; reflexivity |].
  apply (C10_output_users (lib := Reference.lib)
           ExampleA.catalog ExampleA.interactions [1]
           [ mk_recommendation 1 104 1 module_source_value;
             mk_recommendation 1 104 2 module_source_value ]).
  vm_compute. reflexivity.
Defined.

(** The only item of the catalog is in the previous interactions of the only
    user: the run succeeds with an empty table, and the user of the log is
    not in it. *)
Lemma C10_user_without_rows :
  exists table,
    get_recommendations (lib := Reference.lib) ExampleSeen.self = Ok table /\
    table = [] /\
    ~ (forall u, In u (map rec_user_id table)
                 <-> In u (map user_id ExampleSeen.interactions)).
Proof.
  exists []. split; [vm_compute; reflexivity |]. split; [reflexivity |].
  intros H. destruct (H 1) as [_ G]. apply G. simpl. auto.
Qed.

(** ** Slot allocation *)


Lemma value_counts_normalize_In labels c proportion :
  In (c, proportion) (value_counts_normalize labels) ->
  In c labels /\
  proportion = (inject_Z (Z.of_nat (count_occ Z.eq_dec labels c))
                / inject_Z (Z.of_nat (length labels)))%Q.
Proof.
  unfold value_counts_normalize, Py.sorted_reverse. intros H.
  apply in_map_iff in H. destruct H as ([k n] & Heq & Hin).
  apply sorted_In in Hin. apply in_map_iff in Hin.
  destruct Hin as (k' & Hk & Hin). inversion Hk; subst k' n. clear Hk.
  cbn [fst snd] in Heq. inversion Heq; subst. split; [| reflexivity].
  apply unique_In. exact Hin.
Qed.




(** ** Ranking and ties *)

Lemma StronglySorted_app_inv {A : Type} (R : A -> A -> Prop) l1 l2 :
  StronglySorted R (l1 ++ l2) ->
  forall a b, In a l1 -> In b l2 -> R a b.
Proof.
  induction l1 as [| x l1 IH]; simpl; intros H a b Ha Hb; [contradiction |].
  inversion H as [| ? ? Hs Hall]; subst.
  destruct Ha as [<- | Ha].
  - rewrite Forall_forall in Hall. apply Hall, in_or_app. auto.
  - apply IH; assumption.
Qed.

(** C2, amended.  The ranking keeps the first 50 candidates by descending
    score, every candidate left out scoring no more than any candidate kept,
    and numbers them 1, 2, ... in descending score order.  Candidates of
    equal score keep the order they have in the heapified candidate list
    ([heapq.heapify] on the (user, content, score) tuples, a permutation of
    the list in insertion order). *)
Theorem C2_top_by_score_ties_by_heap (recs : list candidate) :
  rank_candidates recs = map number (Py.enumerate 1 (selected recs)) /\
  length (selected recs) = Nat.min 50 (length recs) /\
  map snd (rank_candidates recs)
  = map Z.of_nat (seq 1 (length (selected recs))) /\
  descending (selected recs) /\
  (exists rest,
     Permutation (selected recs ++ rest) recs /\
     forall a b, In a (selected recs) -> In b rest -> (snd b <= snd a)%Q) /\
  (forall s, exists rest,
     with_score s (Heapq.heapify candidate_lt recs)
     = with_score s (selected recs) ++ rest) /\
  Permutation (Heapq.heapify candidate_lt recs) recs.
Proof.
  set (S := Py.sorted_reverse score_lt (Heapq.heapify candidate_lt recs)).
  assert (HS : descending S) by apply sorted_reverse_descending.
  assert (Hsplit : S = selected recs ++ skipn total_recommendations S).
  { unfold selected. fold S. symmetry. apply firstn_skipn. }
  split; [apply rank_candidates_selected |].
  split; [apply selected_length |].
  split.
  { rewrite rank_candidates_ranks, rank_candidates_length, selected_length.
    apply ranks_from_one. }
  split; [unfold selected; apply ascending_firstn, HS |].
  split; [| split; [| apply heapify_perm]].
  - exists (skipn total_recommendations S). split.
    + rewrite <- Hsplit. unfold S, Py.sorted_reverse.
      rewrite sorted_perm. apply heapify_perm.
    + intros a b Ha Hb. unfold descending, ascending in HS.
      rewrite Hsplit in HS.
      pose proof (StronglySorted_app_inv _ _ _ HS a b Ha Hb) as H.
      cbv beta in H. unfold score_lt in H. apply Qltb_ge in H. exact H.
  - intros s. exists (with_score s (skipn total_recommendations S)).
    unfold with_score. rewrite <- filter_app.
    etransitivity; [| exact (f_equal (filter _) Hsplit)].
    unfold S, Py.sorted_reverse. symmetry. apply sorted_filter.
    intros x y Hx Hy. unfold score_lt. apply Qltb_ge.
    apply Qeq_bool_iff in Hx. apply Qeq_bool_iff in Hy.
    rewrite Hx, Hy. apply Qle_refl.
Qed.

(** With the items 103 and 102 of one score appended in this order (and once
    more by the supplement loop), [heapify] moves the smaller tuple first:
    the ranks go to 102, 102, 103, 103, where the insertion order would give
    103, 102, 103, 102. *)
Lemma C2_ties_not_in_insertion_order :
  exists s scores recs,
    generate_user_profiles (lib := Reference.lib) 1 20
      (set_all_vectors ExampleTies.self (map embedding ExampleTies.catalog))
    = Ok s /\
    Py.dict_get 1 (cosine_scores s) = Some scores /\
    user_candidates (lib := Reference.lib) s 1
      (fallback_pool (lib := Reference.lib) scores) = Ok recs /\
    map (fun c => snd (fst c)) recs = [103; 102; 103; 102] /\
    map (fun c => Qeq_bool (snd c) 0) recs = [true; true; true; true] /\
    rank_candidates recs = [(1, 102, 1); (1, 102, 2); (1, 103, 3); (1, 103, 4)] /\
    rank_by_insertion_order recs
    = [(1, 103, 1); (1, 102, 2); (1, 103, 3); (1, 102, 4)] /\
    get_recommendations (lib := Reference.lib) ExampleTies.self
    = Ok (map add_source (rank_candidates recs)) /\
    rank_candidates recs <> rank_by_insertion_order recs.
Proof.
  eexists. eexists. eexists.
  split; [vm_compute; reflexivity |].
  split; [vm_compute; reflexivity |].
  split; [vm_compute; reflexivity |].
  split; [vm_compute; reflexivity |].
  split; [vm_compute; reflexivity |].
  split; [vm_compute; reflexivity |].
  split; [vm_compute; reflexivity |].
  split; [vm_compute; reflexivity |].
  intros H. vm_compute in H. discriminate.
Qed.

(** ** Example A *)

Section PoolWalk.

Context {lib : Sklearn}.

(** A walk that does not run into the cap appends the eligible positions in
    pool order. *)
Lemma walk_top_indices_filter self uid scores prev top recs :
  Py.dict_get uid (cosine_scores self) = Some scores ->
  Forall (fun idx => (idx < length (content_df self))%nat /\
                     (idx < length scores)%nat) top ->
  (length recs + length (filter (eligible self prev) top)
   <= total_recommendations)%nat ->
  walk_top_indices self uid prev top recs
  = Ok (recs ++ map (pool_candidate self uid scores)
                    (filter (eligible self prev) top)).
Proof.
  intros Hs Htop. revert recs.
  induction Htop as [| idx rest [Hc Hsc] _ IH]; intros recs Hlen;
    cbn [walk_top_indices].
  - simpl. rewrite app_nil_r. reflexivity.
  - cbn [filter] in Hlen.
    assert (Eid : iloc_content_id self idx
                  = Ok (nth idx (map content_id (content_df self)) 0)).
    { unfold iloc_content_id.
      destruct (nth_error (content_df self) idx) as [row |] eqn:Er;
        [| apply nth_error_None in Er; lia].
      cbn [option_map of_option]. f_equal. symmetry.
      apply nth_error_nth. rewrite nth_error_map, Er. reflexivity. }
    assert (Esc : cosine_score self uid idx = Ok (nth idx scores 0%Q)).
    { unfold cosine_score, Py.getitem. rewrite Hs. cbn [of_option bind].
      destruct (nth_error scores idx) as [s |] eqn:Es;
        [| apply nth_error_None in Es; lia].
      cbn [of_option]. f_equal. symmetry. apply nth_error_nth. exact Es. }
    destruct (total_recommendations <=? length recs)%nat eqn:E.
    + apply Nat.leb_le in E. cbn [filter].
      destruct (eligible self prev idx) eqn:Eel; [simpl in Hlen; lia |].
      destruct (filter (eligible self prev) rest); [| simpl in Hlen; lia].
      simpl. rewrite app_nil_r. reflexivity.
    + rewrite Eid. cbn [bind filter]. fold (eligible self prev idx).
      destruct (eligible self prev idx) eqn:Eel.
      * rewrite Esc. cbn [bind]. rewrite IH.
        -- rewrite <- app_assoc. reflexivity.
        -- rewrite length_app. simpl in *. lia.
      * apply IH. exact Hlen.
Qed.

End PoolWalk.

Lemma filter_perm {A : Type} (p : A -> bool) l l' :
  Permutation l l' -> Permutation (filter p l) (filter p l').
Proof.
  induction 1 as [| x l l' _ IH | x y l | l l' l'' _ IH1 _ IH2]; simpl.
  - constructor.
  - destruct (p x); [constructor |]; exact IH.
  - destruct (p x), (p y); try reflexivity. apply perm_swap.
  - etransitivity; eauto.
Qed.

Lemma all_equal_repeat {A : Type} (x : A) l :
  (forall y, In y l -> y = x) -> l = repeat x (length l).
Proof.
  induction l as [| y l IH]; intros H; simpl; [reflexivity |].
  rewrite (H y) by (simpl; auto). f_equal. apply IH.
  intros z Hz. apply H. simpl. auto.
Qed.

(** Copies of one candidate, no more than the cap: all are kept. *)
Lemma selected_copies x n :
  (n <= total_recommendations)%nat -> selected (repeat x n) = repeat x n.
Proof.
  intros Hn.
  rewrite (all_equal_repeat x (selected (repeat x n))).
  - rewrite selected_length, repeat_length. f_equal. lia.
  - intros y Hy. apply selected_In in Hy. apply repeat_spec in Hy. exact Hy.
Qed.

(** C3 at its example.  On the catalog and the log of Example A, for any
    cosine values and any [argsort] that returns a permutation of the
    positions, the run returns two rows for user 1: item 104 at rank 1 and
    item 104 again at rank 2.  The walk of lines 58-64 appends 104 once and
    stops at the end of the pool, below the cap; the supplement walk of
    lines 94-100 then goes through the same pool and appends 104 again. *)
Theorem C3_example_A_two_rows {lib : Sklearn} :
  (forall l, Permutation (argsort l) (seq 0 (length l))) ->
  get_recommendations ExampleA.self
  = Ok [ mk_recommendation 1 104 1 module_source_value;
         mk_recommendation 1 104 2 module_source_value ].
Proof.
  intros Hargsort.
  apply (get_recommendations_fresh ExampleA.self _ eq_refl eq_refl).
  set (m := map embedding ExampleA.catalog).
  set (s0 := set_all_vectors ExampleA.self m).
  destruct (generate_user_profiles_fresh 4 default_batch_size s0)
    as (order & Hperm & Hrun);
    [unfold default_batch_size; lia | vm_compute; lia | reflexivity
     | reflexivity |].
  change (log_users s0) with [1] in Hperm.
  apply Permutation_sym, Permutation_length_1_inv in Hperm. subst order.
  exists m, [1], [[(1, 104, 1); (1, 104, 2)]].
  split; [reflexivity |]. split; [reflexivity |].
  split; [exact Hrun |]. split; [| reflexivity].
  constructor; [| constructor].
  set (s := profiled s0 [1]).
  change (user_rows s 1 = Ok [(1, 104, 1); (1, 104, 2)]).
  set (scores := fst (entry_of s0 1)).
  assert (Hs : Py.dict_get 1 (cosine_scores s) = Some scores)
    by (apply profiled_scores; simpl; auto).
  assert (Hp : Py.dict_get 1 (user_profiles s)
               = Some (mk_profile
                         [mk_content 101 [1; 0]%Q; mk_content 102 [0; 1]%Q]
                         [0; 1] [101; 102; 103])).
  { unfold s. rewrite profiled_profile by (simpl; auto). reflexivity. }
  assert (Hlen : length scores = 4%nat).
  { unfold scores. rewrite entry_of_scores, length_map. reflexivity. }
  set (top := firstn 2000 (rev (argsort scores))).
  assert (Htop : Permutation top [0; 1; 2; 3]%nat).
  { unfold top. rewrite firstn_all2.
    - rewrite <- Permutation_rev, Hargsort, Hlen. reflexivity.
    - rewrite length_rev, (Permutation_length (Hargsort scores)),
        length_seq, Hlen. lia. }
  assert (Hrange : Forall (fun idx => (idx < length (content_df s))%nat /\
                                      (idx < length scores)%nat) top).
  { apply Forall_forall. intros idx Hidx.
    apply (Permutation_in _ Htop) in Hidx. rewrite Hlen.
    change (length (content_df s)) with 4%nat.
    simpl in Hidx. lia. }
  assert (Hel : filter (eligible s [101; 102; 103]) top = [3%nat]).
  { apply Permutation_length_1_inv. symmetry.
    rewrite (filter_perm _ _ _ Htop). reflexivity. }
  unfold user_rows, Py.getitem. rewrite Hs. cbn [of_option bind].
  unfold recommend_user, user_candidates, Py.getitem. rewrite Hp.
  cbn [of_option bind content previous_interactions clusters].
  change (length (Py.unique (map content_id
            [mk_content 101 [1; 0]%Q; mk_content 102 [0; 1]%Q])) <? 5)%nat
    with true.
  fold top. cbv iota.
  rewrite (walk_top_indices_filter s 1 scores _ top [] Hs Hrange)
    by (rewrite Hel; unfold total_recommendations; simpl; lia).
  cbn [bind].
  rewrite (walk_top_indices_filter s 1 scores _ top _ Hs Hrange)
    by (rewrite Hel; unfold total_recommendations; simpl; lia).
  cbn [bind]. rewrite Hel. cbn [map app].
  set (x := pool_candidate s 1 scores 3).
  change [x; x] with (repeat x 2).
  rewrite rank_candidates_selected, selected_copies
    by (unfold total_recommendations; lia).
  reflexivity.
Qed.

Lemma C3_example_A_two_rows_witness :
  get_recommendations (lib := Reference.lib) ExampleA.self
  = Ok [ mk_recommendation 1 104 1 module_source_value;
         mk_recommendation 1 104 2 module_source_value ].
Proof.
  apply (C3_example_A_two_rows (lib := Reference.lib)).
  intros l. apply sorted_perm.
Defined.

(** ** The cap inside the loop over the clusters *)

(** A cluster met with the cap already reached still appends its first
    neighbour outside the previous interactions, and only that one: the test
    of line 90 comes after the [append] of line 89, and its [break] leaves
    the loop over the neighbours, not the loop over the clusters. *)
Lemma emit_neighbors_at_cap {lib : Sklearn} self uid prev nbrs recs out :
  (total_recommendations <= length recs)%nat ->
  emit_neighbors self uid prev nbrs recs = Ok out ->
  out = recs \/ exists c, out = recs ++ [c] /\ fresh_for uid prev c.
Proof.
  intros Hcap. induction nbrs as [| [dist idx] rest IH];
    cbn [emit_neighbors]; intros H.
  - inversion H. auto.
  - inv_bind H. destruct (Py.isin a prev) eqn:E; cbn [negb] in H.
    + apply IH, H.
    + assert (Hle : (total_recommendations
                     <=? length (recs ++ [(uid, a, (1 - dist)%Q)]))%nat = true).
      { apply Nat.leb_le. rewrite length_app. simpl. lia. }
      rewrite Hle in H. inversion H. right.
      exists (uid, a, (1 - dist)%Q). split; [reflexivity |].
      split; [reflexivity |]. apply isin_false. exact E.
Qed.

(** With the cap reached, a cluster whose neighbours are catalog positions
    and one of which is outside the previous interactions makes the list one
    longer, whatever the library returns. *)
Lemma emit_neighbors_at_cap_appends {lib : Sklearn} self uid prev nbrs recs :
  (total_recommendations <= length recs)%nat ->
  Forall (fun di => (snd di < length (content_df self))%nat) nbrs ->
  Exists (fun di => eligible self prev (snd di) = true) nbrs ->
  exists c, emit_neighbors self uid prev nbrs recs = Ok (recs ++ [c]) /\
            fresh_for uid prev c.
Proof.
  intros Hcap Hrange Hex. induction nbrs as [| [dist idx] rest IH];
    [inversion Hex |].
  inversion Hrange as [| ? ? Hidx Hrest]; subst. cbn [snd] in Hidx.
  cbn [emit_neighbors]. unfold iloc_content_id.
  destruct (nth_error (content_df self) idx) as [row |] eqn:Er;
    [| apply nth_error_None in Er; lia].
  cbn [option_map of_option bind].
  assert (Hid : nth idx (map content_id (content_df self)) 0 = content_id row).
  { apply nth_error_nth. rewrite nth_error_map, Er. reflexivity. }
  destruct (Py.isin (content_id row) prev) eqn:E; cbn [negb].
  - apply IH; [exact Hrest |].
    inversion Hex as [? ? Hhere | ? ? Hlater]; subst; [| exact Hlater].
    unfold eligible in Hhere. cbn [snd] in Hhere. rewrite Hid, E in Hhere.
    discriminate.
  - assert (Hle : (total_recommendations
                   <=? length (recs ++ [(uid, content_id row, (1 - dist)%Q)]))%nat
                  = true).
    { apply Nat.leb_le. rewrite length_app. simpl. lia. }
    rewrite Hle. eexists. split; [reflexivity |].
    split; [reflexivity |]. apply isin_false. exact E.
Qed.

(** C1 at a failing input.  A user with 55 good items in eleven clusters of
    five: every cluster gets [max(1, round(50 * 5/55))] = 5 slots.  The first
    ten clusters fill the candidate list to the cap of 50; the eleventh
    cluster, processed after the cap was reached, appends one more candidate
    (item 1050), and the list has 51 entries. *)
Theorem C1_cluster_after_cap_emits :
  exists s p items r10 c,
    generate_user_profiles (lib := Reference.lib) 1 20 ExampleCap.self = Ok s /\
    Py.dict_get 1 (user_profiles s) = Some p /\
    (length (Py.unique (map content_id (content p))) <? 5)%nat = false /\
    value_counts_normalize (clusters p) = items /\
    slot_counts 50 items
    = [(0, 5); (1, 5); (2, 5); (3, 5); (4, 5); (5, 5); (6, 5); (7, 5);
       (8, 5); (9, 5); (10, 5)] /\
    for_each (cluster_step (lib := Reference.lib) s 1 p) (firstn 10 items) []
    = Ok r10 /\
    length r10 = 50%nat /\
    for_each (cluster_step (lib := Reference.lib) s 1 p) items []
    = Ok (r10 ++ [c]) /\
    snd (fst c) = 1050 /\
    length (r10 ++ [c]) = 51%nat.
Proof.
  eexists. eexists. eexists. eexists. eexists.
  split; [vm_compute; reflexivity |].
  split; [vm_compute; reflexivity |].
  split; [vm_compute; reflexivity |].
  split; [vm_compute; reflexivity |].
  split; [vm_compute; reflexivity |].
  split; [vm_compute; reflexivity |].
  split; [vm_compute; reflexivity |].
  split; [vm_compute; reflexivity |].
  split; vm_compute; reflexivity.
Qed.

(** * Further properties of the engine *)

(** ** The batch loop *)

Section BatchLoop.

Context {lib : Sklearn}.

Lemma profile_batch_nil self : profile_batch self [] = Ok self.
Proof.
  rewrite profile_batch_spec.
  assert (E : filter (fun i => Py.isin (user_id i) []) (interactions_df self)
              = []).
  { induction (interactions_df self) as [| i t IH]; [reflexivity | exact IH]. }
  rewrite E. reflexivity.
Qed.

(** Once the chunk is empty it stays empty, and the loop goes on. *)
Lemma profile_batches_diverge fuel batch_size user_ids remaining self :
  batch_size <= 0 -> 0 < remaining ->
  batch_size = 0 \/ Z.of_nat (length user_ids) + batch_size <= 0 ->
  profile_batches fuel batch_size user_ids remaining self = Diverge.
Proof.
  intros Hb. revert user_ids remaining self.
  induction fuel as [| fuel IH]; intros ids remaining self Hr Hids;
    cbn [profile_batches].
  - apply Z.ltb_lt in Hr. rewrite Hr. reflexivity.
  - pose proof Hr as Hr'. apply Z.ltb_lt in Hr'. rewrite Hr'.
    replace (Z.min batch_size remaining) with batch_size by lia.
    assert (Hto : Py.slice_to ids batch_size = []).
    { unfold Py.slice_to. destruct (batch_size <? 0) eqn:E.
      - apply Z.ltb_lt in E.
        replace (Z.to_nat (Z.of_nat (length ids) + batch_size)) with 0%nat
          by lia.
        reflexivity.
      - apply Z.ltb_ge in E.
        replace batch_size with 0 by lia. reflexivity. }
    rewrite Hto, profile_batch_nil. cbn [bind].
    apply IH; [lia |].
    unfold Py.slice_from. destruct (batch_size <? 0) eqn:E.
    + apply Z.ltb_lt in E. right.
      replace (Z.to_nat (Z.of_nat (length ids) + batch_size)) with 0%nat
        by lia.
      cbn [skipn]. lia.
    + apply Z.ltb_ge in E. left. lia.
Qed.

(** X1.  With a batch size of zero or less and at least one interaction,
    profile building never returns.  The first round profiles the users
    [user_ids[:batch_size]] (none for zero, all but the last [-batch_size]
    for a negative size) and raises [ValueError] if the loop body raises for
    one of them; after it every chunk is empty and [remaining_users] never
    decreases, so no amount of fuel lets the [while] loop end. *)
Theorem X1_nonpositive_batch_size_diverges fuel batch_size self :
  batch_size <= 0 -> interactions_df self <> [] ->
  (forall s, generate_user_profiles fuel batch_size self <> Ok s) /\
  generate_user_profiles (S fuel) batch_size self
  = if forallb (accepted self) (Py.slice_to (log_users self) batch_size)
    then Diverge else Raise ValueError.
Proof.
  intros Hb Hne.
  assert (Hpos : 0 < Z.of_nat (length (log_users self))).
  { unfold log_users. destruct (interactions_df self) as [| i t];
      [congruence |].
    simpl. lia. }
  assert (Hround : forall f,
    generate_user_profiles (S f) batch_size self
    = if forallb (accepted self) (Py.slice_to (log_users self) batch_size)
      then Diverge else Raise ValueError).
  { intros f. unfold generate_user_profiles. fold (log_users self).
    cbn [profile_batches].
    pose proof Hpos as Hpos'. apply Z.ltb_lt in Hpos'. rewrite Hpos'.
    replace (Z.min batch_size (Z.of_nat (length (log_users self))))
      with batch_size by lia.
    set (chunk := Py.slice_to (log_users self) batch_size).
    destruct (profile_batch_store self chunk) as (ks & Hks & Hnd & Hin).
    assert (Hchunk : exists n, chunk = firstn n (log_users self)).
    { unfold chunk, Py.slice_to. destruct (batch_size <? 0); eauto. }
    destruct Hchunk as (n & Hchunk).
    assert (Hperm : Permutation ks chunk).
    { apply NoDup_Permutation; [exact Hnd | |].
      - rewrite Hchunk.
        pose proof (unique_NoDup (map user_id (interactions_df self))) as K.
        fold (log_users self) in K.
        rewrite <- (firstn_skipn n (log_users self)) in K.
        eapply NoDup_app_remove_r. exact K.
      - intros u. rewrite Hin. split; [tauto |].
        intros Hu. split; [exact Hu |]. rewrite Hchunk in Hu.
        rewrite <- (firstn_skipn n (log_users self)).
        apply in_or_app. auto. }
    rewrite Hks, (forallb_perm _ _ _ Hperm).
    destruct (forallb (accepted self) chunk); cbn [bind]; [| reflexivity].
    apply profile_batches_diverge; [exact Hb | lia |].
    unfold Py.slice_from. destruct (batch_size <? 0) eqn:E.
    - apply Z.ltb_lt in E. right. rewrite length_skipn. lia.
    - apply Z.ltb_ge in E. left. lia. }
  split; [| apply Hround].
  intros s. destruct fuel as [| f].
  - unfold generate_user_profiles. fold (log_users self).
    cbn [profile_batches]. apply Z.ltb_lt in Hpos. rewrite Hpos. discriminate.
  - rewrite Hround. destruct (forallb _ _); discriminate.
Qed.

End BatchLoop.

Lemma X1_nonpositive_batch_size_diverges_witness :
  generate_user_profiles (lib := Reference.lib) 1000 (-1) ExampleBatch.self
  = Diverge.
Proof.
  destruct (X1_nonpositive_batch_size_diverges (lib := Reference.lib)
              999 (-1) ExampleBatch.self) as [_ H].
  - lia.
  - discriminate.
  - rewrite H. vm_compute. reflexivity.
Defined.

(** ** The order of the users *)

Lemma filter_comm {A : Type} (p q : A -> bool) l :
  filter p (filter q l) = filter q (filter p l).
Proof.
  induction l as [| x t IH]; simpl; [reflexivity |].
  destruct (p x) eqn:P, (q x) eqn:Q; simpl; rewrite ?P, ?Q, IH; reflexivity.
Qed.

Lemma filter_none {A : Type} (p : A -> bool) l :
  (forall x, In x l -> p x = false) -> filter p l = [].
Proof.
  induction l as [| x t IH]; intros H; simpl; [reflexivity |].
  rewrite (H x) by (simpl; auto). apply IH. intros y Hy. apply H. simpl. auto.
Qed.

Lemma filter_id {A : Type} (p : A -> bool) l :
  (forall x, In x l -> p x = true) -> filter p l = l.
Proof.
  induction l as [| x t IH]; intros H; simpl; [reflexivity |].
  rewrite (H x) by (simpl; auto). f_equal. apply IH.
  intros y Hy. apply H. simpl. auto.
Qed.

Lemma NoDup_app_disjoint_l {A : Type} (l1 l2 : list A) x :
  NoDup (l1 ++ l2) -> In x l1 -> ~ In x l2.
Proof.
  induction l1 as [| a l1 IH]; simpl; intros Hnd Hx; [contradiction |].
  inversion Hnd as [| ? ? Hna Hnd']; subst.
  destruct Hx as [-> | Hx].
  - intros H. apply Hna, in_or_app. auto.
  - apply IH; assumption.
Qed.

Lemma unique_filter (q : Z -> bool) l :
  Py.unique (filter q l) = filter q (Py.unique l).
Proof.
  induction l as [| x t IH]; [reflexivity |].
  cbn [filter Py.unique]. destruct (q x) eqn:E.
  - cbn [filter Py.unique]. rewrite IH. f_equal. apply filter_comm.
  - rewrite IH. symmetry. apply filter_filter_absorb.
    intros y _ Hy. apply negb_true_iff, Z.eqb_neq. intros ->. congruence.
Qed.

Lemma map_filter_user (q : Z -> bool) (inter : list interaction) :
  map user_id (filter (fun i => q (user_id i)) inter)
  = filter q (map user_id inter).
Proof.
  induction inter as [| i t IH]; simpl; [reflexivity |].
  destruct (q (user_id i)); simpl; rewrite IH; reflexivity.
Qed.

Lemma filter_isin_middle (done chunk rest : list Z) :
  NoDup (done ++ chunk ++ rest) ->
  filter (fun u => Py.isin u chunk) (done ++ chunk ++ rest) = chunk.
Proof.
  intros Hnd. rewrite !filter_app.
  rewrite (filter_none _ done), (filter_none _ rest), (filter_id _ chunk).
  - rewrite app_nil_r. reflexivity.
  - intros u Hu. apply isin_In. exact Hu.
  - intros u Hu. apply isin_false. intros Hc.
    apply NoDup_app_remove_l in Hnd.
    exact (NoDup_app_disjoint_l _ _ u Hnd Hc Hu).
  - intros u Hu. apply isin_false. intros Hc.
    apply (NoDup_app_disjoint_l _ _ u Hnd Hu). apply in_or_app. auto.
Qed.

Lemma batches_fuel f1 f2 b ids :
  (1 <= b)%nat -> (length ids <= f1)%nat -> (length ids <= f2)%nat ->
  batches f1 b ids = batches f2 b ids.
Proof.
  intros Hb. revert f2 ids.
  induction f1 as [| f1 IH]; intros f2 ids H1 H2.
  - destruct ids; simpl in H1; [| lia]. destruct f2; reflexivity.
  - destruct ids as [| u ids]; [destruct f2; reflexivity |].
    destruct f2 as [| f2]; [cbn [length] in H2; lia |].
    cbn [batches]. f_equal. apply IH.
    + rewrite length_skipn. cbn [length] in *. lia.
    + rewrite length_skipn. cbn [length] in *. lia.
Qed.

Lemma batches_perm fuel b ids :
  (1 <= b)%nat -> (length ids <= fuel)%nat ->
  Permutation (flat_map (Py.sorted Z.ltb) (batches fuel b ids)) ids.
Proof.
  intros Hb. revert ids. induction fuel as [| fuel IH]; intros ids Hlen.
  - destruct ids; simpl in *; [constructor | lia].
  - destruct ids as [| u ids]; [constructor |].
    cbn [batches flat_map]. rewrite sorted_perm, IH.
    + rewrite firstn_skipn. reflexivity.
    + rewrite length_skipn. cbn [length] in *. lia.
Qed.

Section Order.

Context {lib : Sklearn}.

(** A batch that is a slice of the users of the log stores its users by
    ascending id. *)
Lemma profile_batch_sorted self done chunk rest :
  log_users self = done ++ chunk ++ rest ->
  profile_batch self chunk
  = if forallb (accepted self) chunk
    then Ok (store_users (Py.sorted Z.ltb chunk) self)
    else Raise ValueError.
Proof.
  intros Hlog.
  assert (Hnd : NoDup (done ++ chunk ++ rest))
    by (rewrite <- Hlog; apply unique_NoDup).
  assert (Hu : Py.unique
                 (map user_id
                    (filter (fun i => Py.isin (user_id i) chunk)
                            (interactions_df self))) = chunk).
  { rewrite (map_filter_user (fun u => Py.isin u chunk)), unique_filter.
    fold (log_users self). rewrite Hlog. apply filter_isin_middle, Hnd. }
  rewrite profile_batch_spec, Hu.
  rewrite (forallb_perm _ _ _ (sorted_perm Z.ltb chunk)). reflexivity.
Qed.

Lemma profile_batches_order fuel batch_size done user_ids self :
  1 <= batch_size ->
  (length user_ids <= fuel)%nat ->
  log_users self = done ++ user_ids ->
  profile_batches fuel batch_size user_ids (Z.of_nat (length user_ids)) self
  = if forallb (accepted self) user_ids
    then Ok (store_users
               (flat_map (Py.sorted Z.ltb)
                  (batches (length user_ids) (Z.to_nat batch_size) user_ids))
               self)
    else Raise ValueError.
Proof.
  intros Hb. revert done user_ids self.
  induction fuel as [| fuel IH]; intros done ids self Hlen Hlog.
  - destruct ids; cbn [length] in Hlen; [reflexivity | lia].
  - cbn [profile_batches].
    destruct ids as [| u ids']; [reflexivity |].
    set (ids := u :: ids') in *.
    assert (Epos : (0 <? Z.of_nat (length ids)) = true)
      by (apply Z.ltb_lt; unfold ids; cbn [length]; lia).
    rewrite Epos.
    set (c := Z.min batch_size (Z.of_nat (length ids))).
    assert (Hc : 1 <= c <= Z.of_nat (length ids))
      by (unfold c, ids; cbn [length]; lia).
    assert (Hto : Py.slice_to ids c = firstn (Z.to_nat batch_size) ids).
    { unfold Py.slice_to. destruct (c <? 0) eqn:E;
        [apply Z.ltb_lt in E; lia |].
      unfold c. destruct (Z.min_spec batch_size (Z.of_nat (length ids)))
        as [[_ ->] | [Hle ->]]; [reflexivity |].
      rewrite Nat2Z.id, firstn_all. symmetry. apply firstn_all2. lia. }
    assert (Hfrom : Py.slice_from ids c = skipn (Z.to_nat batch_size) ids).
    { unfold Py.slice_from. destruct (c <? 0) eqn:E;
        [apply Z.ltb_lt in E; lia |].
      unfold c. destruct (Z.min_spec batch_size (Z.of_nat (length ids)))
        as [[_ ->] | [Hle ->]]; [reflexivity |].
      rewrite Nat2Z.id, skipn_all. symmetry. apply skipn_all2. lia. }
    rewrite Hto, Hfrom.
    set (chunk := firstn (Z.to_nat batch_size) ids).
    set (rest := skipn (Z.to_nat batch_size) ids).
    assert (Hsplit : ids = chunk ++ rest) by (symmetry; apply firstn_skipn).
    assert (Hrest : Z.of_nat (length ids) - c = Z.of_nat (length rest)).
    { unfold rest, c. rewrite length_skipn. lia. }
    rewrite Hrest.
    rewrite (profile_batch_sorted self done chunk rest)
      by (rewrite Hlog, Hsplit; reflexivity).
    replace (forallb (accepted self) ids)
      with (forallb (accepted self) (chunk ++ rest))
      by (rewrite <- Hsplit; reflexivity).
    rewrite forallb_app.
    destruct (forallb (accepted self) chunk); cbn [bind andb];
      [| reflexivity].
    rewrite (IH (done ++ chunk) rest).
    + rewrite (forallb_ext_in (accepted (store_users (Py.sorted Z.ltb chunk)
                                                     self))
                              (accepted self))
        by (intros; apply accepted_store_users).
      destruct (forallb (accepted self) rest); [| reflexivity].
      rewrite <- store_users_app. f_equal. f_equal.
      change (batches (length ids) (Z.to_nat batch_size) ids)
        with (chunk :: batches (length ids') (Z.to_nat batch_size) rest).
      cbn [flat_map]. f_equal. f_equal. apply batches_fuel; try lia.
      unfold rest. rewrite length_skipn. unfold ids. cbn [length]. lia.
    + unfold rest. rewrite length_skipn. unfold ids in *. cbn [length] in *.
      lia.
    + rewrite store_users_log_users, Hlog, Hsplit, app_assoc. reflexivity.
Qed.

Lemma generate_user_profiles_order fuel batch_size self :
  1 <= batch_size ->
  (length (log_users self) <= fuel)%nat ->
  cosine_scores self = [] -> user_profiles self = [] ->
  generate_user_profiles fuel batch_size self
  = (if forallb (accepted self) (log_users self)
     then Ok (profiled self (processing_order batch_size (log_users self)))
     else Raise ValueError) /\
  Permutation (processing_order batch_size (log_users self)) (log_users self).
Proof.
  intros Hb Hf Hc Hp.
  assert (Hperm : Permutation (processing_order batch_size (log_users self))
                              (log_users self)).
  { unfold processing_order. apply batches_perm; lia. }
  split; [| exact Hperm].
  unfold generate_user_profiles. fold (log_users self).
  rewrite (profile_batches_order fuel batch_size [] (log_users self) self)
    by auto.
  fold (processing_order batch_size (log_users self)).
  destruct (forallb (accepted self) (log_users self)); [| reflexivity].
  rewrite store_users_registries.
  - unfold profiled. rewrite Hc, Hp. reflexivity.
  - eapply Permutation_NoDup; [symmetry; exact Hperm | apply unique_NoDup].
  - intros u _. rewrite Hc. simpl. tauto.
  - intros u _. rewrite Hp. simpl. tauto.
Qed.

(** X2.  On a fresh object whose [all_vectors] is the stacked catalog, and
    with a batch size of at least one, profile building fills the two
    registries in one definite order: the users of the log, in order of
    first appearance, are cut into batches of [batch_size], and the users of
    a batch are stored by ascending id.  Recommendation generation walks the
    registry in that order. *)
Theorem X2_registry_order fuel batch_size self :
  1 <= batch_size ->
  (length (log_users self) <= fuel)%nat ->
  cosine_scores self = [] -> user_profiles self = [] ->
  catalog_stacked self ->
  generate_user_profiles fuel batch_size self
  = Ok (profiled self (processing_order batch_size (log_users self))) /\
  Permutation (processing_order batch_size (log_users self)) (log_users self).
Proof.
  intros Hb Hf Hc Hp Hst.
  destruct (generate_user_profiles_order fuel batch_size self Hb Hf Hc Hp)
    as [Hrun Hperm].
  rewrite (stacked_all_accepted self _ Hst) in Hrun. auto.
Qed.

End Order.

Lemma X2_registry_order_witness :
  generate_user_profiles (lib := Reference.lib) 2 2 ExampleBatch.self
  = Ok (profiled (lib := Reference.lib) ExampleBatch.self [1; 2]).
Proof.
  apply (X2_registry_order (lib := Reference.lib) 2 2 ExampleBatch.self).
  - lia.
  - vm_compute. apply le_n.
  - reflexivity.
  - reflexivity.
  - split; [reflexivity | vm_compute; lia].
Defined.

(** ** The walk over the fallback pool *)

Lemma firstn_app_le {A : Type} (l1 l2 : list A) n :
  (length l1 <= n)%nat -> firstn n (l1 ++ l2) = l1 ++ firstn (n - length l1) l2.
Proof.
  intros H. rewrite firstn_app, firstn_all2 by exact H. reflexivity.
Qed.

Lemma firstn_app_ge {A : Type} (l1 l2 : list A) n :
  (n <= length l1)%nat -> firstn n (l1 ++ l2) = firstn n l1.
Proof.
  intros H. rewrite firstn_app.
  replace (n - length l1)%nat with 0%nat by lia.
  cbn [firstn]. apply app_nil_r.
Qed.

Lemma iloc_content_id_nth self idx :
  (idx < length (content_df self))%nat ->
  iloc_content_id self idx
  = Ok (nth idx (map content_id (content_df self)) 0).
Proof.
  intros Hc. unfold iloc_content_id.
  destruct (nth_error (content_df self) idx) as [row |] eqn:Er;
    [| apply nth_error_None in Er; lia].
  cbn [option_map of_option]. f_equal. symmetry.
  apply nth_error_nth. rewrite nth_error_map, Er. reflexivity.
Qed.

Lemma cosine_score_nth self uid scores idx :
  Py.dict_get uid (cosine_scores self) = Some scores ->
  (idx < length scores)%nat ->
  cosine_score self uid idx = Ok (nth idx scores 0%Q).
Proof.
  intros Hs Hsc. unfold cosine_score, Py.getitem. rewrite Hs.
  cbn [of_option bind].
  destruct (nth_error scores idx) as [s |] eqn:Es;
    [| apply nth_error_None in Es; lia].
  cbn [of_option]. f_equal. symmetry. apply nth_error_nth. exact Es.
Qed.

Lemma walk_top_indices_exact self uid scores prev top recs :
  Py.dict_get uid (cosine_scores self) = Some scores ->
  Forall (fun idx => (idx < length (content_df self))%nat /\
                     (idx < length scores)%nat) top ->
  walk_top_indices self uid prev top recs
  = Ok (recs ++ firstn (total_recommendations - length recs)
                       (map (pool_candidate self uid scores)
                            (filter (eligible self prev) top))).
Proof.
  intros Hs Htop. revert recs.
  induction Htop as [| idx rest [Hc Hsc] _ IH]; intros recs;
    cbn [walk_top_indices].
  - cbn [filter map]. rewrite firstn_nil, app_nil_r. reflexivity.
  - destruct (total_recommendations <=? length recs)%nat eqn:E.
    + apply Nat.leb_le in E.
      replace (total_recommendations - length recs)%nat with 0%nat by lia.
      cbn [firstn]. rewrite app_nil_r. reflexivity.
    + apply Nat.leb_gt in E.
      rewrite (iloc_content_id_nth self idx Hc). cbn [bind filter].
      fold (eligible self prev idx).
      destruct (eligible self prev idx) eqn:Eel.
      * rewrite (cosine_score_nth self uid scores idx Hs Hsc). cbn [bind].
        rewrite IH, length_app. cbn [length map].
        replace (total_recommendations - length recs)%nat
          with (S (total_recommendations - (length recs + 1)))%nat by lia.
        cbn [firstn]. rewrite <- app_assoc. reflexivity.
      * apply IH.
Qed.

(** X3.  The walk of lines 58-64, which is also the supplement walk of lines
    94-100, keeps the candidates it is given, in place, and appends the pool
    positions whose content id is outside the previous interactions, in
    pool order, each with the user's cosine score, until the list holds
    [total_recommendations] candidates.  It never looks at what the list
    already holds: an item that is a candidate already is appended again. *)
Theorem X3_walk_appends_eligible_up_to_cap self uid scores prev top recs :
  Py.dict_get uid (cosine_scores self) = Some scores ->
  Forall (fun idx => (idx < length (content_df self))%nat /\
                     (idx < length scores)%nat) top ->
  walk_top_indices self uid prev top recs
  = Ok (recs ++ firstn (total_recommendations - length recs)
                       (map (pool_candidate self uid scores)
                            (filter (eligible self prev) top))).
Proof. apply walk_top_indices_exact. Qed.

Lemma X3_walk_appends_eligible_up_to_cap_witness :
  walk_top_indices
    (profiled (lib := Reference.lib)
       (set_all_vectors ExampleA.self (map embedding ExampleA.catalog)) [1])
    1 [101; 102; 103] [3; 2; 1; 0]%nat [(1, 104, 0%Q)]
  = Ok [(1, 104, 0%Q); (1, 104, (-2305843009213693952 # 3260954456333195553)%Q)].
Proof.
  rewrite (X3_walk_appends_eligible_up_to_cap
             (profiled (lib := Reference.lib)
                (set_all_vectors ExampleA.self (map embedding ExampleA.catalog))
                [1])
             1
             (fst (entry_of (lib := Reference.lib)
                     (set_all_vectors ExampleA.self
                        (map embedding ExampleA.catalog)) 1))).
  - vm_compute. reflexivity.
  - reflexivity.
  - repeat constructor.
Defined.

(** ** Users with few good items *)

Section FewInterest.

Context {lib : Sklearn}.

Lemma walk_twice_exact self uid scores prev top :
  Py.dict_get uid (cosine_scores self) = Some scores ->
  Forall (fun idx => (idx < length (content_df self))%nat /\
                     (idx < length scores)%nat) top ->
  (r <- walk_top_indices self uid prev top [] ;;
   walk_top_indices self uid prev top r)
  = Ok (firstn total_recommendations
          (map (pool_candidate self uid scores) (filter (eligible self prev) top)
           ++ map (pool_candidate self uid scores)
                  (filter (eligible self prev) top))).
Proof.
  intros Hs Htop.
  rewrite (walk_top_indices_exact self uid scores prev top [] Hs Htop).
  cbn [bind app length]. rewrite Nat.sub_0_r.
  rewrite (walk_top_indices_exact self uid scores prev top _ Hs Htop).
  set (E := map (pool_candidate self uid scores)
                (filter (eligible self prev) top)).
  f_equal.
  destruct (Nat.le_gt_cases (length E) total_recommendations) as [Hle | Hgt].
  - rewrite (firstn_all2 E Hle).
    symmetry. apply firstn_app_le. exact Hle.
  - rewrite length_firstn.
    replace (total_recommendations
             - Nat.min total_recommendations (length E))%nat
      with 0%nat by lia.
    cbn [firstn]. rewrite app_nil_r. symmetry. apply firstn_app_ge. lia.
Qed.

(** X4.  The candidates of a user with fewer than five distinct good items.
    Both walks go over the same pool, so the list handed to the ranking step
    is the list of eligible pool items followed by itself, cut at
    [total_recommendations]: the user gets [min 50 (2 * e)] rows where [e]
    is the number of eligible pool positions. *)
Theorem X4_few_interest_candidates self uid scores p top :
  Py.dict_get uid (cosine_scores self) = Some scores ->
  Py.dict_get uid (user_profiles self) = Some p ->
  (length (Py.unique (map content_id (content p))) < 5)%nat ->
  Forall (fun idx => (idx < length (content_df self))%nat /\
                     (idx < length scores)%nat) top ->
  user_candidates self uid top
  = Ok (firstn total_recommendations
          (map (pool_candidate self uid scores)
               (filter (eligible self (previous_interactions p)) top)
           ++ map (pool_candidate self uid scores)
                  (filter (eligible self (previous_interactions p)) top))) /\
  exists rows,
    recommend_user self uid top = Ok rows /\
    length rows
    = Nat.min total_recommendations
        (2 * length (filter (eligible self (previous_interactions p)) top)).
Proof.
  intros Hs Hp Hfew Htop.
  assert (Hc : user_candidates self uid top
               = Ok (firstn total_recommendations
                       (map (pool_candidate self uid scores)
                            (filter (eligible self (previous_interactions p)) top)
                        ++ map (pool_candidate self uid scores)
                             (filter (eligible self (previous_interactions p))
                                     top)))).
  { unfold user_candidates, Py.getitem. rewrite Hp. cbn [of_option bind].
    apply Nat.ltb_lt in Hfew. rewrite Hfew.
    apply walk_twice_exact; assumption. }
  split; [exact Hc |].
  unfold recommend_user. rewrite Hc. cbn [bind].
  eexists. split; [reflexivity |].
  rewrite rank_candidates_length, length_firstn, length_app, !length_map.
  lia.
Qed.

End FewInterest.

Lemma X4_few_interest_candidates_witness :
  exists rows,
    recommend_user (lib := Reference.lib)
      (profiled (lib := Reference.lib)
         (set_all_vectors ExampleA.self (map embedding ExampleA.catalog)) [1])
      1 [3; 2; 1; 0]%nat
    = Ok rows /\
    length rows = 2%nat.
Proof.
  destruct (X4_few_interest_candidates (lib := Reference.lib)
              (profiled (lib := Reference.lib)
                 (set_all_vectors ExampleA.self
                    (map embedding ExampleA.catalog)) [1])
              1
              (fst (entry_of (lib := Reference.lib)
                      (set_all_vectors ExampleA.self
                         (map embedding ExampleA.catalog)) 1))
              (snd (entry_of (lib := Reference.lib)
                      (set_all_vectors ExampleA.self
                         (map embedding ExampleA.catalog)) 1))
              [3; 2; 1; 0]%nat) as (_ & rows & Hrows & Hlen).
  - reflexivity.
  - reflexivity.
  - vm_compute. lia.
  - repeat constructor.
  - exists rows. split; [exact Hrows |]. rewrite Hlen. reflexivity.
Defined.

(** ** The table of a run *)

Lemma Zltb_asym a b : (a <? b) = true -> (b <? a) = false.
Proof. intros H. apply Z.ltb_lt in H. apply Z.ltb_ge. lia. Qed.

Lemma Zle_trans_ltb a b c :
  (b <? a) = false -> (c <? b) = false -> (c <? a) = false.
Proof. rewrite !Z.ltb_ge. lia. Qed.

Lemma batches_single fuel b ids :
  ids <> [] -> (length ids <= b)%nat ->
  batches (S fuel) b ids = [ids].
Proof.
  intros Hne Hlen. destruct ids as [| u ids']; [contradiction |].
  cbn [batches]. rewrite firstn_all2 by exact Hlen.
  rewrite skipn_all2 by exact Hlen. destruct fuel; reflexivity.
Qed.

Lemma processing_order_single b ids :
  (Z.of_nat (length ids) <= b) ->
  processing_order b ids = Py.sorted Z.ltb ids.
Proof.
  intros Hlen. unfold processing_order.
  destruct ids as [| u ids']; [reflexivity |].
  cbn [length]. rewrite batches_single.
  - cbn [flat_map]. apply app_nil_r.
  - discriminate.
  - cbn [length] in *. lia.
Qed.

(** The keys of the blocks of a table, when the users come in order. *)
Lemma concat_keys_sorted {R : Type} (key : R -> Z)
  (P : Z -> list R -> Prop) order rowss :
  Forall2 P order rowss ->
  (forall u rows, P u rows -> Forall (fun r => key r = u) rows) ->
  ascending Z.ltb order ->
  ascending Z.ltb (map key (concat rowss)) /\
  Forall (fun k => In k order) (map key (concat rowss)).
Proof.
  intros HF Hkey. unfold ascending.
  induction HF as [| u rows order rowss Hu HF IH]; intros Hs.
  - split; constructor.
  - inversion Hs as [| ? ? Hs' Hall]; subst.
    destruct (IH Hs') as [IHs IHin]. clear IH.
    pose proof (Hkey u rows Hu) as Hrows.
    cbn [concat]. rewrite map_app.
    assert (Hrest : Forall (fun b => (b <? u) = false)
                           (map key (concat rowss))).
    { rewrite Forall_forall in *. intros k Hk. apply Hall, IHin, Hk. }
    assert (Hself : Forall (fun b => (b <? u) = false) (map key rows)).
    { clear - Hrows. induction Hrows as [| r rows Hr _ IHr]; constructor;
        [rewrite Hr; apply Z.ltb_irrefl | exact IHr]. }
    split.
    + clear - Hrows IHs Hrest Hself.
      induction Hrows as [| r rows Hr _ IHr]; cbn [map app]; [exact IHs |].
      cbn [map] in Hself. apply Forall_cons_iff in Hself.
      destruct Hself as [_ Hself].
      constructor; [apply IHr; assumption |].
      apply Forall_app. rewrite Hr. split; assumption.
    + apply Forall_app. split.
      * clear - Hrows. induction Hrows as [| r rows Hr _ IHr]; constructor;
          [rewrite Hr; simpl; auto | exact IHr].
      * rewrite Forall_forall in *. intros k Hk. simpl. right. apply IHin, Hk.
Qed.

Lemma map_rec_user_id rows :
  map rec_user_id (map add_source rows)
  = map (fun r : Z * Z * Z => fst (fst r)) rows.
Proof.
  rewrite map_map. apply map_ext. intros [[uid cid] rank]. reflexivity.
Qed.

Lemma log_users_rows self u :
  In u (log_users self) <-> rows_of_user self u <> [].
Proof.
  unfold log_users, rows_of_user. rewrite unique_In, in_map_iff. split.
  - intros (i & Hi & Hin) E.
    assert (H : In i (filter (fun i => user_id i =? u) (interactions_df self))).
    { apply filter_In. split; [exact Hin | apply Z.eqb_eq, Hi]. }
    rewrite E in H. exact H.
  - intros H.
    destruct (filter (fun i => user_id i =? u) (interactions_df self))
      as [| i t] eqn:E; [contradiction |].
    assert (Hi : In i (i :: t)) by (simpl; auto).
    rewrite <- E in Hi. apply filter_In in Hi. destruct Hi as [Hin Hu].
    exists i. split; [apply Z.eqb_eq, Hu | exact Hin].
Qed.

Section RunShape.

Context {lib : Sklearn}.

Lemma user_rows_key self u rows :
  user_rows self u = Ok rows -> Forall (fun r => fst (fst r) = u) rows.
Proof.
  intros H. apply user_rows_spec in H.
  destruct H as (p & recs & _ & Hfresh & ->).
  apply Forall_forall. intros r Hr.
  apply rank_candidates_row in Hr. destruct Hr as (c & Hc & <-).
  rewrite Forall_forall in Hfresh. apply (Hfresh c Hc).
Qed.

Lemma run_order_perm self : Permutation (run_order self) (log_users self).
Proof.
  unfold run_order, processing_order. apply batches_perm.
  - unfold default_batch_size. lia.
  - lia.
Qed.

Lemma run_profiles self :
  cosine_scores self = [] -> user_profiles self = [] ->
  generate_user_profiles (S (length (interactions_df self)))
    default_batch_size (stacked self)
  = if forallb (accepted (stacked self)) (log_users self)
    then Ok (profiled (stacked self) (run_order self))
    else Raise ValueError.
Proof.
  intros Hc Hp.
  apply (generate_user_profiles_order (S (length (interactions_df self)))
           default_batch_size (stacked self)).
  - unfold default_batch_size. lia.
  - unfold log_users, stacked. cbn [set_all_vectors interactions_df].
    pose proof (unique_length (map user_id (interactions_df self))) as H.
    rewrite length_map in H. lia.
  - exact Hc.
  - exact Hp.
Qed.

(** A run on a fresh object: the catalog stacks, the loop body goes through
    for every user of the log, and the table is the rows of the users of
    [run_order], user after user. *)
Lemma get_recommendations_exact self table :
  cosine_scores self = [] -> user_profiles self = [] ->
  (get_recommendations self = Ok table <->
   Np.vstack (map embedding (content_df self))
   = Ok (map embedding (content_df self)) /\
   forallb (accepted (stacked self)) (log_users self) = true /\
   exists rowss,
     Forall2 (fun u rows =>
                user_rows (profiled (stacked self) (run_order self)) u
                = Ok rows)
             (run_order self) rowss /\
     table = map add_source (concat rowss)).
Proof.
  intros Hc Hp. rewrite (get_recommendations_fresh self table Hc Hp). split.
  - intros (m & order & rowss & Hm & Hperm & Hrun & HF & ->).
    destruct (vstack_Ok _ _ Hm) as [-> _]. fold (stacked self) in *.
    split; [exact Hm |].
    rewrite (run_profiles self Hc Hp) in Hrun.
    destruct (forallb (accepted (stacked self)) (log_users self));
      [| discriminate].
    split; [reflexivity |].
    assert (Hord : run_order self = order).
    { pose proof (f_equal (fun r => match r with
                                    | Ok s => Py.keys (user_profiles s)
                                    | _ => []
                                    end) Hrun) as K.
      cbv beta iota in K. rewrite !profiled_keys in K. exact K. }
    subst order. exists rowss. split; [exact HF | reflexivity].
  - intros (Hm & Hacc & rowss & HF & ->).
    exists (map embedding (content_df self)), (run_order self), rowss.
    fold (stacked self).
    split; [exact Hm |]. split; [apply run_order_perm |].
    split; [rewrite (run_profiles self Hc Hp), Hacc; reflexivity |].
    split; [exact HF | reflexivity].
Qed.

(** The rows of a user of the log in the table of a run. *)
Lemma table_block self table u :
  cosine_scores self = [] -> user_profiles self = [] ->
  get_recommendations self = Ok table ->
  In u (log_users self) ->
  exists rows,
    user_rows (profiled (stacked self) (log_users self)) u = Ok rows /\
    rows_for u table = map add_source rows.
Proof.
  intros Hc Hp Hrun Hu.
  apply (get_recommendations_exact self table Hc Hp) in Hrun.
  destruct Hrun as (_ & _ & rowss & HF & ->).
  pose proof (run_order_perm self) as Hperm.
  assert (Hnd : NoDup (run_order self)).
  { eapply Permutation_NoDup; [symmetry; exact Hperm | apply unique_NoDup]. }
  destruct (filter_concat_blocks (fun r : Z * Z * Z => fst (fst r))
              (fun v rows =>
                 user_rows (profiled (stacked self) (run_order self)) v
                 = Ok rows)
              (run_order self) rowss HF) with (u := u) as [Hin _]; auto.
  { intros v rows Hv. apply (user_rows_key _ _ _ Hv). }
  destruct Hin as (rows & Hrows & Hfilter).
  { eapply Permutation_in; [symmetry; exact Hperm | exact Hu]. }
  exists rows. split.
  - rewrite <- Hrows. apply profiled_user_rows. symmetry. exact Hperm.
  - rewrite rows_for_add_source, Hfilter. reflexivity.
Qed.

Lemma table_no_block self table u :
  cosine_scores self = [] -> user_profiles self = [] ->
  get_recommendations self = Ok table ->
  ~ In u (log_users self) ->
  rows_for u table = [].
Proof.
  intros Hc Hp Hrun Hu.
  destruct (table_of_user self table u Hc Hp Hrun) as (recs & Hrows & _ & Hn).
  rewrite Hrows, (Hn Hu). reflexivity.
Qed.

(** X5.  The output table of a run on a fresh object is made of one block
    of rows per user of the log, and the blocks come in the order in which
    the batch loop stored the users: batches of twenty users in order of
    first appearance in the log, ascending user id inside a batch. *)
Theorem X5_table_is_blocks_in_run_order self table :
  cosine_scores self = [] -> user_profiles self = [] ->
  get_recommendations self = Ok table ->
  exists rowss,
    Forall2 (fun u rows =>
               Forall (fun r => fst (fst r) = u) rows /\
               rows_for u table = map add_source rows)
            (run_order self) rowss /\
    table = map add_source (concat rowss).
Proof.
  intros Hc Hp Hrun.
  pose proof Hrun as Hshape.
  apply (get_recommendations_exact self table Hc Hp) in Hshape.
  destruct Hshape as (_ & _ & rowss & HF & Ht).
  exists rowss. split; [| exact Ht].
  pose proof (run_order_perm self) as Hperm.
  assert (Hnd : NoDup (run_order self)).
  { eapply Permutation_NoDup; [symmetry; exact Hperm | apply unique_NoDup]. }
  pose proof (filter_concat_blocks (fun r : Z * Z * Z => fst (fst r))
                (fun v rows =>
                   user_rows (profiled (stacked self) (run_order self)) v
                   = Ok rows)
                (run_order self) rowss HF
                (fun v rows Hv => user_rows_key _ _ _ Hv) Hnd) as Hblocks.
  apply Forall2_with_In in HF.
  eapply Forall2_impl; [| exact HF].
  intros v rows [Hin Hv]. split; [apply (user_rows_key _ _ _ Hv) |].
  destruct (Hblocks v) as [Hb _]. destruct (Hb Hin) as (rows' & Hv' & Hfilter).
  rewrite Hv in Hv'. injection Hv' as Hr. rewrite <- Hr in Hfilter.
  rewrite Ht, rows_for_add_source, Hfilter. reflexivity.
Qed.

(** X6.  With at most twenty users in the log, which is one batch, the
    rows of the output table are in ascending order of user id. *)
Theorem X6_one_batch_table_sorted_by_user self table :
  cosine_scores self = [] -> user_profiles self = [] ->
  (length (log_users self) <= 20)%nat ->
  get_recommendations self = Ok table ->
  ascending Z.ltb (map rec_user_id table).
Proof.
  intros Hc Hp Hlen Hrun.
  apply (get_recommendations_exact self table Hc Hp) in Hrun.
  destruct Hrun as (_ & _ & rowss & HF & ->).
  rewrite map_rec_user_id.
  refine (proj1 (concat_keys_sorted _ _ _ _ HF
                   (fun v rows Hv => user_rows_key _ _ _ Hv) _)).
  unfold run_order. rewrite processing_order_single
    by (unfold default_batch_size; lia).
  apply sorted_ascending.
  - apply Zltb_asym.
  - apply Zle_trans_ltb.
Qed.

(** X7.  The rows of a user depend on the catalog and on the user's own
    rows of the interaction log only: two runs on the same catalog whose
    logs hold the same rows for the user return the same rows for the user,
    whatever the other users did. *)
Theorem X7_rows_depend_on_own_interactions s1 s2 t1 t2 u :
  cosine_scores s1 = [] -> user_profiles s1 = [] ->
  cosine_scores s2 = [] -> user_profiles s2 = [] ->
  content_df s1 = content_df s2 ->
  rows_of_user s1 u = rows_of_user s2 u ->
  get_recommendations s1 = Ok t1 ->
  get_recommendations s2 = Ok t2 ->
  rows_for u t1 = rows_for u t2.
Proof.
  intros Hc1 Hp1 Hc2 Hp2 Hcontent Hrows H1 H2.
  destruct (in_dec Z.eq_dec u (log_users s1)) as [Hu | Hu].
  - assert (Hu2 : In u (log_users s2)).
    { apply log_users_rows. rewrite <- Hrows. apply log_users_rows, Hu. }
    destruct (table_block s1 t1 u Hc1 Hp1 H1 Hu) as (r1 & Hr1 & ->).
    destruct (table_block s2 t2 u Hc2 Hp2 H2 Hu2) as (r2 & Hr2 & ->).
    assert (He : entry_of (stacked s1) u = entry_of (stacked s2) u).
    { unfold entry_of, stacked, rows_of_user.
      cbn [set_all_vectors all_vectors content_df interactions_df].
      fold (rows_of_user s1 u). fold (rows_of_user s2 u).
      rewrite Hcontent, Hrows. reflexivity. }
    assert (Heq : user_rows (profiled (stacked s1) (log_users s1)) u
                  = user_rows (profiled (stacked s2) (log_users s2)) u).
    { apply user_rows_ext.
      - cbn [profiled set_registries stacked set_all_vectors content_df].
        exact Hcontent.
      - cbn [profiled set_registries stacked set_all_vectors all_vectors].
        rewrite Hcontent. reflexivity.
      - rewrite !profiled_scores by assumption. rewrite He. reflexivity.
      - rewrite !profiled_profile by assumption. rewrite He. reflexivity. }
    rewrite Heq in Hr1. rewrite Hr1 in Hr2. inversion Hr2. reflexivity.
  - assert (Hu2 : ~ In u (log_users s2)).
    { intros H. apply Hu. apply log_users_rows. rewrite Hrows.
      apply log_users_rows, H. }
    rewrite (table_no_block s1 t1 u Hc1 Hp1 H1 Hu).
    rewrite (table_no_block s2 t2 u Hc2 Hp2 H2 Hu2). reflexivity.
Qed.

(** X8.  An empty interaction log is not an error: when the catalog stacks,
    the run returns the empty table. *)
Theorem X8_empty_log_empty_table self m :
  interactions_df self = [] ->
  user_profiles self = [] ->
  Np.vstack (map embedding (content_df self)) = Ok m ->
  get_recommendations self = Ok [].
Proof.
  intros Hi Hp Hm. unfold get_recommendations. rewrite Hm. cbn [bind].
  unfold generate_user_profiles.
  cbn [set_all_vectors interactions_df]. rewrite Hi.
  cbn [map Py.unique length Z.of_nat profile_batches Z.ltb Z.compare bind].
  unfold generate_recommendations, cosine_top_indices.
  cbn [set_all_vectors user_profiles]. rewrite Hp.
  reflexivity.
Qed.

End RunShape.

Lemma X5_table_is_blocks_in_run_order_witness :
  exists rowss,
    Forall2 (fun u rows =>
               Forall (fun r => fst (fst r) = u) rows /\
               rows_for u ExampleOthers.table = map add_source rows)
            [1; 2] rowss /\
    ExampleOthers.table = map add_source (concat rowss).
Proof.
  apply (X5_table_is_blocks_in_run_order (lib := Reference.lib)
           ExampleOthers.self ExampleOthers.table).
  - reflexivity.
  - reflexivity.
  - vm_compute. reflexivity.
Defined.

Lemma X6_one_batch_table_sorted_by_user_witness :
  ascending Z.ltb (map rec_user_id ExampleOthers.table).
Proof.
  apply (X6_one_batch_table_sorted_by_user (lib := Reference.lib)
           ExampleOthers.self).
  - reflexivity.
  - reflexivity.
  - vm_compute. lia.
  - vm_compute. reflexivity.
Defined.

Lemma X7_rows_depend_on_own_interactions_witness :
  rows_for 1 [ mk_recommendation 1 104 1 module_source_value;
               mk_recommendation 1 104 2 module_source_value ]
  = rows_for 1 ExampleOthers.table.
Proof.
  apply (X7_rows_depend_on_own_interactions (lib := Reference.lib)
           ExampleA.self ExampleOthers.self).
  - reflexivity.
  - reflexivity.
  - reflexivity.
  - reflexivity.
  - reflexivity.
  - reflexivity.
  - vm_compute. reflexivity.
  - vm_compute. reflexivity.
Defined.

Lemma X8_empty_log_empty_table_witness :
  get_recommendations (lib := Reference.lib) ExampleEmptyLog.self = Ok [].
Proof.
  apply (X8_empty_log_empty_table (lib := Reference.lib) ExampleEmptyLog.self
           (map embedding ExampleA.catalog)).
  - reflexivity.
  - reflexivity.
  - reflexivity.
Defined.

(** ** A second call on the same object *)

Lemma dict_set_same {V : Type} k (v : V) d :
  Py.dict_get k d = Some v -> Py.dict_set k v d = d.
Proof.
  induction d as [| [k0 v0] d IH]; cbn [Py.dict_get Py.dict_set];
    [discriminate |].
  destruct (k =? k0) eqn:E.
  - intros H. inversion H. apply Z.eqb_eq in E. subst. reflexivity.
  - intros H. rewrite (IH H). reflexivity.
Qed.

Section SecondCall.

Context {lib : Sklearn}.

Lemma get_recommendations_of_state self :
  get_recommendations self
  = (s <- get_recommendations_state self ;; Ok (recommendations_df s)).
Proof.
  unfold get_recommendations, get_recommendations_state.
  destruct (Np.vstack (map embedding (content_df self))) as [m | |];
    cbn [bind]; try reflexivity.
  destruct (generate_user_profiles _ _ _) as [s2 | |]; cbn [bind];
    reflexivity.
Qed.

(** Storing again the entries that the registries hold changes nothing. *)
Lemma store_users_idem us s :
  (forall u, In u us ->
     Py.dict_get u (cosine_scores s) = Some (fst (entry_of s u)) /\
     Py.dict_get u (user_profiles s) = Some (snd (entry_of s u))) ->
  store_users us s = s.
Proof.
  unfold store_users. induction us as [| u us IH]; intros H;
    cbn [fold_left]; [reflexivity |].
  assert (Hu : set_user s u (fst (entry_of s u)) (snd (entry_of s u)) = s).
  { destruct (H u (or_introl eq_refl)) as [Hs Hp].
    unfold set_user. rewrite (dict_set_same _ _ _ Hs), (dict_set_same _ _ _ Hp).
    destruct s; reflexivity. }
  rewrite Hu. apply IH. intros v Hv. apply H. simpl. auto.
Qed.

Lemma state_after_run self s1 :
  cosine_scores self = [] -> user_profiles self = [] ->
  get_recommendations_state self = Ok s1 ->
  forallb (accepted (stacked self)) (log_users self) = true /\
  exists rowss,
    Forall2 (fun u rows =>
               user_rows (profiled (stacked self) (run_order self)) u = Ok rows)
            (run_order self) rowss /\
    s1 = set_recommendations_df (profiled (stacked self) (run_order self))
           (map add_source (concat rowss)).
Proof.
  intros Hc Hp H. unfold get_recommendations_state in H.
  inv_bind H. destruct (vstack_Ok _ _ Ha) as [-> _].
  fold (stacked self) in H. cbn [stacked set_all_vectors interactions_df] in H.
  fold (stacked self) in H. rewrite (run_profiles self Hc Hp) in H.
  destruct (forallb (accepted (stacked self)) (log_users self));
    [| discriminate].
  split; [reflexivity |].
  cbn [bind] in H. apply generate_recommendations_Ok in H.
  destruct H as (rowss & HF & ->). rewrite profiled_keys in HF.
  exists rowss. split; [exact HF | reflexivity].
Qed.

Lemma second_call self s1 :
  cosine_scores self = [] -> user_profiles self = [] ->
  get_recommendations_state self = Ok s1 ->
  get_recommendations_state s1 = Ok s1.
Proof.
  intros Hc Hp H.
  pose proof H as Hm. unfold get_recommendations_state in Hm.
  destruct (Np.vstack (map embedding (content_df self))) as [m | |] eqn:Ev;
    cbn [bind] in Hm; try discriminate. clear Hm.
  destruct (vstack_Ok _ _ Ev) as [-> _].
  destruct (state_after_run self s1 Hc Hp H) as (Hacc & rowss & HF & Hs1).
  set (s2 := profiled (stacked self) (run_order self)) in *.
  assert (Hcont : content_df s1 = content_df self) by (subst s1; reflexivity).
  assert (Hint : interactions_df s1 = interactions_df self)
    by (subst s1; reflexivity).
  assert (Hav : all_vectors s1 = map embedding (content_df self))
    by (subst s1; reflexivity).
  assert (Hsc : cosine_scores s1 = cosine_scores s2) by (subst s1; reflexivity).
  assert (Hpr : user_profiles s1 = user_profiles s2) by (subst s1; reflexivity).
  assert (Hlog : log_users s1 = log_users self)
    by (unfold log_users; rewrite Hint; reflexivity).
  unfold get_recommendations_state. rewrite Hcont, Ev. cbn [bind].
  assert (Hsame : set_all_vectors s1 (map embedding (content_df self)) = s1).
  { unfold set_all_vectors. rewrite <- Hav. destruct s1; reflexivity. }
  rewrite Hsame.
  (* the profiles *)
  assert (Hprof : generate_user_profiles (S (length (interactions_df s1)))
                    default_batch_size s1 = Ok s1).
  { unfold generate_user_profiles. fold (log_users s1).
    destruct (profile_batches_store (S (length (interactions_df s1)))
                default_batch_size (log_users s1) s1)
      as (order & Hperm & Hrun).
    - unfold default_batch_size. lia.
    - unfold log_users.
      pose proof (unique_length (map user_id (interactions_df s1))) as K.
      rewrite length_map in K. lia.
    - apply unique_NoDup.
    - auto.
    - rewrite Hrun.
      rewrite (forallb_ext_in (accepted s1) (accepted (stacked self)))
        by (intros; apply accepted_tables; assumption).
      rewrite Hlog, Hacc.
      f_equal. apply store_users_idem. intros u Hu.
      assert (Hin : In u (run_order self)).
      { eapply Permutation_in; [symmetry; apply run_order_perm |].
        rewrite <- Hlog. eapply Permutation_in; [exact Hperm | exact Hu]. }
      assert (He : entry_of s1 u = entry_of (stacked self) u).
      { apply entry_of_tables; [exact Hcont | exact Hint | exact Hav]. }
      rewrite He, Hsc, Hpr. unfold s2.
      rewrite profiled_scores, profiled_profile by exact Hin. auto. }
  rewrite Hprof. cbn [bind].
  (* the table *)
  apply generate_recommendations_Ok. exists rowss. split.
  - rewrite Hpr. unfold s2 at 1. rewrite profiled_keys.
    eapply Forall2_impl; [| exact HF].
    intros u rows Hu. cbv beta in Hu. rewrite <- Hu.
    apply user_rows_ext.
    + rewrite Hcont. reflexivity.
    + rewrite Hav. reflexivity.
    + rewrite Hsc. reflexivity.
    + rewrite Hpr. reflexivity.
  - rewrite Hs1 at 1. rewrite Hs1. reflexivity.
Qed.

(** X9.  A second call of [get_recommendations] on the object that a first
    call on a fresh object has left changes nothing: the registries keep
    their entries and their order, and the call returns the table of the
    first call. *)
Theorem X9_second_call_returns_same_table self s1 :
  cosine_scores self = [] -> user_profiles self = [] ->
  get_recommendations_state self = Ok s1 ->
  get_recommendations self = Ok (recommendations_df s1) /\
  get_recommendations_state s1 = Ok s1 /\
  get_recommendations s1 = Ok (recommendations_df s1).
Proof.
  intros Hc Hp H.
  pose proof (second_call self s1 Hc Hp H) as H2.
  rewrite !get_recommendations_of_state, H, H2. auto.
Qed.

End SecondCall.

Lemma X9_second_call_returns_same_table_witness :
  get_recommendations (lib := Reference.lib)
    (set_recommendations_df
       (profiled (lib := Reference.lib) (stacked ExampleOthers.self) [1; 2])
       ExampleOthers.table)
  = Ok ExampleOthers.table.
Proof.
  apply (X9_second_call_returns_same_table (lib := Reference.lib)
           ExampleOthers.self
           (set_recommendations_df
              (profiled (lib := Reference.lib) (stacked ExampleOthers.self)
                 [1; 2])
              ExampleOthers.table)).
  - reflexivity.
  - reflexivity.
  - vm_compute. reflexivity.
Defined.

(** ** A run that does not raise *)

Lemma Forall2_total {A B : Type} (f : A -> result B) l :
  (forall x, In x l -> exists y, f x = Ok y) ->
  exists ys, Forall2 (fun x y => f x = Ok y) l ys.
Proof.
  induction l as [| x l IH]; intros H.
  - exists []. constructor.
  - destruct (H x (or_introl eq_refl)) as (y & Hy).
    destruct IH as (ys & Hys); [intros z Hz; apply H; simpl; auto |].
    exists (y :: ys). constructor; assumption.
Qed.

Lemma for_each_total {A S : Type} (f : S -> A -> result S) xs s :
  (forall s x, In x xs -> exists s', f s x = Ok s') ->
  exists out, for_each f xs s = Ok out.
Proof.
  revert s. induction xs as [| x xs IH]; intros s H; cbn [for_each].
  - eauto.
  - destruct (H s x (or_introl eq_refl)) as (s' & Hs'). rewrite Hs'.
    cbn [bind]. apply IH. intros s0 z Hz. apply H. simpl. auto.
Qed.

Lemma combine_In_r {A B : Type} (l1 : list A) (l2 : list B) y :
  length l1 = length l2 -> In y l2 -> exists x, In (x, y) (combine l1 l2).
Proof.
  revert l2. induction l1 as [| a l1 IH]; intros [| b l2] Hlen Hy;
    cbn [length] in Hlen; try discriminate; [destruct Hy |].
  destruct Hy as [<- | Hy].
  - exists a. simpl. auto.
  - destruct (IH l2) as (x & Hx); [lia | exact Hy |].
    exists x. simpl. auto.
Qed.

Lemma mask_rows_nonempty content labels c :
  length content = length labels -> In c labels ->
  exists rows,
    mask_rows content labels c = Ok rows /\ rows <> [] /\ incl rows content.
Proof.
  intros Hlen Hc. unfold mask_rows.
  rewrite (proj2 (Nat.eqb_eq _ _) Hlen).
  eexists. split; [reflexivity |]. split.
  - destruct (combine_In_r content labels c Hlen Hc) as (x & Hx).
    assert (Hin : In x (map fst (filter (fun rl => snd rl =? c)
                                        (combine content labels)))).
    { apply in_map_iff. exists (x, c). split; [reflexivity |].
      apply filter_In. split; [exact Hx | apply Z.eqb_refl]. }
    intros E. rewrite E in Hin. exact Hin.
  - intros x Hx. apply in_map_iff in Hx. destruct Hx as ([x' l] & <- & Hin).
    apply filter_In in Hin. destruct Hin as [Hin _].
    apply in_combine_l in Hin. exact Hin.
Qed.

Lemma emit_neighbors_total {lib : Sklearn} self uid prev nbrs recs :
  Forall (fun di : Q * nat => (snd di < length (content_df self))%nat) nbrs ->
  exists out, emit_neighbors self uid prev nbrs recs = Ok out.
Proof.
  intros H. revert recs.
  induction H as [| [dist idx] rest Hidx _ IH]; intros recs;
    cbn [emit_neighbors]; [eauto |].
  cbn [snd] in Hidx. rewrite (iloc_content_id_nth self idx Hidx). cbn [bind].
  destruct (negb (Py.isin _ prev)); [| apply IH].
  destruct (total_recommendations <=? _)%nat; [eauto | apply IH].
Qed.

Lemma reference_contract : library_contract Reference.lib.
Proof.
  unfold library_contract. cbn [argsort kneighbors fit_predict cosine_distances
                                 Reference.lib].
  split; [| split; [| split]].
  - intros l. apply Forall_forall. intros idx H.
    unfold Reference.argsort in H. apply sorted_In in H.
    apply in_seq in H. lia.
  - intros n X q. apply Forall_forall. intros [d idx] H.
    unfold Reference.kneighbors in H. apply In_firstn_inv in H.
    apply sorted_In in H. apply in_combine_r in H. apply in_seq in H.
    cbn [snd]. lia.
  - intros D. unfold Reference.fit_predict. rewrite !length_map. reflexivity.
  - intros X. unfold Reference.cosine_distances. apply length_map.
Qed.

Section Totality.

Context {lib : Sklearn}.

Hypothesis Hlib : library_contract lib.

Lemma user_profile_shape bc inter :
  length (content (user_profile bc inter))
  = length (clusters (user_profile bc inter)) /\
  incl (content (user_profile bc inter)) bc.
Proof.
  destruct Hlib as (_ & _ & Hfit & Hdist).
  unfold user_profile. cbn [content clusters].
  set (gc := good_content bc inter).
  split.
  - destruct (length gc <? 5)%nat.
    + rewrite length_map, length_seq. reflexivity.
    + rewrite Hfit, Hdist, length_map. reflexivity.
  - intros c Hc. unfold gc, good_content in Hc. apply filter_In in Hc.
    apply Hc.
Qed.

Lemma cluster_step_total self uid p recs item n :
  all_vectors self = map embedding (content_df self) ->
  (forall c, In c (content_df self) -> length (embedding c) = n) ->
  length (content p) = length (clusters p) ->
  incl (content p) (content_df self) ->
  In item (value_counts_normalize (clusters p)) ->
  exists out, cluster_step self uid p recs item = Ok out.
Proof.
  intros Hav Hn Hlen Hincl Hitem.
  destruct Hlib as (_ & Hknn & _ & _).
  destruct item as [cluster proportion]. unfold cluster_step.
  destruct (cluster =? -1); [eauto |].
  apply value_counts_normalize_In in Hitem. destruct Hitem as [Hc _].
  destruct (mask_rows_nonempty (content p) (clusters p) cluster Hlen Hc)
    as (rows & Hrows & Hne & Hsub).
  rewrite Hrows. cbn [bind].
  assert (Hstack : Np.vstack (map embedding rows) = Ok (map embedding rows)).
  { apply (vstack_of_uniform _ n).
    - destruct rows; [contradiction | discriminate].
    - intros r Hr. apply in_map_iff in Hr. destruct Hr as (c & <- & Hin).
      apply Hn, Hincl, Hsub, Hin. }
  rewrite Hstack. cbn [bind].
  assert (Hcat : (1 <= length (all_vectors self))%nat).
  { rewrite Hav, length_map.
    destruct rows as [| c rows']; [contradiction |].
    assert (Hin : In c (content_df self))
      by (apply Hincl, Hsub; simpl; auto).
    destruct (content_df self); [destruct Hin | cbn [length]; lia]. }
  unfold knn_query, n_neighbors, cluster_recommendation_count.
  set (k := Z.min _ _).
  assert (Hk : 1 <= k <= Z.of_nat (length (all_vectors self)))
    by (unfold k; lia).
  assert (E1 : (k <? 1) = false) by (apply Z.ltb_ge; lia).
  assert (E2 : (Z.of_nat (length (all_vectors self)) <? k) = false)
    by (apply Z.ltb_ge; lia).
  rewrite E1, E2. cbn [orb bind].
  apply emit_neighbors_total.
  eapply Forall_impl; [| apply Hknn].
  intros di Hdi. cbv beta in Hdi. rewrite Hav, length_map in Hdi. exact Hdi.
Qed.

Lemma user_rows_total self order u n :
  (forall c, In c (content_df self) -> length (embedding c) = n) ->
  In u order ->
  exists rows, user_rows (profiled (stacked self) order) u = Ok rows.
Proof.
  intros Hn Hu.
  destruct Hlib as (Hargsort & _).
  set (s := profiled (stacked self) order).
  set (e := entry_of (stacked self) u).
  assert (Hs : Py.dict_get u (cosine_scores s) = Some (fst e))
    by (apply profiled_scores, Hu).
  assert (Hp : Py.dict_get u (user_profiles s) = Some (snd e))
    by (apply profiled_profile, Hu).
  destruct (user_profile_shape (content_df (stacked self))
              (rows_of_user (stacked self) u))
    as (Hlen & Hincl).
  change (user_profile (content_df (stacked self))
                       (rows_of_user (stacked self) u))
    with (snd e) in Hlen, Hincl.
  assert (Hscl : length (fst e) = length (content_df self)).
  { unfold e, entry_of, stacked. cbn [fst set_all_vectors all_vectors].
    rewrite !length_map. reflexivity. }
  unfold user_rows, Py.getitem. rewrite Hs. cbn [of_option bind].
  set (top := firstn 2000 (rev (argsort (fst e)))).
  assert (Htop : Forall (fun idx => (idx < length (content_df s))%nat /\
                                    (idx < length (fst e))%nat) top).
  { apply Forall_forall. intros idx Hidx. unfold top in Hidx.
    apply In_firstn_inv in Hidx. apply in_rev in Hidx.
    specialize (Hargsort (fst e)). rewrite Forall_forall in Hargsort.
    specialize (Hargsort idx Hidx).
    change (content_df s) with (content_df self). lia. }
  unfold recommend_user, user_candidates, Py.getitem. rewrite Hp.
  cbn [of_option bind].
  assert (Hfirst : exists recs,
    (if (length (Py.unique (map content_id (content (snd e)))) <? 5)%nat
     then walk_top_indices s u (previous_interactions (snd e)) top []
     else for_each (cluster_step s u (snd e))
                   (value_counts_normalize (clusters (snd e))) []) = Ok recs).
  { destruct (length (Py.unique (map content_id (content (snd e)))) <? 5)%nat.
    - apply (walk_top_indices_total s u (fst e)); assumption.
    - apply for_each_total. intros recs item Hitem.
      apply (cluster_step_total s u (snd e) recs item n); auto. }
  destruct Hfirst as (recs & Hrecs). rewrite Hrecs. cbn [bind].
  destruct (walk_top_indices_total s u (fst e)
              (previous_interactions (snd e)) top recs Hs Htop) as (out & Hout).
  rewrite Hout. cbn [bind]. eauto.
Qed.

Lemma get_recommendations_total self m :
  cosine_scores self = [] -> user_profiles self = [] ->
  Np.vstack (map embedding (content_df self)) = Ok m ->
  (1 <= Np.shape1 m)%nat ->
  exists table, get_recommendations self = Ok table.
Proof.
  intros Hc Hp Hm Hw.
  destruct (vstack_Ok _ _ Hm) as [-> _].
  destruct (Forall2_total
              (fun u => user_rows (profiled (stacked self) (run_order self)) u)
              (run_order self)) as (rowss & HF).
  { intros u Hu.
    apply (user_rows_total self (run_order self) u
             (length (hd [] (map embedding (content_df self))))); [| exact Hu].
    intros c Hin. apply (vstack_uniform _ _ _ Hm). apply in_map, Hin. }
  exists (map add_source (concat rowss)).
  apply (get_recommendations_exact self _ Hc Hp).
  split; [exact Hm |].
  split; [apply stacked_all_accepted; split; [exact Hm | exact Hw] |].
  exists rowss. split; [exact HF | reflexivity].
Qed.

End Totality.

(** X10.  When the library functions return what their documentation says
    ([argsort] and [kneighbors] positions of their argument, one cluster
    label per good item) and the embeddings of the catalog stack (there is
    one, all have one size, and that size is not zero), a run on a fresh
    object raises nothing and returns a table, whatever the interaction log
    holds. *)
Theorem X10_run_returns_a_table {lib : Sklearn} self m :
  library_contract lib ->
  cosine_scores self = [] -> user_profiles self = [] ->
  Np.vstack (map embedding (content_df self)) = Ok m ->
  (1 <= Np.shape1 m)%nat ->
  exists table, get_recommendations self = Ok table.
Proof. intros Hlib. apply get_recommendations_total. exact Hlib. Qed.

Lemma X10_run_returns_a_table_witness :
  exists table,
    get_recommendations (lib := Reference.lib) ExampleCap.self = Ok table.
Proof.
  apply (X10_run_returns_a_table (lib := Reference.lib) ExampleCap.self
           (map embedding ExampleCap.catalog)).
  - exact reference_contract.
  - reflexivity.
  - reflexivity.
  - vm_compute. reflexivity.
  - vm_compute. lia.
Defined.

(** ** What a run can raise *)

Lemma returns_or_raises_bind {A B : Type} allowed (m : result A)
  (k : A -> result B) :
  returns_or_raises allowed m ->
  (forall a, m = Ok a -> returns_or_raises allowed (k a)) ->
  returns_or_raises allowed (bind m k).
Proof.
  destruct m as [a | e |]; cbn [bind returns_or_raises]; auto.
Qed.

Lemma returns_or_raises_for_each {A S : Type} allowed
  (f : S -> A -> result S) xs s :
  (forall s x, In x xs -> returns_or_raises allowed (f s x)) ->
  returns_or_raises allowed (for_each f xs s).
Proof.
  revert s. induction xs as [| x xs IH]; intros s H; cbn [for_each].
  - exact I.
  - apply returns_or_raises_bind; [apply H; simpl; auto |].
    intros s' _. apply IH. intros s0 z Hz. apply H. simpl. auto.
Qed.

Lemma returns_or_raises_map_result {A B : Type} allowed
  (f : A -> result B) xs :
  (forall x, In x xs -> returns_or_raises allowed (f x)) ->
  returns_or_raises allowed (map_result f xs).
Proof.
  induction xs as [| x xs IH]; intros H; cbn [map_result].
  - exact I.
  - apply returns_or_raises_bind; [apply H; simpl; auto |].
    intros y _. apply returns_or_raises_bind; [| intros; exact I].
    apply IH. intros z Hz. apply H. simpl. auto.
Qed.

Section RunRaises.

Context {lib : Sklearn}.

Lemma iloc_content_id_raises self idx :
  returns_or_raises [ValueError; IndexError] (iloc_content_id self idx).
Proof.
  unfold iloc_content_id.
  destruct (nth_error (content_df self) idx); simpl; auto.
Qed.

Lemma cosine_score_raises self uid scores idx :
  Py.dict_get uid (cosine_scores self) = Some scores ->
  returns_or_raises [ValueError; IndexError] (cosine_score self uid idx).
Proof.
  intros Hs. unfold cosine_score, Py.getitem. rewrite Hs.
  cbn [of_option bind]. destruct (nth_error scores idx); simpl; auto.
Qed.

Lemma walk_top_indices_raises self uid scores prev top recs :
  Py.dict_get uid (cosine_scores self) = Some scores ->
  returns_or_raises [ValueError; IndexError]
    (walk_top_indices self uid prev top recs).
Proof.
  intros Hs. revert recs.
  induction top as [| idx rest IH]; intros recs; cbn [walk_top_indices];
    [exact I |].
  destruct (total_recommendations <=? length recs)%nat; [exact I |].
  apply returns_or_raises_bind; [apply iloc_content_id_raises |].
  intros cid _. destruct (negb (Py.isin cid prev)); [| apply IH].
  apply returns_or_raises_bind;
    [apply (cosine_score_raises self uid scores), Hs |].
  intros sc _. apply IH.
Qed.

Lemma emit_neighbors_raises self uid prev nbrs recs :
  returns_or_raises [ValueError; IndexError]
    (emit_neighbors self uid prev nbrs recs).
Proof.
  revert recs. induction nbrs as [| [dist idx] rest IH]; intros recs;
    cbn [emit_neighbors]; [exact I |].
  apply returns_or_raises_bind; [apply iloc_content_id_raises |].
  intros cid _. destruct (negb (Py.isin cid prev)); [| apply IH].
  destruct (total_recommendations <=? _)%nat; [exact I | apply IH].
Qed.

Lemma vstack_raises rows :
  returns_or_raises [ValueError; IndexError] (Np.vstack rows).
Proof.
  destruct rows as [| r t]; cbn [Np.vstack]; [simpl; auto |].
  match goal with |- context [forallb ?f t] => destruct (forallb f t) end;
    simpl; auto.
Qed.

Lemma cluster_step_raises self uid p recs item :
  returns_or_raises [ValueError; IndexError]
    (cluster_step self uid p recs item).
Proof.
  destruct item as [cluster proportion]. unfold cluster_step.
  destruct (cluster =? -1); [exact I |].
  apply returns_or_raises_bind.
  { unfold mask_rows. destruct (Nat.eqb _ _); simpl; auto. }
  intros rows _. apply returns_or_raises_bind; [apply vstack_raises |].
  intros m _. apply returns_or_raises_bind.
  { unfold knn_query. destruct (_ || _); simpl; auto. }
  intros nbrs _. apply emit_neighbors_raises.
Qed.

Lemma user_rows_raises self u :
  In u (Py.keys (cosine_scores self)) ->
  In u (Py.keys (user_profiles self)) ->
  returns_or_raises [ValueError; IndexError] (user_rows self u).
Proof.
  intros Hs Hp.
  apply dict_get_In_keys in Hs. destruct Hs as (scores & Hs).
  apply dict_get_In_keys in Hp. destruct Hp as (p & Hp).
  unfold user_rows, Py.getitem. rewrite Hs. cbn [of_option bind].
  unfold recommend_user, user_candidates, Py.getitem. rewrite Hp.
  cbn [of_option bind].
  apply returns_or_raises_bind; [| intros; exact I].
  apply returns_or_raises_bind.
  - destruct (length (Py.unique (map content_id (content p))) <? 5)%nat.
    + apply (walk_top_indices_raises self u scores), Hs.
    + apply returns_or_raises_for_each. intros recs item _.
      apply cluster_step_raises.
  - intros recs _. apply (walk_top_indices_raises self u scores), Hs.
Qed.

Lemma generate_recommendations_raises self :
  Py.keys (cosine_scores self) = Py.keys (user_profiles self) ->
  returns_or_raises [ValueError; IndexError] (generate_recommendations self).
Proof.
  intros Hkeys. unfold generate_recommendations, cosine_top_indices.
  apply returns_or_raises_bind.
  - apply returns_or_raises_map_result. intros uid Huid.
    rewrite <- Hkeys in Huid. apply dict_get_In_keys in Huid.
    destruct Huid as (scores & Hs). unfold Py.getitem. rewrite Hs. exact I.
  - intros tops Htops. apply map_result_Ok_inv in Htops.
    apply returns_or_raises_bind; [| intros; exact I].
    apply returns_or_raises_for_each. intros acc ut Hut.
    apply returns_or_raises_bind; [| intros; exact I].
    assert (Hsrc : exists uid, In uid (Py.keys (user_profiles self)) /\
                     user_rows self uid
                     = recommend_user self (fst ut) (snd ut)).
    { clear - Htops Hut. induction Htops as [| uid ut' us tops Hu _ IH];
        [destruct Hut |].
      destruct Hut as [-> | Hut].
      - exists uid. split; [simpl; auto |].
        unfold user_rows. inv_bind Hu. inversion Hu; subst ut.
        rewrite Ha. reflexivity.
      - destruct (IH Hut) as (v & Hv & E). exists v.
        split; [simpl; auto | exact E]. }
    destruct Hsrc as (uid & Huid & <-).
    apply user_rows_raises; [rewrite Hkeys |]; exact Huid.
Qed.

(** X11.  Whatever the library functions return, a run on a fresh object
    ends, and if it does not return a table it raises [ValueError] or
    [IndexError]: the batch loop ends with the default batch size, and the
    two registries hold the same users, so no lookup misses its key. *)
Theorem X11_run_ends_without_key_error self :
  cosine_scores self = [] -> user_profiles self = [] ->
  returns_or_raises [ValueError; IndexError] (get_recommendations self).
Proof.
  intros Hc Hp. unfold get_recommendations.
  apply returns_or_raises_bind; [apply vstack_raises |].
  intros m Hm. destruct (vstack_Ok _ _ Hm) as [-> _].
  fold (stacked self). cbn [stacked set_all_vectors interactions_df].
  fold (stacked self). rewrite (run_profiles self Hc Hp).
  destruct (forallb (accepted (stacked self)) (log_users self)); cbn [bind];
    [| simpl; auto].
  apply returns_or_raises_bind; [| intros; exact I].
  apply generate_recommendations_raises.
  unfold profiled, Py.keys. cbn [set_registries cosine_scores user_profiles].
  rewrite !map_map. reflexivity.
Qed.

End RunRaises.

Lemma X11_run_ends_without_key_error_witness :
  returns_or_raises [ValueError; IndexError]
    (get_recommendations (lib := Reference.lib) ExampleOthers.self).
Proof.
  apply (X11_run_ends_without_key_error (lib := Reference.lib)
           ExampleOthers.self).
  - reflexivity.
  - reflexivity.
Defined.

(** ** The length of the candidate list *)

Section CandidateCount.

Context {lib : Sklearn}.

Lemma walk_top_indices_length self uid prev top recs out :
  walk_top_indices self uid prev top recs = Ok out ->
  (length out <= Nat.max total_recommendations (length recs))%nat.
Proof.
  revert recs. induction top as [| idx rest IH]; intros recs H;
    cbn [walk_top_indices] in H.
  - inversion H; subst. lia.
  - destruct (total_recommendations <=? length recs)%nat eqn:E.
    + inversion H; subst. lia.
    + apply Nat.leb_gt in E. inv_bind H.
      destruct (negb (Py.isin a prev)).
      * inv_bind H. apply IH in H. rewrite length_app in H.
        cbn [length] in H. lia.
      * apply IH in H. exact H.
Qed.

Lemma emit_neighbors_length self uid prev nbrs recs out :
  emit_neighbors self uid prev nbrs recs = Ok out ->
  (length out <= Nat.max total_recommendations (length recs + 1))%nat.
Proof.
  assert (Hbelow : forall nbrs recs out,
            emit_neighbors self uid prev nbrs recs = Ok out ->
            (length recs < total_recommendations)%nat ->
            (length out <= total_recommendations)%nat).
  { clear. intros nbrs. induction nbrs as [| [dist idx] rest IH];
      intros recs out H Hlt; cbn [emit_neighbors] in H.
    - inversion H; subst. lia.
    - inv_bind H. destruct (negb (Py.isin a prev)); [| eapply IH; eauto].
      destruct (total_recommendations <=? _)%nat eqn:E.
      + inversion H; subst. rewrite length_app. cbn [length]. lia.
      + apply Nat.leb_gt in E. eapply IH; eauto. }
  assert (Habove : forall nbrs recs out,
            emit_neighbors self uid prev nbrs recs = Ok out ->
            (total_recommendations <= length recs)%nat ->
            (length out <= length recs + 1)%nat).
  { clear. intros nbrs. induction nbrs as [| [dist idx] rest IH];
      intros recs out H Hge; cbn [emit_neighbors] in H.
    - inversion H; subst. lia.
    - inv_bind H. destruct (negb (Py.isin a prev)); [| eapply IH; eauto].
      destruct (total_recommendations <=? _)%nat eqn:E.
      + inversion H; subst. rewrite length_app. cbn [length]. lia.
      + apply Nat.leb_gt in E. rewrite length_app in E. cbn [length] in E.
        lia. }
  intros H.
  destruct (Nat.lt_ge_cases (length recs) total_recommendations) as [Hlt | Hge].
  - pose proof (Hbelow _ _ _ H Hlt). lia.
  - pose proof (Habove _ _ _ H Hge). lia.
Qed.

Lemma cluster_step_length self uid p recs item out :
  cluster_step self uid p recs item = Ok out ->
  if fst item =? -1 then out = recs
  else (length out <= Nat.max total_recommendations (length recs + 1))%nat.
Proof.
  destruct item as [cluster proportion]. unfold cluster_step. cbn [fst].
  destruct (cluster =? -1); intros H; [inversion H; reflexivity |].
  inv_bind H. inv_bind H. inv_bind H.
  apply emit_neighbors_length in H. exact H.
Qed.

Lemma for_each_cluster_step_length self uid p items recs out :
  for_each (cluster_step self uid p) items recs = Ok out ->
  let k := length (filter (fun cp : Z * Q => negb (fst cp =? -1)) items) in
  (length out <= if Nat.eqb k 0 then length recs
                 else Nat.max (total_recommendations - 1 + k)
                              (length recs + k))%nat.
Proof.
  revert recs. induction items as [| item items IH]; intros recs H;
    cbn [for_each] in H.
  - inversion H; subst. cbn. lia.
  - inv_bind H. apply cluster_step_length in Ha. apply IH in H.
    cbn zeta in *. cbn [filter].
    destruct (fst item =? -1); cbn [negb].
    + subst a. exact H.
    + cbn [length].
      set (k := length (filter (fun cp : Z * Q => negb (fst cp =? -1)) items))
        in *.
      change (Nat.eqb (S k) 0) with false. cbv iota.
      assert (Htot : (1 <= total_recommendations)%nat)
        by (unfold total_recommendations; lia).
      destruct (Nat.eqb k 0) eqn:E.
      * apply Nat.eqb_eq in E. lia.
      * lia.
Qed.

(** X12.  The candidate list of a user can grow past
    [total_recommendations], but by no more than one candidate for each
    cluster after the first: with [k] clusters other than noise it holds at
    most [max 50 (49 + k)] candidates. *)
Theorem X12_candidate_list_bound self uid top p recs :
  Py.dict_get uid (user_profiles self) = Some p ->
  user_candidates self uid top = Ok recs ->
  (length recs
   <= Nat.max total_recommendations
        (total_recommendations - 1
         + length (slot_counts (Z.of_nat total_recommendations)
                     (value_counts_normalize (clusters p)))))%nat.
Proof.
  intros Hp H. unfold user_candidates, Py.getitem in H. rewrite Hp in H.
  cbn [of_option bind] in H. inv_bind H.
  apply walk_top_indices_length in H.
  unfold slot_counts. rewrite length_map.
  destruct (length (Py.unique (map content_id (content p))) <? 5)%nat.
  - apply walk_top_indices_length in Ha. cbn [length] in Ha. lia.
  - apply for_each_cluster_step_length in Ha. cbn zeta in Ha.
    cbn [length] in Ha.
    destruct (Nat.eqb _ 0); lia.
Qed.

(** X13.  A user with five or more distinct good items, all of which the
    clusterer labels noise, gets no candidate from the clusters: the
    candidate list is the eligible pool items in pool order, each once, cut
    at [total_recommendations]. *)
Theorem X13_all_noise_candidates self uid scores p top :
  Py.dict_get uid (cosine_scores self) = Some scores ->
  Py.dict_get uid (user_profiles self) = Some p ->
  (5 <= length (Py.unique (map content_id (content p))))%nat ->
  Forall (fun label => label = -1) (clusters p) ->
  Forall (fun idx => (idx < length (content_df self))%nat /\
                     (idx < length scores)%nat) top ->
  user_candidates self uid top
  = Ok (firstn total_recommendations
          (map (pool_candidate self uid scores)
               (filter (eligible self (previous_interactions p)) top))).
Proof.
  intros Hs Hp Hmany Hnoise Htop.
  unfold user_candidates, Py.getitem. rewrite Hp. cbn [of_option bind].
  assert (E : (length (Py.unique (map content_id (content p))) <? 5)%nat
              = false) by (apply Nat.ltb_ge; exact Hmany).
  rewrite E.
  assert (Hskip : forall items,
            (forall item, In item items -> fst item = -1) ->
            for_each (cluster_step self uid p) items [] = Ok []).
  { induction items as [| [cluster proportion] items IH]; intros H;
      cbn [for_each]; [reflexivity |].
    pose proof (H (cluster, proportion) (or_introl eq_refl)) as Hc.
    cbn [fst] in Hc. subst cluster. unfold cluster_step at 1.
    change (-1 =? -1) with true. cbn [bind]. apply IH.
    intros item Hitem. apply H. simpl. auto. }
  rewrite Hskip.
  - cbn [bind].
    rewrite (walk_top_indices_exact self uid scores _ top [] Hs Htop).
    cbn [app length]. rewrite Nat.sub_0_r. reflexivity.
  - intros [cluster proportion] Hitem.
    apply value_counts_normalize_In in Hitem. destruct Hitem as [Hin _].
    rewrite Forall_forall in Hnoise. cbn [fst]. apply Hnoise, Hin.
Qed.

End CandidateCount.

Lemma X12_candidate_list_bound_witness :
  exists recs,
    user_candidates (lib := Reference.lib)
      (profiled (lib := Reference.lib) ExampleCap.self [1]) 1 [0%nat]
    = Ok recs /\
    (length recs <= 60)%nat.
Proof.
  eexists. split.
  - vm_compute. reflexivity.
  - apply (X12_candidate_list_bound (lib := Reference.lib)
             (profiled (lib := Reference.lib) ExampleCap.self [1]) 1 [0%nat]
             (snd (entry_of (lib := Reference.lib) ExampleCap.self 1))).
    + vm_compute. reflexivity.
    + vm_compute. reflexivity.
Defined.

Lemma X13_all_noise_candidates_witness :
  user_candidates (lib := Reference.lib)
    (profiled (lib := Reference.lib) (stacked ExampleNoise.self) [1])
    1 [0; 1; 55]%nat
  = Ok [(1, 1000,
         (549755813888000000000000000000000
          # 1229291370879290955898261701322901)%Q);
        (1, 1001,
         (549755813888000000000000000000000
          # 1229291370879290955898261701322901)%Q)].
Proof.
  rewrite (X13_all_noise_candidates (lib := Reference.lib)
             (profiled (lib := Reference.lib) (stacked ExampleNoise.self) [1])
             1
             (fst (entry_of (lib := Reference.lib)
                     (stacked ExampleNoise.self) 1))
             (snd (entry_of (lib := Reference.lib)
                     (stacked ExampleNoise.self) 1))).
  - vm_compute. reflexivity.
  - reflexivity.
  - reflexivity.
  - vm_compute. lia.
  - vm_compute. repeat constructor.
  - vm_compute. repeat constructor; lia.
Defined.

(** ** The loop over the neighbours of a cluster *)

(** X14.  The loop over the neighbours of a cluster (lines 85-91) keeps the
    candidates it is given and appends the neighbours whose content id is
    not a previous interaction, in the order of the neighbour query and with
    score [1 - distance], until the list holds [total_recommendations]
    candidates; as the cap is tested after the append, it appends one
    candidate even when the list was full already. *)
Theorem X14_neighbor_loop_appends_at_least_one self uid prev nbrs recs :
  Forall (fun di : Q * nat => (snd di < length (content_df self))%nat) nbrs ->
  emit_neighbors self uid prev nbrs recs
  = Ok (recs ++ firstn (Nat.max 1 (total_recommendations - length recs))
                  (map (neighbor_candidate self uid)
                       (filter (fun di => eligible self prev (snd di)) nbrs))).
Proof.
  intros H. revert recs.
  induction H as [| [dist idx] rest Hidx _ IH]; intros recs;
    cbn [emit_neighbors].
  - cbn [filter map]. rewrite firstn_nil, app_nil_r. reflexivity.
  - cbn [snd] in Hidx. rewrite (iloc_content_id_nth self idx Hidx).
    cbn [bind filter snd]. fold (eligible self prev idx).
    destruct (eligible self prev idx) eqn:Eel; [| apply IH].
    cbn [map]. unfold neighbor_candidate at 2. cbn [fst snd].
    destruct (total_recommendations <=? _)%nat eqn:E.
    + apply Nat.leb_le in E. rewrite length_app in E. cbn [length] in E.
      replace (Nat.max 1 (total_recommendations - length recs)) with 1%nat
        by lia.
      cbn [firstn]. reflexivity.
    + apply Nat.leb_gt in E. rewrite length_app in E. cbn [length] in E.
      rewrite IH, length_app. cbn [length].
      replace (Nat.max 1 (total_recommendations - length recs))
        with (S (Nat.max 1 (total_recommendations - (length recs + 1))))
        by lia.
      cbn [firstn]. rewrite <- app_assoc. reflexivity.
Qed.

Lemma X14_neighbor_loop_appends_at_least_one_witness :
  emit_neighbors ExampleA.self 1 [101; 102; 103]
    [(0%Q, 0%nat); ((1 # 4)%Q, 3%nat); ((1 # 2)%Q, 3%nat)]
    (repeat (1, 104, 0%Q) 50)
  = Ok (repeat (1, 104, 0%Q) 50 ++ [(1, 104, (1 - (1 # 4))%Q)]).
Proof.
  apply (X14_neighbor_loop_appends_at_least_one
           ExampleA.self 1 [101; 102; 103]
           [(0%Q, 0%nat); ((1 # 4)%Q, 3%nat); ((1 # 2)%Q, 3%nat)]
           (repeat (1, 104, 0%Q) 50)).
  repeat constructor.
Defined.

(** ** What the profile of a user is made from *)

(** X15.  Whenever recommendation generation takes the multi-cluster path
    for a profile that the loop body of profile building returned (five or
    more distinct good content ids), the cluster labels of the profile are
    the ones the clusterer returned for the cosine distance matrix of the
    good vectors: the labels [0 .. n-1] that profile building gives to fewer
    than five good rows are never read. *)
Theorem X15_clusters_read_come_from_clusterer {lib : Sklearn} av bc inter e :
  user_entry av bc inter = Ok e ->
  (5 <= length (Py.unique (map content_id (content (snd e)))))%nat ->
  clusters (snd e)
  = fit_predict (cosine_distances (map embedding (content (snd e)))).
Proof.
  rewrite user_entry_spec. destruct (accepts av bc inter); [| discriminate].
  intros He. inversion He; subst e. clear He.
  unfold user_profile. cbn [snd content clusters].
  set (gc := good_content bc inter). intros H.
  pose proof (unique_length (map content_id gc)) as Hle.
  rewrite length_map in Hle.
  destruct (length gc <? 5)%nat eqn:E; [| reflexivity].
  apply Nat.ltb_lt in E. lia.
Qed.

Lemma X15_clusters_read_come_from_clusterer_witness :
  clusters (snd (entry_of (lib := Reference.lib) (stacked ExampleNoise.self) 1))
  = [-1; -1; -1; -1; -1].
Proof.
  rewrite (X15_clusters_read_come_from_clusterer (lib := Reference.lib)
             (all_vectors (stacked ExampleNoise.self))
             (content_df (stacked ExampleNoise.self))
             (rows_of_user (stacked ExampleNoise.self) 1)
             (entry_of (lib := Reference.lib) (stacked ExampleNoise.self) 1)).
  - vm_compute. reflexivity.
  - vm_compute. reflexivity.
  - vm_compute. lia.
Defined.

Lemma user_entry_good_rows {lib : Sklearn} av bc inter1 inter2 :
  filter (fun i => Py.isin (rating i) [4; 5]) inter1
  = filter (fun i => Py.isin (rating i) [4; 5]) inter2 ->
  user_vector av bc inter1 = user_vector av bc inter2 /\
  accepts av bc inter1 = accepts av bc inter2 /\
  content (user_profile bc inter1) = content (user_profile bc inter2) /\
  clusters (user_profile bc inter1) = clusters (user_profile bc inter2).
Proof.
  intros H.
  assert (Hgc : good_content bc inter1 = good_content bc inter2)
    by (unfold good_content; rewrite H; reflexivity).
  unfold accepts, user_vector, user_profile. cbn [content clusters].
  rewrite Hgc. auto.
Qed.

(** X16.  The ratings 1 and 2 of a user change nothing in the user's vector:
    with the same catalog, two logs in which the user has the same good
    (4-5) rows give the user the same row of cosine scores, the same good
    content and the same cluster labels, and the loop body returns for the
    one log exactly when it returns for the other.  Only the previous
    interactions can differ. *)
Theorem X16_negative_ratings_leave_scores {lib : Sklearn} s1 s2 u :
  content_df s1 = content_df s2 ->
  all_vectors s1 = all_vectors s2 ->
  filter (fun i => Py.isin (rating i) [4; 5]) (rows_of_user s1 u)
  = filter (fun i => Py.isin (rating i) [4; 5]) (rows_of_user s2 u) ->
  fst (entry_of s1 u) = fst (entry_of s2 u) /\
  content (snd (entry_of s1 u)) = content (snd (entry_of s2 u)) /\
  clusters (snd (entry_of s1 u)) = clusters (snd (entry_of s2 u)) /\
  (forall e1,
     user_entry (all_vectors s1) (content_df s1) (rows_of_user s1 u) = Ok e1 ->
     exists e2,
       user_entry (all_vectors s2) (content_df s2) (rows_of_user s2 u) = Ok e2 /\
       fst e1 = fst e2 /\
       content (snd e1) = content (snd e2) /\
       clusters (snd e1) = clusters (snd e2)).
Proof.
  intros Hc Hv Hgood.
  destruct (user_entry_good_rows (all_vectors s2) (content_df s2)
              (rows_of_user s1 u) (rows_of_user s2 u) Hgood)
    as (Huv & Hacc & Hcont & Hcl).
  assert (H3 : fst (entry_of s1 u) = fst (entry_of s2 u) /\
               content (snd (entry_of s1 u)) = content (snd (entry_of s2 u)) /\
               clusters (snd (entry_of s1 u)) = clusters (snd (entry_of s2 u))).
  { unfold entry_of. cbn [fst snd]. rewrite Hc, Hv, Huv. auto. }
  destruct H3 as (H1 & H2 & H3).
  split; [exact H1 |]. split; [exact H2 |]. split; [exact H3 |].
  intros e1. rewrite !entry_of_user_entry.
  unfold accepted. rewrite Hc, Hv, Hacc.
  destruct (accepts _ _ (rows_of_user s2 u)); [| discriminate].
  intros He. inversion He; subst e1. eauto.
Qed.

Lemma X16_negative_ratings_leave_scores_witness :
  fst (entry_of (lib := Reference.lib) (stacked ExampleA.self) 1)
  = fst (entry_of (lib := Reference.lib)
           (stacked (ClusteredKNN ExampleA.catalog
                       [ mk_interaction 1 101 5; mk_interaction 1 104 2;
                         mk_interaction 1 102 5 ] [1])) 1).
Proof.
  apply (X16_negative_ratings_leave_scores (lib := Reference.lib)
           (stacked ExampleA.self)
           (stacked (ClusteredKNN ExampleA.catalog
                       [ mk_interaction 1 101 5; mk_interaction 1 104 2;
                         mk_interaction 1 102 5 ] [1])) 1).
  - reflexivity.
  - reflexivity.
  - reflexivity.
Defined.

(** ** Users without a good rating *)

Lemma no_good_entry {lib : Sklearn} self u :
  (forall i, In i (interactions_df self) -> user_id i = u ->
             ~ In (rating i) [4; 5]) ->
  entry_of self u
  = (map (cosine (Np.zeros (Np.shape1 (all_vectors self)))) (all_vectors self),
     mk_profile [] [] (previous_of self u)).
Proof.
  intros Hgood.
  assert (Hnogood : filter (fun i => Py.isin (rating i) [4; 5])
                           (rows_of_user self u) = []).
  { unfold rows_of_user.
    destruct (filter _ (filter _ (interactions_df self))) as [| i t] eqn:E;
      [reflexivity |].
    assert (Hi : In i (i :: t)) by (simpl; auto).
    rewrite <- E in Hi. apply filter_In in Hi. destruct Hi as [Hi Hr].
    apply filter_In in Hi. destruct Hi as [Hi Hui].
    apply Z.eqb_eq in Hui. apply isin_In in Hr.
    exfalso. exact (Hgood i Hi Hui Hr). }
  assert (Hgc : good_content (content_df self) (rows_of_user self u) = []).
  { unfold good_content. rewrite Hnogood. cbn [map].
    induction (content_df self) as [| c t IH]; [reflexivity | exact IH]. }
  unfold entry_of, user_vector, user_profile, previous_of. rewrite Hgc.
  reflexivity.
Qed.

(** The rows of a user of the registry in the table that generation
    leaves. *)
Lemma generate_recommendations_block {lib : Sklearn} s s' u :
  NoDup (Py.keys (user_profiles s)) ->
  In u (Py.keys (user_profiles s)) ->
  generate_recommendations s = Ok s' ->
  exists rows,
    user_rows s u = Ok rows /\
    rows_for u (recommendations_df s') = map add_source rows.
Proof.
  intros Hnd Hu H. apply generate_recommendations_Ok in H.
  destruct H as (rowss & HF & ->).
  destruct (filter_concat_blocks (fun r : Z * Z * Z => fst (fst r))
              (fun v rows => user_rows s v = Ok rows)
              (Py.keys (user_profiles s)) rowss HF
              (fun v rows Hv => user_rows_key _ _ _ Hv) Hnd u) as [Hin _].
  destruct (Hin Hu) as (rows & Hrows & Hfilter).
  exists rows. split; [exact Hrows |].
  cbn [set_recommendations_df recommendations_df].
  rewrite rows_for_add_source, Hfilter. reflexivity.
Qed.

(** C9.  On an object whose [all_vectors] is the stacked catalog, a user of
    the log without a good (4-5) rating does not make profile building
    fail.  The user gets a profile with no good content and no cluster; the
    user's vector is the zero vector, as long as the embeddings of the
    catalog; [cosine_similarity] accepts it, and the scores it returns are
    stored for the user.  The user is a key of the registry that
    recommendation generation walks: whenever [generate_recommendations]
    returns, the user's rows in its table are the ranking of the
    candidates of the two walks over the fallback pool, and it does return,
    with these rows, when the library functions return what their
    documentation says. *)
Theorem C9_empty_good_set {lib : Sklearn} fuel batch_size self u :
  1 <= batch_size ->
  (length (log_users self) <= fuel)%nat ->
  cosine_scores self = [] -> user_profiles self = [] ->
  catalog_stacked self ->
  In u (log_users self) ->
  (forall i, In i (interactions_df self) -> user_id i = u ->
             ~ In (rating i) [4; 5]) ->
  exists self' p scores,
    generate_user_profiles fuel batch_size self = Ok self' /\
    Py.dict_get u (user_profiles self') = Some p /\
    content p = [] /\ clusters p = [] /\
    (forall c, In c (content_df self) ->
       length (embedding c)
       = length (Np.zeros (Np.shape1 (all_vectors self)))) /\
    cosine_similarity (Np.zeros (Np.shape1 (all_vectors self)))
                      (all_vectors self)
    = Ok scores /\
    Py.dict_get u (cosine_scores self') = Some scores /\
    In u (Py.keys (user_profiles self')) /\
    (forall s'', generate_recommendations self' = Ok s'' ->
       exists recs,
         user_candidates self' u (fallback_pool scores) = Ok recs /\
         (r <- walk_top_indices self' u (previous_interactions p)
                 (fallback_pool scores) [] ;;
          walk_top_indices self' u (previous_interactions p)
            (fallback_pool scores) r) = Ok recs /\
         rows_for u (recommendations_df s'')
         = map add_source (rank_candidates recs)) /\
    (library_contract lib ->
     exists s'',
       generate_recommendations self' = Ok s'' /\
       rows_for u (recommendations_df s'')
       = map add_source
           (rank_candidates
              (firstn total_recommendations
                 (map (pool_candidate self' u scores)
                      (filter (eligible self' (previous_interactions p))
                              (fallback_pool scores))
                  ++ map (pool_candidate self' u scores)
                         (filter (eligible self' (previous_interactions p))
                                 (fallback_pool scores)))))).
Proof.
  intros Hb Hf Hc Hp Hst Hu Hgood.
  destruct (generate_user_profiles_fresh fuel batch_size self Hb Hf Hc Hp)
    as (order & Hperm & Hrun).
  rewrite (stacked_all_accepted self _ Hst) in Hrun.
  assert (Hin : In u order)
    by (eapply Permutation_in; [symmetry; exact Hperm | exact Hu]).
  assert (Hnd : NoDup order)
    by (eapply Permutation_NoDup; [symmetry; exact Hperm | apply unique_NoDup]).
  pose proof (no_good_entry self u Hgood) as Hentry.
  pose proof (accepted_scores self u (stacked_accepted self u Hst)) as Hcs.
  rewrite Hentry in Hcs. cbn [fst snd content map] in Hcs.
  destruct Hst as [Hv Hw]. destruct (vstack_Ok _ _ Hv) as [Hav Hne].
  assert (Hself : stacked self = self).
  { unfold stacked, set_all_vectors. rewrite <- Hav. destruct self.
    reflexivity. }
  assert (Hdim : forall c, In c (content_df self) ->
            length (embedding c)
            = length (Np.zeros (Np.shape1 (all_vectors self)))).
  { intros c Hin'. unfold Np.zeros. rewrite repeat_length, Hav.
    apply (vstack_uniform _ _ _ Hv). apply in_map, Hin'. }
  set (scores := map (cosine (Np.zeros (Np.shape1 (all_vectors self))))
                     (all_vectors self)) in *.
  set (s' := profiled self order) in *.
  assert (Hgetp : Py.dict_get u (user_profiles s')
                  = Some (mk_profile [] [] (previous_of self u))).
  { unfold s'. rewrite profiled_profile by exact Hin. rewrite Hentry.
    reflexivity. }
  assert (Hgets : Py.dict_get u (cosine_scores s') = Some scores).
  { unfold s'. rewrite profiled_scores by exact Hin. rewrite Hentry.
    reflexivity. }
  assert (Hcand : forall top,
    user_candidates s' u top
    = (r <- walk_top_indices s' u (previous_of self u) top [] ;;
       walk_top_indices s' u (previous_of self u) top r)).
  { intros top. unfold user_candidates, Py.getitem. rewrite Hgetp.
    reflexivity. }
  assert (Hkeys : Py.keys (user_profiles s') = order)
    by (unfold s'; apply profiled_keys).
  assert (Hblock : forall s'', generate_recommendations s' = Ok s'' ->
    exists recs,
      user_candidates s' u (fallback_pool scores) = Ok recs /\
      rows_for u (recommendations_df s'')
      = map add_source (rank_candidates recs)).
  { intros s'' Hgen.
    destruct (generate_recommendations_block s' s'' u) as (rows & Hrows & Ht).
    - rewrite Hkeys. exact Hnd.
    - rewrite Hkeys. exact Hin.
    - exact Hgen.
    - unfold user_rows, Py.getitem in Hrows. rewrite Hgets in Hrows.
      cbn [of_option bind] in Hrows. unfold recommend_user in Hrows.
      fold (fallback_pool scores) in Hrows.
      destruct (user_candidates s' u (fallback_pool scores)) as [recs | |];
        cbn [bind] in Hrows; try discriminate.
      inversion Hrows; subst rows. exists recs. auto. }
  exists s', (mk_profile [] [] (previous_of self u)), scores.
  split; [exact Hrun |]. split; [exact Hgetp |].
  split; [reflexivity |]. split; [reflexivity |].
  split; [exact Hdim |]. split; [exact Hcs |]. split; [exact Hgets |].
  split; [rewrite Hkeys; exact Hin |].
  cbn [previous_interactions]. split.
  - intros s'' Hgen. destruct (Hblock s'' Hgen) as (recs & Hrecs & Ht).
    exists recs. split; [exact Hrecs |]. split; [| exact Ht].
    rewrite <- Hcand. exact Hrecs.
  - intros Hlib.
    assert (Hall : forall v, In v order -> exists rows, user_rows s' v = Ok rows).
    { intros v Hvin. unfold s'. rewrite <- Hself.
      apply (user_rows_total Hlib self order v
               (length (hd [] (map embedding (content_df self)))));
        [| exact Hvin].
      intros c Hin'. apply (vstack_uniform _ _ _ Hv). apply in_map, Hin'. }
    destruct (Forall2_total (fun v => user_rows s' v) order Hall)
      as (rowss & HF).
    assert (Hgen : generate_recommendations s'
                   = Ok (set_recommendations_df s'
                           (map add_source (concat rowss)))).
    { apply generate_recommendations_Ok. exists rowss.
      rewrite Hkeys. auto. }
    eexists. split; [exact Hgen |].
    destruct (Hblock _ Hgen) as (recs & Hrecs & Ht). rewrite Ht.
    rewrite Hcand in Hrecs.
    rewrite (walk_twice_exact s' u scores (previous_of self u)
               (fallback_pool scores) Hgets) in Hrecs.
    + inversion Hrecs. reflexivity.
    + destruct Hlib as (Hargsort & _).
      apply Forall_forall. intros idx Hidx. unfold fallback_pool in Hidx.
      apply In_firstn_inv in Hidx. apply in_rev in Hidx.
      specialize (Hargsort scores). rewrite Forall_forall in Hargsort.
      specialize (Hargsort idx Hidx).
      assert (Hlen : length scores = length (content_df self)).
      { unfold scores. rewrite length_map, Hav, length_map. reflexivity. }
      change (content_df s') with (content_df self). lia.
Qed.

Lemma C9_empty_good_set_witness :
  exists self' p scores,
    generate_user_profiles (lib := Reference.lib) 1 20 ExampleZero.self
    = Ok self' /\
    Py.dict_get 2 (user_profiles self') = Some p /\ content p = [] /\
    cosine_similarity (lib := Reference.lib)
      (Np.zeros (Np.shape1 (all_vectors ExampleZero.self)))
      (all_vectors ExampleZero.self)
    = Ok scores.
Proof.
  destruct (C9_empty_good_set (lib := Reference.lib) 1 20 ExampleZero.self 2)
    as (self' & p & scores & H1 & H2 & H3 & _ & _ & H6 & _).
  - lia.
  - vm_compute. apply le_n.
  - reflexivity.
  - reflexivity.
  - split; [reflexivity | vm_compute; lia].
  - vm_compute. left. reflexivity.
  - intros i Hi Hu Hr. simpl in Hi.
    destruct Hi as [<- | [<- | []]]; simpl in Hr;
      destruct Hr as [Hr | [Hr | []]]; discriminate.
  - exists self', p, scores. auto.
Defined.
